(** * The connection manager of the mcon library (mcon/manager.c)

    A shallow embedding of [manager.c]: the registry of connections kept
    as a linked list, the single-connection acquire, the discovery of the
    topology of a replica set, the two acquisition strategies and the
    teardown of the manager.

    The functions of [manager.c] are state transformers over a [state]
    that holds the manager, the heap of [mongo_connection] objects (the
    registry stores pointers to them) and the state of the outside world.
    Besides its value and the new state, a run yields the list, in order,
    of the calls that left [manager.c]: the wire operations of
    [connections.c], the selection functions of [read_preference.c] and
    the log sink. Those callees are not part of [manager.c]; they are the
    fields of the class [Collaborators]. *)

From Stdlib Require Import ZArith Ascii String DecimalString DecimalPos Lia.
From stdpp Require Import base gmap strings list.

#[local] Set Warnings "-clear-no-such-hyp".

Local Open Scope Z_scope.

(** ** Data model (types.h as used by manager.c) *)

(** Address of a [mongo_connection] object. *)
Definition ptr := positive.

(** [mongo_server_def]: the fields manager.c reads and writes. A
    [char *] that may be [NULL] is an [option string]. *)
Record mongo_server_def := {
  host : string;
  port : Z;
  db : option string;
  username : option string;
  password : option string
}.

Inductive mongo_con_type :=
| MONGO_CON_TYPE_STANDALONE
| MONGO_CON_TYPE_REPLSET
| MONGO_CON_TYPE_MULTIPLE
| MONGO_CON_TYPE_OTHER (n : Z).

Inductive mongo_rp_type :=
| MONGO_RP_PRIMARY
| MONGO_RP_PRIMARY_PREFERRED
| MONGO_RP_SECONDARY
| MONGO_RP_SECONDARY_PREFERRED
| MONGO_RP_NEAREST.

Record mongo_read_preference := {
  type : mongo_rp_type;
  tagsets : list (list (string * string))
}.

(** [mongo_servers]: [server] is the array of definitions and
    [servers->count] is its length; an entry at an index [>= count] is
    not a server definition. *)
Record mongo_servers := {
  server : list mongo_server_def;
  con_type : mongo_con_type;
  repl_set_name : option string;
  read_pref : mongo_read_preference
}.

Definition count (servers : mongo_servers) : nat := length (server servers).

(** [servers->server[servers->count] = def; servers->count++] *)
Definition servers_push (servers : mongo_servers) (def : mongo_server_def) : mongo_servers :=
  {| server := server servers ++ [def];
     con_type := con_type servers;
     repl_set_name := repl_set_name servers;
     read_pref := read_pref servers |}.

(** [mongo_con_manager_item]: [item_hash] is the item's [hash] field,
    [connection] the pointer it holds; [next] is the tail of the list. *)
Record mongo_con_manager_item := {
  item_hash : string;
  connection : ptr
}.

Record mongo_con_manager := {
  connections : list mongo_con_manager_item;
  ping_interval : Z;
  ismaster_interval : Z
}.

Definition set_connections (m : mongo_con_manager) (l : list mongo_con_manager_item) : mongo_con_manager :=
  {| connections := l; ping_interval := ping_interval m; ismaster_interval := ismaster_interval m |}.

(** What [mongo_connection_ismaster] hands back: its return value and its
    out-parameters. *)
Record ismaster_out := {
  res : Z;
  out_repl_set_name : option string;
  found_hosts : list string;
  out_error_message : option string
}.

Definition nr_hosts (o : ismaster_out) : nat := length (found_hosts o).

Inductive log_module := MLOG_CON.
Inductive log_level := MLOG_WARN | MLOG_INFO | MLOG_FINE.
Inductive log_arg := LogStr (s : option string) | LogInt (n : Z).

(** One call that leaves manager.c. *)
Inductive event :=
| EvLog (module : log_module) (level : log_level) (format : string) (args : list log_arg)
| EvCreate (def : mongo_server_def) (r : string + ptr)
| EvGetnonce (con : ptr) (r : string + string)
| EvAuthenticate (con : ptr) (database user pwd nonce : string) (r : string + unit)
| EvPing (con : ptr) (r : string + unit)
| EvIsmaster (con : ptr) (def : mongo_server_def) (o : ismaster_out)
| EvDestroy (con : ptr)
| EvFindCandidates (rp : mongo_read_preference) (auth_hash : option string) (r : option (list ptr))
| EvSort (rp : mongo_read_preference) (r : list ptr)
| EvSelectNearest (rp : mongo_read_preference) (r : list ptr)
| EvPick (rp : mongo_read_preference) (r : option ptr).

(** ** Strings of the C library used by manager.c *)

(** [strchr(s, ':')] followed by [strndup(s, p - s)] and [p + 1]: the
    text before the first colon and the text after it; [None] when there
    is no colon ([strchr] returns [NULL]). *)
Fixpoint split_colon (s : string) : option (string * string) :=
  match s with
  | EmptyString => None
  | String c rest =>
      if Ascii.eqb c ":"%char then Some (EmptyString, rest)
      else match split_colon rest with
           | Some (h, p) => Some (String c h, p)
           | None => None
           end
  end.

Definition digit_of (c : ascii) : option Z :=
  let n := Z.of_N (Ascii.N_of_ascii c) in
  if (48 <=? n) && (n <=? 57) then Some (n - 48) else None.

Fixpoint atoi_digits (acc : Z) (s : string) : Z :=
  match s with
  | EmptyString => acc
  | String c rest =>
      match digit_of c with
      | Some d => atoi_digits (10 * acc + d) rest
      | None => acc
      end
  end.

Definition is_space (c : ascii) : bool :=
  let n := Z.of_N (Ascii.N_of_ascii c) in
  (n =? 32) || ((9 <=? n) && (n <=? 13)).

Fixpoint skip_space (s : string) : string :=
  match s with
  | String c rest => if is_space c then skip_space rest else s
  | EmptyString => s
  end.

(** The number a text starts with: leading white space, an optional
    sign, then decimal digits. *)
Definition decimal (s : string) : Z :=
  match skip_space s with
  | String "-"%char rest => - atoi_digits 0 rest
  | String "+"%char rest => atoi_digits 0 rest
  | s' => atoi_digits 0 s'
  end.

Definition LONG_MIN : Z := -9223372036854775808.
Definition LONG_MAX : Z := 9223372036854775807.

(** [strtol(s, NULL, 10)]: a number outside the range of a [long] comes
    back as the bound it passed. *)
Definition strtol (s : string) : Z := Z.max LONG_MIN (Z.min LONG_MAX (decimal s)).

(** The conversion of a [long] to an [int]: the low 32 bits, read as a
    signed number. *)
Definition int_of_long (n : Z) : Z := (n + 2147483648) mod 4294967296 - 2147483648.

(** [atoi(s)] is [(int) strtol(s, NULL, 10)]: the field [port] is an
    [int], so a port text beyond 2147483647 does not come back as the
    number it spells. *)
Definition atoi (s : string) : Z := int_of_long (strtol s).

(** The decimal text [mcon_str_add_int] appends. *)
Definition string_of_Z (n : Z) : string := NilZero.string_of_int (Z.to_int n).

(** ** Connection objects, state and the collaborators *)

(** A [mongo_connection]: manager.c itself touches only [hash]; all other
    fields ([last_ping], [ping_ms], [connection_type], [tags], the
    socket...) are kept by connections.c and are the [payload]. *)
Record mongo_connection (data : Type) := {
  hash : option string;
  payload : data
}.

Arguments hash {data} _.
Arguments payload {data} _.

(** The functions manager.c calls in connections.c, read_preference.c and
    parse.c, and the constants of manager.h. [world] is the state of
    everything outside the process and [data] what connections.c keeps in
    a connection. A wire operation gets the manager and the connection's
    payload, and returns the new payload with either its value or the
    error text it stores in [*error_message]. *)
Class Collaborators := {
  world : Type;
  data : Type;
  MONGO_CON_FLAG_WRITE : Z;
  MONGO_CON_FLAG_DONT_CONNECT : Z;
  MONGO_MANAGER_DEFAULT_PING_INTERVAL : Z;
  MONGO_MANAGER_DEFAULT_MASTER_INTERVAL : Z;
  mongo_server_create_hash : mongo_server_def -> string;
  mongo_server_create_hashed_password : string -> string -> string;
  mongo_connection_create :
    mongo_con_manager -> mongo_server_def -> world -> (string + data) * world;
  mongo_connection_getnonce :
    mongo_con_manager -> data -> world -> (string + string) * data * world;
  mongo_connection_authenticate :
    mongo_con_manager -> data -> string -> string -> string -> string -> world ->
    (string + unit) * data * world;
  mongo_connection_ping :
    mongo_con_manager -> data -> world -> (string + unit) * data * world;
  mongo_connection_ismaster :
    mongo_con_manager -> data -> option string -> mongo_server_def -> world ->
    ismaster_out * data * world;
  mongo_connection_destroy : mongo_con_manager -> data -> world -> world;
  mongo_find_candidate_servers :
    mongo_con_manager -> gmap ptr (mongo_connection data) -> mongo_read_preference ->
    option string -> option (list ptr);
  mongo_sort_servers :
    mongo_con_manager -> gmap ptr (mongo_connection data) -> list ptr ->
    mongo_read_preference -> list ptr;
  mongo_select_nearest_servers :
    mongo_con_manager -> gmap ptr (mongo_connection data) -> list ptr ->
    mongo_read_preference -> list ptr;
  mongo_pick_server_from_set :
    mongo_con_manager -> gmap ptr (mongo_connection data) -> list ptr ->
    mongo_read_preference -> world -> option ptr * world
}.

Section Manager.

Context `{Collaborators}.

Record state := {
  wire : world;
  heap : gmap ptr (mongo_connection data);
  manager : mongo_con_manager
}.

(** ** The monad of manager.c: state, events, faults and fuel *)

(** [Return a s evs]: the value, the state left behind and the calls
    made, oldest first. [Crash]: the C code dereferences a pointer that
    is [NULL], dangling or past the end of its array. [Timeout]: the fuel
    of the discovery loop ran out. *)
Inductive outcome (A : Type) :=
| Return (a : A) (s : state) (evs : list event)
| Crash (why : string)
| Timeout.

Arguments Return {A} a s evs.
Arguments Crash {A} why.
Arguments Timeout {A}.

Definition M (A : Type) := state -> outcome A.

Definition ret {A} (a : A) : M A := fun s => Return a s [].

Definition bind {A B} (m : M A) (k : A -> M B) : M B :=
  fun s => match m s with
           | Return a s' evs =>
               match k a s' with
               | Return b s'' evs' => Return b s'' (evs ++ evs')
               | Crash why => Crash why
               | Timeout => Timeout
               end
           | Crash why => Crash why
           | Timeout => Timeout
           end.

Definition crash {A} (why : string) : M A := fun _ => Crash why.
Definition timeout {A} : M A := fun _ => Timeout.

Notation "'do' x <- m ; k" := (bind m (fun x => k))
  (at level 10, x pattern, m at level 100, k at level 200).
Notation "m ;; k" := (bind m (fun _ => k))
  (at level 100, k at level 200, right associativity).

Definition get_manager : M mongo_con_manager := fun s => Return (manager s) s [].

Definition set_manager_connections (l : list mongo_con_manager_item) : M unit :=
  fun s => Return tt {| wire := wire s; heap := heap s;
                        manager := set_connections (manager s) l |} [].

Definition emit (e : event) : M unit := fun s => Return tt s [e].

(** [mongo_manager_log]: the call to the manager's log sink. *)
Definition mongo_manager_log (module : log_module) (level : log_level)
    (format : string) (args : list log_arg) : M unit :=
  emit (EvLog module level format args).

(** Reading [*con]; a pointer that is not live is a fault. *)
Definition deref (con : ptr) : M (mongo_connection data) :=
  fun s => match heap s !! con with
           | Some c => Return c s []
           | None => Crash "dereference of a connection that is not live"
           end.

Definition store (con : ptr) (c : mongo_connection data) : M unit :=
  fun s => Return tt {| wire := wire s; heap := <[con := c]> (heap s);
                        manager := manager s |} [].

Definition with_payload (c : mongo_connection data) (d : data) : mongo_connection data :=
  {| hash := hash c; payload := d |}.

(** Running a wire operation of connections.c on [*con]. *)
Definition wire_call {A} (con : ptr)
    (op : mongo_con_manager -> data -> world -> A * data * world)
    (ev : A -> event) : M A :=
  do c <- deref con;
  fun s =>
    let '(a, d, w) := op (manager s) (payload c) (wire s) in
    Return a {| wire := w; heap := <[con := with_payload c d]> (heap s);
                manager := manager s |} [ev a].

(** ** Connection management *)

Fixpoint find_item (l : list mongo_con_manager_item) (h : string) : option mongo_con_manager_item :=
  match l with
  | [] => None
  | item :: next =>
      if String.eqb (item_hash item) h then Some item else find_item next h
  end.

Definition mongo_manager_connection_find_by_hash (h : string) : M (option ptr) :=
  do m <- get_manager;
  match find_item (connections m) h with
  | Some item =>
      mongo_manager_log MLOG_CON MLOG_FINE "found connection %s (looking for %s)"
        [LogStr (Some (item_hash item)); LogStr (Some h)] ;;
      ret (Some (connection item))
  | None => ret None
  end.

(** [mongo_connection_destroy] of connections.c, after which [*con] is
    no longer live. *)
Definition connection_destroy (con : ptr) : M unit :=
  do c <- deref con;
  fun s =>
    Return tt {| wire := mongo_connection_destroy (manager s) (payload c) (wire s);
                 heap := delete con (heap s);
                 manager := manager s |} [EvDestroy con].

Definition free_manager_item (item : mongo_con_manager_item) : M unit :=
  mongo_manager_log MLOG_CON MLOG_INFO "freeing connection %s" [LogStr (Some (item_hash item))].

(** [destroy_manager_item manager item], [item :: next] being the list
    that starts at [item]. *)
Fixpoint destroy_manager_item (item : mongo_con_manager_item)
    (next : list mongo_con_manager_item) : M unit :=
  match next with
  | n :: next' => destroy_manager_item n next'
  | [] => ret tt
  end ;;
  connection_destroy (connection item) ;;
  free_manager_item item.

(** [strdup(con->hash)] with [con->hash == NULL] is a fault. *)
Definition connection_hash (con : ptr) : M string :=
  do c <- deref con;
  match hash c with
  | Some h => ret h
  | None => crash "con->hash is NULL"
  end.

Definition mongo_manager_connection_register (con : ptr) : M unit :=
  do m <- get_manager;
  do h <- connection_hash con;
  let new := {| item_hash := h; connection := con |} in
  set_manager_connections (connections m ++ [new]).

(** The list without its first item whose hash is [h], and that item. *)
Fixpoint unlink (l : list mongo_con_manager_item) (h : string)
    : option (mongo_con_manager_item * list mongo_con_manager_item) :=
  match l with
  | [] => None
  | item :: next =>
      if String.eqb (item_hash item) h then Some (item, next)
      else match unlink next h with
           | Some (found, next') => Some (found, item :: next')
           | None => None
           end
  end.

Definition mongo_manager_connection_deregister (con : ptr) : M Z :=
  do m <- get_manager;
  match connections m with
  | [] => ret 0
  | _ =>
      do h <- connection_hash con;
      match unlink (connections m) h with
      | Some (item, rest) =>
          set_manager_connections rest ;;
          connection_destroy con ;;
          free_manager_item item ;;
          ret 1
      | None => ret 0
      end
  end.

(** ** Single-connection acquire *)

Definition has_flag (connection_flags flag : Z) : bool :=
  negb (Z.land connection_flags flag =? 0).

(** Returns the value of [authenticate_connection] (nonzero: [inr]) or
    the error text left in [*error_message]. *)
Definition authenticate_connection (con : ptr) (database user pwd : string)
    : M (string + unit) :=
  do nonce <- wire_call con mongo_connection_getnonce (EvGetnonce con);
  match nonce with
  | inl err => ret (inl err)
  | inr nonce =>
      wire_call con
        (fun m d => mongo_connection_authenticate m d database user pwd nonce)
        (EvAuthenticate con database user pwd nonce)
  end.

(** [mongo_connection_create]: a new object at a fresh address, its
    [hash] still [NULL]. *)
Definition connection_create (def : mongo_server_def) : M (string + ptr) :=
  fun s =>
    match mongo_connection_create (manager s) def (wire s) with
    | (inl err, w) =>
        Return (inl err) {| wire := w; heap := heap s; manager := manager s |}
          [EvCreate def (inl err)]
    | (inr d, w) =>
        let con := fresh (dom (heap s)) in
        Return (inr con) {| wire := w;
                            heap := <[con := {| hash := None; payload := d |}]> (heap s);
                            manager := manager s |}
          [EvCreate def (inr con)]
    end.

Definition connection_ping (con : ptr) : M (string + unit) :=
  wire_call con mongo_connection_ping (EvPing con).

Definition set_hash (con : ptr) (h : string) : M unit :=
  do c <- deref con;
  store con {| hash := Some h; payload := payload c |}.

(** The result is the returned pointer and, when the call stored one,
    the text stored in [*error_message]. *)
Definition mongo_get_connection_single (server : mongo_server_def) (connection_flags : Z)
    : M (option ptr * option string) :=
  let h := mongo_server_create_hash server in
  do con <- mongo_manager_connection_find_by_hash h;
  match con with
  | None =>
      if negb (has_flag connection_flags MONGO_CON_FLAG_DONT_CONNECT) then
        do created <- connection_create server;
        match created with
        | inl err => ret (None, Some err)
        | inr con =>
            set_hash con h ;;
            do auth <-
              match db server, username server, password server with
              | Some database, Some user, Some pwd =>
                  mongo_manager_log MLOG_CON MLOG_INFO
                    "get_connection_single: authenticating %s" [LogStr (Some h)] ;;
                  authenticate_connection con database user pwd
              | _, _, _ => ret (inr tt)
              end;
            match auth with
            | inl err => connection_destroy con ;; ret (None, Some err)
            | inr _ =>
                do pinged <- connection_ping con;
                match pinged with
                | inl err => connection_destroy con ;; ret (None, Some err)
                | inr _ =>
                    mongo_manager_connection_register con ;;
                    ret (Some con, None)
                end
            end
        end
      else ret (None, None)
  | Some con =>
      if negb (has_flag connection_flags MONGO_CON_FLAG_DONT_CONNECT) then
        do pinged <- connection_ping con;
        match pinged with
        | inl err =>
            mongo_manager_connection_deregister con ;;
            ret (None, Some err)
        | inr _ => ret (Some con, None)
        end
      else ret (Some con, None)
  end.

(** ** Topology discovery *)

(** [servers->server[i]]; reading an entry that is not there and
    following it is a fault. *)
Definition server_at (servers : mongo_servers) (i : nat) : M mongo_server_def :=
  match server servers !! i with
  | Some def => ret def
  | None => crash "servers->server[i] is not a server definition"
  end.

(** The temporary definition built for [found_hosts[j]]: credentials of
    [servers->server[i]], host and port cut at the colon. *)
Definition tmp_def_of (seed : mongo_server_def) (found_host : string)
    : option mongo_server_def :=
  match split_colon found_host with
  | Some (h, p) =>
      Some {| host := h; port := atoi p;
              db := db seed; username := username seed; password := password seed |}
  | None => None
  end.

Definition make_tmp_def (seed : mongo_server_def) (found_host : string) : M mongo_server_def :=
  match tmp_def_of seed found_host with
  | Some tmp_def => ret tmp_def
  | None => crash "strchr found no colon in found_hosts[j]"
  end.

(** Body of the loop over [found_hosts]. *)
Definition discover_host (i : nat) (servers : mongo_servers) (found_host : string)
    : M mongo_servers :=
  do seed <- server_at servers i;
  do tmp_def <- make_tmp_def seed found_host;
  let tmp_hash := mongo_server_create_hash tmp_def in
  do known <- mongo_manager_connection_find_by_hash tmp_hash;
  match known with
  | None =>
      mongo_manager_log MLOG_CON MLOG_INFO "discover_topology: found new host: %s:%d"
        [LogStr (Some (host tmp_def)); LogInt (port tmp_def)] ;;
      do new_con <- mongo_get_connection_single tmp_def MONGO_CON_FLAG_WRITE;
      match new_con with
      | (Some _, _) => ret (servers_push servers tmp_def)
      | (None, con_error_message) =>
          mongo_manager_log MLOG_CON MLOG_INFO
            "discover_topology: could not connect to new host: %s:%d: %s"
            [LogStr (Some (host tmp_def)); LogInt (port tmp_def); LogStr con_error_message] ;;
          ret servers
      end
  | Some _ => ret servers
  end.

Fixpoint discover_hosts (i : nat) (servers : mongo_servers) (hosts : list string)
    : M mongo_servers :=
  match hosts with
  | [] => ret servers
  | found_host :: rest =>
      do servers' <- discover_host i servers found_host;
      discover_hosts i servers' rest
  end.

(** The [switch (res)] of the loop body; [case 3] falls into [case 1]. *)
Definition discover_switch (i : nat) (servers : mongo_servers) (seed : mongo_server_def)
    (con : ptr) (o : ismaster_out) : M mongo_servers :=
  let case_1 :=
    mongo_manager_log MLOG_CON MLOG_INFO "discover_topology: ismaster worked" [] ;;
    discover_hosts i servers (found_hosts o) in
  if res o =? 0 then
    mongo_manager_log MLOG_CON MLOG_WARN
      "discover_topology: ismaster return with an error for %s:%d: [%s]"
      [LogStr (Some (host seed)); LogInt (port seed); LogStr (out_error_message o)] ;;
    mongo_manager_connection_deregister con ;;
    ret servers
  else if res o =? 3 then
    mongo_manager_log MLOG_CON MLOG_WARN
      "discover_topology: ismaster worked, but we need to remove the seed host's connection" [] ;;
    mongo_manager_connection_deregister con ;;
    case_1
  else if res o =? 1 then case_1
  else if res o =? 2 then
    mongo_manager_log MLOG_CON MLOG_FINE "discover_topology: ismaster got skipped" [] ;;
    ret servers
  else ret servers.

(** Body of the loop over [servers->server]; returns the list and the
    local [repl_set_name]. *)
Definition discover_iteration (i : nat) (servers : mongo_servers) (repl : option string)
    : M (mongo_servers * option string) :=
  do seed <- server_at servers i;
  let h := mongo_server_create_hash seed in
  mongo_manager_log MLOG_CON MLOG_FINE "discover_topology: checking ismaster for %s"
    [LogStr (Some h)] ;;
  do con <- mongo_manager_connection_find_by_hash h;
  match con with
  | None =>
      mongo_manager_log MLOG_CON MLOG_WARN
        "discover_topology: couldn't create a connection for %s" [LogStr (Some h)] ;;
      ret (servers, repl)
  | Some con =>
      do o <- wire_call con (fun m d => mongo_connection_ismaster m d repl seed)
                (EvIsmaster con seed);
      do servers' <- discover_switch i servers seed con o;
      ret (servers', out_repl_set_name o)
  end.

(** [for (i = 0; i < servers->count; i++)]: the bound is read again at
    every test, and the body may have moved it, so the loop takes fuel. *)
Fixpoint discover_loop (fuel : nat) (i : nat) (servers : mongo_servers)
    (repl : option string) : M mongo_servers :=
  match fuel with
  | O => timeout
  | S fuel' =>
      if bool_decide (i < count servers)%nat then
        do r <- discover_iteration i servers repl;
        discover_loop fuel' (S i) (fst r) (snd r)
      else ret servers
  end.

Definition mongo_discover_topology (fuel : nat) (servers : mongo_servers) : M mongo_servers :=
  discover_loop fuel 0 servers (repl_set_name servers).

(** ** Candidate selection: the calls into read_preference.c *)

Definition find_candidate_servers (rp : mongo_read_preference) (auth_hash : option string)
    : M (option (list ptr)) :=
  fun s =>
    let r := mongo_find_candidate_servers (manager s) (heap s) rp auth_hash in
    Return r s [EvFindCandidates rp auth_hash r].

Definition sort_servers (col : list ptr) (rp : mongo_read_preference) : M (list ptr) :=
  fun s =>
    let r := mongo_sort_servers (manager s) (heap s) col rp in
    Return r s [EvSort rp r].

Definition select_nearest_servers (col : list ptr) (rp : mongo_read_preference) : M (list ptr) :=
  fun s =>
    let r := mongo_select_nearest_servers (manager s) (heap s) col rp in
    Return r s [EvSelectNearest rp r].

Definition pick_server_from_set (col : list ptr) (rp : mongo_read_preference) : M (option ptr) :=
  fun s =>
    let '(r, w) := mongo_pick_server_from_set (manager s) (heap s) col rp (wire s) in
    Return r {| wire := w; heap := heap s; manager := manager s |} [EvPick rp r].

(** [mongo_read_preference_copy] *)
Definition mongo_read_preference_copy (rp : mongo_read_preference) : mongo_read_preference :=
  {| type := type rp; tagsets := tagsets rp |}.

Definition set_type (rp : mongo_read_preference) (t : mongo_rp_type) : mongo_read_preference :=
  {| type := t; tagsets := tagsets rp |}.

(** The authentication hash both strategies build from
    [servers->server[0]]. *)
Definition auth_hash_of (first : mongo_server_def) : option string :=
  match username first, password first with
  | Some user, Some pwd => Some (mongo_server_create_hashed_password user pwd)
  | _, _ => None
  end.

Definition create_auth_hash (servers : mongo_servers) : M (option string) :=
  do first <- server_at servers 0;
  ret (auth_hash_of first).

(** What a strategy hands back: the server list as it left it, the
    returned connection and the text it stored in [*error_message]. *)
Definition acquired : Type := mongo_servers * option ptr * option string.

Definition no_candidates : string := "No candidate servers found".

Definition is_empty (collection : option (list ptr)) : bool :=
  match collection with
  | None | Some [] => true
  | Some (_ :: _) => false
  end.

(** [sort], [select nearest], [pick], all three with
    [&servers->read_pref]. *)
Definition sort_select_pick (servers : mongo_servers) (collection : option (list ptr))
    : M (option ptr) :=
  do sorted <- sort_servers (default [] collection) (read_pref servers);
  do nearest <- select_nearest_servers sorted (read_pref servers);
  pick_server_from_set nearest (read_pref servers).

(** ** Replica sets *)

(** The loop over the seed list; [found] is [found_connected_server] and
    [msg] the local [con_error_message]. *)
Fixpoint replicaset_seeds (seeds : list mongo_server_def) (connection_flags : Z)
    (found : bool) (msg : option string) : M bool :=
  match seeds with
  | [] => ret found
  | seed :: rest =>
      do tmp <- mongo_get_connection_single seed connection_flags;
      let msg' := match snd tmp with Some e => Some e | None => msg end in
      match fst tmp with
      | Some _ => replicaset_seeds rest connection_flags true msg'
      | None =>
          (if negb (has_flag connection_flags MONGO_CON_FLAG_DONT_CONNECT) then
             mongo_manager_log MLOG_CON MLOG_WARN "Couldn't connect to '%s:%d': %s"
               [LogStr (Some (host seed)); LogInt (port seed); LogStr msg']
           else ret tt) ;;
          replicaset_seeds rest connection_flags found msg'
      end
  end.

Definition mongo_get_read_write_connection_replicaset (fuel : nat) (servers : mongo_servers)
    (connection_flags : Z) : M acquired :=
  do found_connected_server <- replicaset_seeds (server servers) connection_flags false None;
  if negb found_connected_server && has_flag connection_flags MONGO_CON_FLAG_DONT_CONNECT then
    ret (servers, None, None)
  else
    do servers <- mongo_discover_topology fuel servers;
    do auth_hash <- create_auth_hash servers;
    do collection <-
      (if has_flag connection_flags MONGO_CON_FLAG_WRITE then
         let tmp_rp := set_type (mongo_read_preference_copy (read_pref servers)) MONGO_RP_PRIMARY in
         find_candidate_servers tmp_rp auth_hash
       else find_candidate_servers (read_pref servers) auth_hash);
    if is_empty collection then ret (servers, None, Some no_candidates)
    else
      do con <- sort_select_pick servers collection;
      ret (servers, con, None).

(** ** Standalone servers and multiple routers *)

(** What the loop body appends for one failed seed. *)
Definition failure_text (h : string) (p : Z) (err : string) : string :=
  "Failed to connect to: " +:+ h +:+ ":" +:+ string_of_Z p +:+ ": " +:+ err.

(** [messages] after the calls of [mcon_str_addl], [mcon_str_add] and
    [mcon_str_add_int] of the loop body. *)
Definition add_failure (messages : string) (seed : mongo_server_def) (err : string) : string :=
  (if negb (String.length messages =? 0)%nat then messages +:+ "; " else messages)
  +:+ failure_text (host seed) (port seed) err.

Fixpoint multiple_seeds (seeds : list mongo_server_def) (connection_flags : Z)
    (found : bool) (msg : option string) (messages : string) : M (bool * string) :=
  match seeds with
  | [] => ret (found, messages)
  | seed :: rest =>
      do tmp <- mongo_get_connection_single seed connection_flags;
      let msg' := match snd tmp with Some e => Some e | None => msg end in
      match fst tmp with
      | Some _ => multiple_seeds rest connection_flags true msg' messages
      | None =>
          if negb (has_flag connection_flags MONGO_CON_FLAG_DONT_CONNECT) then
            mongo_manager_log MLOG_CON MLOG_WARN "Couldn't connect to '%s:%d': %s"
              [LogStr (Some (host seed)); LogInt (port seed); LogStr msg'] ;;
            match msg' with
            | Some err =>
                multiple_seeds rest connection_flags found msg' (add_failure messages seed err)
            | None => crash "con_error_message is NULL"
            end
          else multiple_seeds rest connection_flags found msg' messages
      end
  end.

Definition mongo_get_connection_multiple (servers : mongo_servers) (connection_flags : Z)
    : M acquired :=
  do r <- multiple_seeds (server servers) connection_flags false None EmptyString;
  let '(found_connected_server, messages) := r in
  if negb found_connected_server && has_flag connection_flags MONGO_CON_FLAG_DONT_CONNECT then
    ret (servers, None, None)
  else
    do auth_hash <- create_auth_hash servers;
    let tmp_rp := set_type (mongo_read_preference_copy (read_pref servers)) MONGO_RP_NEAREST in
    do collection <- find_candidate_servers tmp_rp auth_hash;
    if is_empty collection then
      if negb (String.length messages =? 0)%nat then ret (servers, None, Some messages)
      else ret (servers, None, Some no_candidates)
    else
      do con <- sort_select_pick servers collection;
      ret (servers, con, None).

(** ** The interface to fetch a connection *)

Definition mongo_get_read_write_connection (fuel : nat) (servers : mongo_servers)
    (connection_flags : Z) : M acquired :=
  match con_type servers with
  | MONGO_CON_TYPE_STANDALONE =>
      mongo_manager_log MLOG_CON MLOG_INFO
        "mongo_get_read_write_connection: finding a STANDALONE connection" [] ;;
      mongo_get_connection_multiple servers connection_flags
  | MONGO_CON_TYPE_REPLSET =>
      mongo_manager_log MLOG_CON MLOG_INFO
        "mongo_get_read_write_connection: finding a REPLSET connection (%s)"
        [LogStr (Some (if has_flag connection_flags MONGO_CON_FLAG_WRITE
                       then "write" else "read"))] ;;
      mongo_get_read_write_connection_replicaset fuel servers connection_flags
  | MONGO_CON_TYPE_MULTIPLE =>
      mongo_manager_log MLOG_CON MLOG_FINE
        "mongo_get_read_write_connection: finding a MULTIPLE connection" [] ;;
      mongo_get_connection_multiple servers connection_flags
  | MONGO_CON_TYPE_OTHER n =>
      mongo_manager_log MLOG_CON MLOG_INFO
        "mongo_get_read_write_connection: connection type %d is not supported" [LogInt n] ;;
      ret (servers, None,
           Some "mongo_get_read_write_connection: Unknown connection type requested")
  end.

(** ** Init and deinit *)

Definition mongo_init : mongo_con_manager :=
  {| connections := [];
     ping_interval := MONGO_MANAGER_DEFAULT_PING_INTERVAL;
     ismaster_interval := MONGO_MANAGER_DEFAULT_MASTER_INTERVAL |}.

(** After [free(manager)] neither the manager nor an item of its list is
    left: the state keeps an empty list. *)
Definition mongo_deinit : M unit :=
  do m <- get_manager;
  match connections m with
  | item :: next => destroy_manager_item item next
  | [] => ret tt
  end ;;
  set_manager_connections [].

(** The functions of read_preference.c hand back connections of the
    collection they are given, and the first one takes them from the
    manager's list. *)
Definition selection_sound : Prop :=
  (forall m h rp auth_hash col c,
     mongo_find_candidate_servers m h rp auth_hash = Some col ->
     c ∈ col -> c ∈ connection <$> connections m) /\
  (forall m h col rp c, c ∈ mongo_sort_servers m h col rp -> c ∈ col) /\
  (forall m h col rp c, c ∈ mongo_select_nearest_servers m h col rp -> c ∈ col) /\
  (forall m h col rp w c w',
     mongo_pick_server_from_set m h col rp w = (Some c, w') -> c ∈ col).

End Manager.

Arguments Return {_ A} a s evs.
Arguments Crash {_ A} why.
Arguments Timeout {_ A}.

Notation "'do' x <- m ; k" := (bind m (fun x => k))
  (at level 10, x pattern, m at level 100, k at level 200).
Notation "m ;; k" := (bind m (fun _ => k))
  (at level 100, k at level 200, right associativity).

(** ** Reading the list of events of a run *)

(** The connections handed to [mongo_connection_destroy], oldest first. *)
Definition destroyed (evs : list event) : list ptr :=
  omap (fun e => match e with EvDestroy con => Some con | _ => None end) evs.

(** The connections [mongo_connection_create] returned, oldest first. *)
Definition created (evs : list event) : list ptr :=
  omap (fun e => match e with EvCreate _ (inr con) => Some con | _ => None end) evs.

(** The wire operations and destructions of a run, each with whether it
    succeeded; calls of the log sink are left out. *)
Inductive step := StepCreate | StepGetnonce | StepAuthenticate | StepPing | StepDestroy.

Definition succeeded {A B} (r : A + B) : bool :=
  match r with inl _ => false | inr _ => true end.

(** The connections handed to [mongo_connection_ping], oldest first,
    each with whether the ping succeeded. *)
Definition pings (evs : list event) : list (ptr * bool) :=
  omap (fun e => match e with EvPing con r => Some (con, succeeded r) | _ => None end) evs.

Definition step_of (e : event) : option (step * bool) :=
  match e with
  | EvCreate _ r => Some (StepCreate, succeeded r)
  | EvGetnonce _ r => Some (StepGetnonce, succeeded r)
  | EvAuthenticate _ _ _ _ _ r => Some (StepAuthenticate, succeeded r)
  | EvPing _ r => Some (StepPing, succeeded r)
  | EvDestroy _ => Some (StepDestroy, true)
  | _ => None
  end.

Definition steps (evs : list event) : list (step * bool) := omap step_of evs.

(** Whether single-connection acquire authenticates for this server. *)
Definition has_credentials (server : mongo_server_def) : bool :=
  match db server, username server, password server with
  | Some _, Some _, Some _ => true
  | _, _, _ => false
  end.

(** The steps of a connect, in order. *)
Definition connect_plan (server : mongo_server_def) : list step :=
  [StepCreate] ++
  (if has_credentials server then [StepGetnonce; StepAuthenticate] else []) ++
  [StepPing].

(** The seed failures the strategies log: host, port and error text. *)
Definition seed_failure_of (e : event) : option (string * Z * string) :=
  match e with
  | EvLog _ MLOG_WARN format [LogStr (Some h); LogInt p; LogStr (Some err)] =>
      if String.eqb format "Couldn't connect to '%s:%d': %s" then Some (h, p, err) else None
  | _ => None
  end.

Definition seed_failures (evs : list event) : list (string * Z * string) :=
  omap seed_failure_of evs.

(** The composition of the texts of several failed seeds. *)
Definition composite (failures : list (string * Z * string)) : string :=
  String.concat "; " ((fun f => failure_text f.1.1 f.1.2 f.2) <$> failures).

(** The calls of [mongo_find_candidate_servers]: read preference,
    authentication hash and the collection handed back. *)
Definition candidate_call_of (e : event)
    : option (mongo_read_preference * option string * option (list ptr)) :=
  match e with
  | EvFindCandidates rp auth_hash r => Some (rp, auth_hash, r)
  | _ => None
  end.

Definition candidate_calls (evs : list event) := omap candidate_call_of evs.

(** The events single-connection acquire and the registry can produce. *)
Definition acquire_event (e : event) : bool :=
  match e with
  | EvLog _ _ format _ =>
      bool_decide (format ∈ ["found connection %s (looking for %s)";
                             "get_connection_single: authenticating %s";
                             "freeing connection %s"])
  | EvCreate _ _ | EvGetnonce _ _ | EvAuthenticate _ _ _ _ _ _ | EvPing _ _
  | EvDestroy _ => true
  | _ => false
  end.

(** The hash a discovery iteration announces before it probes. *)
Definition probe_of (e : event) : option string :=
  match e with
  | EvLog _ MLOG_FINE format [LogStr (Some h)] =>
      if String.eqb format "discover_topology: checking ismaster for %s" then Some h else None
  | _ => None
  end.

(** The hashes of the definitions the discovery loop has visited, in
    order. *)
Definition probed (evs : list event) : list string := omap probe_of evs.

(** The events of a discovery iteration after its announcement. *)
Definition expansion_event (e : event) : bool :=
  acquire_event e ||
  match e with
  | EvIsmaster _ _ _ => true
  | EvLog _ _ format _ =>
      bool_decide
        (format ∈ ["discover_topology: couldn't create a connection for %s";
                   "discover_topology: ismaster return with an error for %s:%d: [%s]";
                   "discover_topology: ismaster worked, but we need to remove the seed host's connection";
                   "discover_topology: ismaster worked";
                   "discover_topology: found new host: %s:%d";
                   "discover_topology: could not connect to new host: %s:%d: %s";
                   "discover_topology: ismaster got skipped"])
  | _ => false
  end.

(** The events topology discovery can produce. *)
Definition discovery_event (e : event) : bool :=
  expansion_event e ||
  match e with
  | EvLog _ _ format _ =>
      bool_decide (format = "discover_topology: checking ismaster for %s")
  | _ => false
  end.

(** [extends servers servers']: [servers'] is [servers] with definitions
    appended. *)
Definition extends (servers servers' : mongo_servers) : Prop :=
  server servers `prefix_of` server servers' /\
  con_type servers' = con_type servers /\
  repl_set_name servers' = repl_set_name servers /\
  read_pref servers' = read_pref servers.

(** The output of [mongo_connection_ismaster] with the result code
    replaced by 1. *)
Definition as_ok (o : ismaster_out) : ismaster_out :=
  {| res := 1; out_repl_set_name := out_repl_set_name o; found_hosts := found_hosts o;
     out_error_message := out_error_message o |}.

(** The pointers held by a list of items, in list order. *)
Definition pointers (l : list mongo_con_manager_item) : list ptr := connection <$> l.

(** [add_failure] on the logged form of a failure. *)
Definition add_failure' (messages : string) (f : string * Z * string) : string :=
  (if negb (String.length messages =? 0)%nat then messages +:+ "; " else messages)
  +:+ failure_text f.1.1 f.1.2 f.2.


(** The manager with one more item at the end of its list. *)
Definition registered_as (h : string) (con : ptr) (m : mongo_con_manager) : mongo_con_manager :=
  set_connections m (connections m ++ [{| item_hash := h; connection := con |}]).

(** The hashes of a list of items. *)
Definition hashes (l : list mongo_con_manager_item) : gset string :=
  list_to_set (item_hash <$> l).

Definition same_credentials (a b : mongo_server_def) : Prop :=
  db a = db b /\ username a = username b /\ password a = password b.

(** Every definition of [servers] has the credentials of one of
    [seeds]. *)
Definition inherits (seeds : list mongo_server_def) (servers : mongo_servers) : Prop :=
  forall def, def ∈ server servers -> exists seed, seed ∈ seeds /\ same_credentials def seed.

(** The characters of a string. *)
Fixpoint characters (s : string) : list ascii :=
  match s with
  | EmptyString => []
  | String c rest => c :: characters rest
  end.

(** The calls of [mongo_connection_ismaster]: the connection probed and
    the definition handed in. *)
Definition ismaster_call_of (e : event) : option (ptr * mongo_server_def) :=
  match e with
  | EvIsmaster con def _ => Some (con, def)
  | _ => None
  end.

Definition ismaster_calls (evs : list event) : list (ptr * mongo_server_def) :=
  omap ismaster_call_of evs.

(** The calls of [mongo_sort_servers], [mongo_select_nearest_servers]
    and [mongo_pick_server_from_set]: which of the three, and the read
    preference handed in. *)
Inductive selection := CallSort | CallSelectNearest | CallPick.

Definition selection_call_of (e : event) : option (selection * mongo_read_preference) :=
  match e with
  | EvSort rp _ => Some (CallSort, rp)
  | EvSelectNearest rp _ => Some (CallSelectNearest, rp)
  | EvPick rp _ => Some (CallPick, rp)
  | _ => None
  end.

Definition selection_calls (evs : list event) : list (selection * mongo_read_preference) :=
  omap selection_call_of evs.

Section Assumptions.

Context `{Collaborators}.

(** The read preference the replica-set strategy filters with. *)
Definition replicaset_filter_preference (servers : mongo_servers) (connection_flags : Z)
    : mongo_read_preference :=
  if has_flag connection_flags MONGO_CON_FLAG_WRITE
  then {| type := MONGO_RP_PRIMARY; tagsets := tagsets (read_pref servers) |}
  else read_pref servers.


(** The manager's list holds no pointer twice, and each item points to
    a live connection that carries the item's hash. *)
Definition registry_ok (s : state) : Prop :=
  NoDup (pointers (connections (manager s))) /\
  forall item, item ∈ connections (manager s) ->
    exists c, heap s !! connection item = Some c /\ hash c = Some (item_hash item).

(** How many hashes of [space] have no item in the manager's list. *)
Definition unregistered (space : gset string) (s : state) : nat :=
  size (space ∖ hashes (connections (manager s))).


(** [made_for d h]: [d] is what connections.c keeps in a connection
    that [mongo_connection_create] made for a definition of hash [h],
    after any number of wire operations on that connection. *)
Inductive made_for : data -> string -> Prop :=
| made_by_create m def w d w' :
    mongo_connection_create m def w = (inr d, w') ->
    made_for d (mongo_server_create_hash def)
| made_getnonce m d w h :
    made_for d h -> made_for (mongo_connection_getnonce m d w).1.2 h
| made_authenticate m d database user pwd nonce w h :
    made_for d h ->
    made_for (mongo_connection_authenticate m d database user pwd nonce w).1.2 h
| made_ping m d w h :
    made_for d h -> made_for (mongo_connection_ping m d w).1.2 h
| made_ismaster m d repl def w h :
    made_for d h -> made_for (mongo_connection_ismaster m d repl def w).1.2 h.

(** Each item of the manager's list holds a connection that was made
    for the item's hash. *)
Definition registry_made (s : state) : Prop :=
  forall item c,
    item ∈ connections (manager s) -> heap s !! connection item = Some c ->
    made_for (payload c) (item_hash item).

(** A server that answers 3 when it is probed through a connection made
    for the definition handed in does not have the hash of that
    definition in [space]. *)
Definition removed_seed_unreported (space : gset string) : Prop :=
  forall m d repl def w,
    made_for d (mongo_server_create_hash def) ->
    res (mongo_connection_ismaster m d repl def w).1.1 = 3 ->
    mongo_server_create_hash def ∉ space.

(** Every host [mongo_connection_ismaster] reports has a colon, and
    with the credentials of any of [seeds] its hash is in [space]. *)
Definition reports_within (space : gset string) (seeds : list mongo_server_def) : Prop :=
  forall m d repl def w seed found_host,
    seed ∈ seeds ->
    found_host ∈ found_hosts (mongo_connection_ismaster m d repl def w).1.1 ->
    exists tmp_def,
      tmp_def_of seed found_host = Some tmp_def /\
      mongo_server_create_hash tmp_def ∈ space.

(** The two lines a discovery iteration logs for a definition whose
    hash no item of the list carries. *)
Definition skipped_events (def : mongo_server_def) : list event :=
  [EvLog MLOG_CON MLOG_FINE "discover_topology: checking ismaster for %s"
     [LogStr (Some (mongo_server_create_hash def))];
   EvLog MLOG_CON MLOG_WARN "discover_topology: couldn't create a connection for %s"
     [LogStr (Some (mongo_server_create_hash def))]].

(** The first line [mongo_get_read_write_connection] logs. *)
Definition announcement (servers : mongo_servers) (connection_flags : Z) : event :=
  match con_type servers with
  | MONGO_CON_TYPE_STANDALONE =>
      EvLog MLOG_CON MLOG_INFO
        "mongo_get_read_write_connection: finding a STANDALONE connection" []
  | MONGO_CON_TYPE_REPLSET =>
      EvLog MLOG_CON MLOG_INFO
        "mongo_get_read_write_connection: finding a REPLSET connection (%s)"
        [LogStr (Some (if has_flag connection_flags MONGO_CON_FLAG_WRITE
                       then "write" else "read"))]
  | MONGO_CON_TYPE_MULTIPLE =>
      EvLog MLOG_CON MLOG_FINE
        "mongo_get_read_write_connection: finding a MULTIPLE connection" []
  | MONGO_CON_TYPE_OTHER n =>
      EvLog MLOG_CON MLOG_INFO
        "mongo_get_read_write_connection: connection type %d is not supported" [LogInt n]
  end.

(** No two items of the manager's list have the same hash. *)
Definition unique_hashes (s : state) : Prop :=
  NoDup (item_hash <$> connections (manager s)).

(** Every host [mongo_connection_ismaster] reports has a colon. *)
Definition reported_hosts_have_colon : Prop :=
  forall m d repl def w found_host,
    found_host ∈ found_hosts (mongo_connection_ismaster m d repl def w).1.1 ->
    is_Some (split_colon found_host).

(** Every live connection is held by an item of the manager's list. *)
Definition tidy (s : state) : Prop :=
  forall p, is_Some (heap s !! p) -> p ∈ pointers (connections (manager s)).

(** The manager's list is well formed; its hashes are unique if [U]
    holds, and no connection is live outside of it if [L] holds. *)
Definition well_kept (U L : Prop) (s : state) : Prop :=
  registry_ok s /\ (U -> unique_hashes s) /\ (L -> tidy s).

(** [safe U L m s Q]: from [s], [m] does not fault; if it returns, the
    state is well kept and the value satisfies [Q]. *)
Definition safe {A} (U L : Prop) (m : M A) (s : state) (Q : A -> Prop) : Prop :=
  match m s with
  | Return a s' _ => well_kept U L s' /\ Q a
  | Crash _ => False
  | Timeout => True
  end.

(** A client that acquires connections one after the other, each time
    with its own fuel, server list and flags, and drops what it gets. *)
Fixpoint acquisitions (calls : list (nat * mongo_servers * Z)) : M unit :=
  match calls with
  | [] => ret tt
  | (fuel, servers, connection_flags) :: rest =>
      mongo_get_read_write_connection fuel servers connection_flags ;;
      acquisitions rest
  end.

(** The state a client starts from: the manager of [mongo_init] and no
    connection. *)
Definition initial (w : world) : state :=
  {| wire := w; heap := ∅; manager := mongo_init |}.

End Assumptions.

(** ** A simulated deployment

    An instance of the collaborators that stands for a small deployment:
    the endpoints that accept a session, and what each answers to
    [ismaster]. The world is the wall clock, in seconds. It is what the
    examples at the end of the file run on. *)
Module Sim.

Definition endpoint : Type := string * Z.

(** What connections.c keeps in a connection. *)
Record con := {
  peer : endpoint;
  last_ping : Z;
  ping_ms : Z
}.

Record deployment := {
  listening : list endpoint;
  ismaster_reply : list (endpoint * (Z * list string))
}.

Fixpoint reply_of (table : list (endpoint * (Z * list string))) (e : endpoint)
    : option (Z * list string) :=
  match table with
  | [] => None
  | (e', r) :: rest => if bool_decide (e' = e) then Some r else reply_of rest e
  end.

Definition hashed_password (user pwd : string) : string := user +:+ ":mongo:" +:+ pwd.

Definition create_hash (def : mongo_server_def) : string :=
  host def +:+ ":" +:+ string_of_Z (port def) +:+ ";" +:+
  match db def, username def, password def with
  | Some d, Some u, Some p => d +:+ "/" +:+ u +:+ "/" +:+ hashed_password u p
  | _, _, _ => "X"
  end.

Definition create (dep : deployment) (m : mongo_con_manager) (def : mongo_server_def)
    (now : Z) : (string + con) * Z :=
  if bool_decide ((host def, port def) ∈ listening dep)
  then (inr {| peer := (host def, port def); last_ping := 0; ping_ms := 0 |}, now)
  else (inl "Connection refused", now).

Definition getnonce (m : mongo_con_manager) (d : con) (now : Z)
    : (string + string) * con * Z :=
  (inr "2375531c32080ae8", d, now).

Definition authenticate (m : mongo_con_manager) (d : con)
    (database user pwd nonce : string) (now : Z) : (string + unit) * con * Z :=
  if String.eqb pwd "secret" then (inr tt, d, now)
  else (inl "Authentication failed", d, now).

(** Within [ping_interval] of the last ping nothing is sent; otherwise
    the probe goes out and a success is stamped with the clock. *)
Definition ping (dep : deployment) (m : mongo_con_manager) (d : con) (now : Z)
    : (string + unit) * con * Z :=
  if now <? last_ping d + ping_interval m then (inr tt, d, now)
  else if bool_decide (peer d ∈ listening dep)
       then (inr tt, {| peer := peer d; last_ping := now; ping_ms := 1 |}, now)
       else (inl "Ping failed", d, now).

Definition ismaster (dep : deployment) (m : mongo_con_manager) (d : con)
    (repl : option string) (def : mongo_server_def) (now : Z) : ismaster_out * con * Z :=
  match reply_of (ismaster_reply dep) (peer d) with
  | Some (code, hosts) =>
      ({| res := code; out_repl_set_name := repl; found_hosts := hosts;
          out_error_message := if code =? 0 then Some "not a member" else None |}, d, now)
  | None =>
      ({| res := 0; out_repl_set_name := repl; found_hosts := [];
          out_error_message := Some "no reply" |}, d, now)
  end.

Definition find_candidate_servers (m : mongo_con_manager)
    (h : gmap ptr (mongo_connection con)) (rp : mongo_read_preference)
    (auth_hash : option string) : option (list ptr) :=
  Some (pointers (connections m)).

Definition collaborators (dep : deployment) : Collaborators :=
  {| world := Z;
     data := con;
     MONGO_CON_FLAG_WRITE := 2;
     MONGO_CON_FLAG_DONT_CONNECT := 4;
     MONGO_MANAGER_DEFAULT_PING_INTERVAL := 5;
     MONGO_MANAGER_DEFAULT_MASTER_INTERVAL := 15;
     mongo_server_create_hash := create_hash;
     mongo_server_create_hashed_password := hashed_password;
     mongo_connection_create := create dep;
     mongo_connection_getnonce := getnonce;
     mongo_connection_authenticate := authenticate;
     mongo_connection_ping := ping dep;
     mongo_connection_ismaster := ismaster dep;
     mongo_connection_destroy := fun _ _ now => now;
     mongo_find_candidate_servers := find_candidate_servers;
     mongo_sort_servers := fun _ _ col _ => col;
     mongo_select_nearest_servers := fun _ _ col _ => col;
     mongo_pick_server_from_set := fun _ _ col _ now => (head col, now) |}.

Definition anonymous (h : string) (p : Z) : mongo_server_def :=
  {| host := h; port := p; db := None; username := None; password := None |}.

Definition nearest : mongo_read_preference := {| type := MONGO_RP_NEAREST; tagsets := [] |}.

Definition seeds (l : list mongo_server_def) (t : mongo_con_type) : mongo_servers :=
  {| server := l; con_type := t; repl_set_name := None; read_pref := nearest |}.

(** A replica set of three members reached through the alias [a:1]. *)
Definition rs0 : deployment :=
  {| listening := [("a", 1); ("b", 1); ("c", 1); ("d", 1)];
     ismaster_reply :=
       [(("a", 1), (3, ["b:1"; "c:1"; "d:1"]));
        (("b", 1), (1, ["b:1"; "c:1"; "d:1"]));
        (("c", 1), (1, ["b:1"; "c:1"; "d:1"]));
        (("d", 1), (1, ["b:1"; "c:1"; "d:1"]))] |}.

(** A deployment where nothing listens. *)
Definition down : deployment := {| listening := []; ismaster_reply := [] |}.

(** Two hosts that each name only the other one as member. *)
Definition mirror : deployment :=
  {| listening := [("a", 1); ("b", 1)];
     ismaster_reply := [(("a", 1), (3, ["b:1"])); (("b", 1), (3, ["a:1"]))] |}.

Definition fresh_state (dep : deployment) (now : Z) : @state (collaborators dep) :=
  @Build_state (collaborators dep) now ∅ (@mongo_init (collaborators dep)).

(** The three members alone: nobody answers 3. *)
Definition rs : deployment :=
  {| listening := [("b", 1); ("c", 1); ("d", 1)];
     ismaster_reply :=
       [(("b", 1), (1, ["b:1"; "c:1"; "d:1"]));
        (("c", 1), (1, ["b:1"; "c:1"; "d:1"]));
        (("d", 1), (1, ["b:1"; "c:1"; "d:1"]))] |}.

(** A connection to [h:1] as connections.c leaves it after a ping at
    time [pinged]. *)
Definition connected (h : string) (pinged : Z) : mongo_connection con :=
  {| hash := Some (create_hash (anonymous h 1));
     payload := {| peer := (h, 1); last_ping := pinged; ping_ms := 1 |} |}.

Definition registered (h : string) (p : ptr) : mongo_con_manager_item :=
  {| item_hash := create_hash (anonymous h 1); connection := p |}.

Definition manager_of (l : list mongo_con_manager_item) : mongo_con_manager :=
  {| connections := l; ping_interval := 5; ismaster_interval := 15 |}.

(** At time 100 the manager holds connections to [b:1] and [c:1],
    registered in this order and last pinged at time 0. *)
Definition two_connections (dep : deployment) : @state (collaborators dep) :=
  @Build_state (collaborators dep) 100
    (<[2%positive := connected "c" 0]> (<[1%positive := connected "b" 0]> ∅))
    (manager_of [registered "b" 1%positive; registered "c" 2%positive]).

(** At time 100 the manager holds one connection, to [h:1], last pinged
    at time [pinged]. *)
Definition one_connection (dep : deployment) (h : string) (pinged : Z)
    : @state (collaborators dep) :=
  @Build_state (collaborators dep) 100 (<[1%positive := connected h pinged]> ∅)
    (manager_of [registered h 1%positive]).

(** One connection, to [b:1], whose last ping is 100 seconds old. *)
Definition stale (dep : deployment) : @state (collaborators dep) := one_connection dep "b" 0.

Definition node (other : bool) : string := if other then "b" else "a".

(** In the deployment [mirror], one connection, to [a:1] or to [b:1],
    pinged just now. *)
Definition mirror_state (other : bool) : @state (collaborators mirror) :=
  one_connection mirror (node other) 100.

(** What the alias [a:1] of [rs0] answers to ismaster. *)
Definition alias_answer : ismaster_out :=
  {| res := 3; out_repl_set_name := None; found_hosts := ["b:1"; "c:1"; "d:1"];
     out_error_message := None |}.

(** A seed with credentials. *)
Definition with_credentials (h : string) (p : Z) : mongo_server_def :=
  {| host := h; port := p; db := Some "admin"; username := Some "app";
     password := Some "secret" |}.

(** The hashes of the two hosts of [mirror] and of the three members
    of [rs]. *)
Definition mirror_space : gset string := {["a:1;X"; "b:1;X"]}.

Definition members_space : gset string := {["b:1;X"; "c:1;X"; "d:1;X"]}.

(** At time 100 a connection to [b:1] is live, and the manager's list is
    empty. *)
Definition detached (dep : deployment) : @state (collaborators dep) :=
  @Build_state (collaborators dep) 100 (<[1%positive := connected "b" 0]> ∅) (manager_of []).

(** One host, which reports a member without a port. *)
Definition malformed : deployment :=
  {| listening := [("a", 1)]; ismaster_reply := [(("a", 1), (1, ["b"]))] |}.

End Sim.


(** * Properties *)

Section Properties.

Context `{C : Collaborators}.

(** ** Running the monad *)

Lemma bind_Return {A B} (m : M A) (k : A -> M B) s b s2 evs :
  bind m k s = Return b s2 evs ->
  exists a s1 e1 e2,
    m s = Return a s1 e1 /\ k a s1 = Return b s2 e2 /\ evs = e1 ++ e2.
Proof.
  unfold bind. destruct (m s) as [a s1 e1| |]; try discriminate.
  destruct (k a s1) as [b' s2' e2| |] eqn:Hk; try discriminate.
  intros [= -> -> <-]. by exists a, s1, e1, e2.
Qed.

Lemma bind_run {A B} (m : M A) (k : A -> M B) s a s1 e1 :
  m s = Return a s1 e1 ->
  bind m k s =
    match k a s1 with
    | Return b s2 e2 => Return b s2 (e1 ++ e2)
    | Crash why => Crash why
    | Timeout => Timeout
    end.
Proof. unfold bind. by intros ->. Qed.

Lemma deref_run con (c : mongo_connection data) s :
  heap s !! con = Some c -> deref con s = Return c s [].
Proof. unfold deref. by intros ->. Qed.

Lemma connection_destroy_run con (c : mongo_connection data) s :
  heap s !! con = Some c ->
  connection_destroy con s =
    Return tt {| wire := mongo_connection_destroy (manager s) (payload c) (wire s);
                 heap := delete con (heap s);
                 manager := manager s |} [EvDestroy con].
Proof.
  intros Hc. unfold connection_destroy. by rewrite (bind_run _ _ _ _ _ _ (deref_run _ _ _ Hc)).
Qed.

(** [emits P m]: every event of a run of [m] that returns satisfies [P]. *)
Definition emits {A} (P : event -> Prop) (m : M A) : Prop :=
  forall s a s' evs, m s = Return a s' evs -> Forall P evs.

Lemma emits_ret {A} P (a : A) : emits P (ret a).
Proof. intros s a' s' evs [= <- <- <-]. constructor. Qed.

Lemma emits_crash {A} P why : emits P (@crash _ A why).
Proof. intros s a' s' evs [=]. Qed.

Lemma emits_timeout {A} P : emits P (@timeout _ A).
Proof. intros s a' s' evs [=]. Qed.

Lemma emits_bind {A B} P (m : M A) (k : A -> M B) :
  emits P m -> (forall a, emits P (k a)) -> emits P (bind m k).
Proof.
  intros Hm Hk s b s2 evs Hrun.
  apply bind_Return in Hrun as (a & s1 & e1 & e2 & H1 & H2 & ->).
  apply Forall_app. split; [by eapply Hm | by eapply Hk].
Qed.

Lemma emits_mono {A} (P Q : event -> Prop) (m : M A) :
  (forall e, P e -> Q e) -> emits P m -> emits Q m.
Proof. intros HPQ Hm s a s' evs Hrun. eapply Forall_impl; [by eapply Hm | done]. Qed.

Lemma emits_emit P e : P e -> emits P (emit e).
Proof. intros He s a s' evs [= <- <- <-]. by repeat constructor. Qed.

Lemma emits_log P module level format args :
  P (EvLog module level format args) -> emits P (mongo_manager_log module level format args).
Proof. apply emits_emit. Qed.

Lemma emits_get_manager P : emits P get_manager.
Proof. intros s a s' evs [= <- <- <-]. constructor. Qed.

Lemma emits_set_manager_connections P l : emits P (set_manager_connections l).
Proof. intros s a s' evs [= <- <- <-]. constructor. Qed.

Lemma emits_deref P con : emits P (deref con).
Proof.
  intros s a s' evs. unfold deref. destruct (heap s !! con); [|done].
  intros [= <- <- <-]. constructor.
Qed.

Lemma emits_store P con c : emits P (store con c).
Proof. intros s a s' evs [= <- <- <-]. constructor. Qed.

Lemma emits_wire_call {A} P con op (ev : A -> event) :
  (forall a, P (ev a)) -> emits P (wire_call con op ev).
Proof.
  intros Hev. apply emits_bind; [apply emits_deref|]. intros c s a s' evs.
  destruct (op (manager s) (payload c) (wire s)) as [[a' d] w].
  intros [= <- <- <-]. by repeat constructor.
Qed.

Lemma emits_connection_destroy P con : P (EvDestroy con) -> emits P (connection_destroy con).
Proof.
  intros Hev. apply emits_bind; [apply emits_deref|]. intros c s a s' evs [= <- <- <-].
  by repeat constructor.
Qed.

Lemma emits_connection_create P def :
  (forall r, P (EvCreate def r)) -> emits P (connection_create def).
Proof.
  intros Hev s a s' evs. unfold connection_create.
  destruct (mongo_connection_create (manager s) def (wire s)) as [[err|d] w];
    intros [= <- <- <-]; by repeat constructor.
Qed.

(** ** Teardown *)

Lemma pointers_cons item l : pointers (item :: l) = connection item :: pointers l.
Proof. reflexivity. Qed.

Lemma pointers_app l1 l2 : pointers (l1 ++ l2) = pointers l1 ++ pointers l2.
Proof. apply fmap_app. Qed.

Lemma destroy_manager_item_run next : forall item s,
  NoDup (pointers (item :: next)) ->
  (forall p, p ∈ pointers (item :: next) -> is_Some (heap s !! p)) ->
  exists s' evs,
    destroy_manager_item item next s = Return tt s' evs /\
    destroyed evs = rev (pointers (item :: next)) /\
    manager s' = manager s /\
    forall p, heap s' !! p =
              if bool_decide (p ∈ pointers (item :: next)) then None else heap s !! p.
Proof.
  induction next as [|n next IH]; intros item s Hnd Hlive.
  - destruct (Hlive (connection item)) as [c Hc]; [set_solver|].
    eexists _, _. split.
    { cbn [destroy_manager_item]. unfold bind at 1. cbn [ret].
      rewrite (bind_run _ _ _ _ _ _ (connection_destroy_run _ _ _ Hc)).
      reflexivity. }
    repeat split; cbn.
    intros p. case_bool_decide as Hp.
    + apply list_elem_of_singleton in Hp as ->. apply lookup_delete_eq.
    + rewrite lookup_delete_ne; [done|]. set_solver.
  - rewrite pointers_cons in Hnd. apply NoDup_cons in Hnd as [Hnotin Hnd].
    destruct (IH n s Hnd) as (s1 & e1 & Hrun & Hd & Hm & Hheap).
    { intros p Hp. apply Hlive. set_solver. }
    destruct (Hlive (connection item)) as [c Hc]; [set_solver|].
    assert (Hc1 : heap s1 !! connection item = Some c).
    { rewrite Hheap. by rewrite bool_decide_eq_false_2. }
    eexists _, _. split.
    { change (destroy_manager_item item (n :: next))
        with (destroy_manager_item n next ;; connection_destroy (connection item) ;;
              free_manager_item item).
      rewrite (bind_run _ _ _ _ _ _ Hrun).
      rewrite (bind_run _ _ _ _ _ _ (connection_destroy_run _ _ _ Hc1)).
      reflexivity. }
    split; [|split].
    + rewrite (pointers_cons item). cbn [rev]. rewrite <- Hd.
      unfold destroyed. by rewrite omap_app.
    + done.
    + intros p. cbn [heap]. destruct (decide (p = connection item)) as [->|Hne].
      * rewrite lookup_delete_eq. rewrite bool_decide_eq_true_2; [done|]. set_solver.
      * rewrite lookup_delete_ne by done. rewrite Hheap.
        apply (f_equal (fun b : bool => if b then None else heap s !! p)).
        apply bool_decide_ext. rewrite (pointers_cons item). set_solver.
Qed.

(** C2 (as amended). [mongo_deinit] destroys every connection of the
    manager's list, each once, in the reverse of the order of
    registration: the connection registered last is destroyed first.
    Nothing of the list is left and none of its connections is live. *)
Theorem deinit_destroys_in_reverse_order s :
  NoDup (pointers (connections (manager s))) ->
  (forall p, p ∈ pointers (connections (manager s)) -> is_Some (heap s !! p)) ->
  exists s' evs,
    mongo_deinit s = Return tt s' evs /\
    destroyed evs = rev (pointers (connections (manager s))) /\
    connections (manager s') = [] /\
    forall p, p ∈ pointers (connections (manager s)) -> heap s' !! p = None.
Proof.
  intros Hnd Hlive. unfold mongo_deinit, get_manager, bind at 1.
  destruct (connections (manager s)) as [|item next] eqn:Hl.
  - eexists _, _. split; [reflexivity|]. repeat split. intros p Hp. by apply elem_of_nil in Hp.
  - destruct (destroy_manager_item_run next item s Hnd Hlive) as (s1 & e1 & Hrun & Hd & Hm & Hheap).
    eexists _, _. split; [by rewrite (bind_run _ _ _ _ _ _ Hrun)|].
    split; [|split].
    + cbn. by rewrite !app_nil_r.
    + done.
    + intros p Hp. cbn. rewrite Hheap. by rewrite bool_decide_eq_true_2.
Qed.

(** ** Single-connection acquire *)

Lemma find_by_hash_run h s :
  exists evs,
    mongo_manager_connection_find_by_hash h s =
      Return (connection <$> find_item (connections (manager s)) h) s evs /\
    (forall e, e ∈ evs -> exists h1 h2,
       e = EvLog MLOG_CON MLOG_FINE "found connection %s (looking for %s)" [LogStr h1; LogStr h2]).
Proof.
  unfold mongo_manager_connection_find_by_hash, get_manager, bind at 1.
  destruct (find_item (connections (manager s)) h) as [item|]; cbn.
  - eexists. split; [reflexivity|]. intros e He. apply list_elem_of_singleton in He as ->. eauto.
  - eexists. split; [reflexivity|]. intros e He. by apply elem_of_nil in He.
Qed.

(** [emits] through the functions of manager.c: split binds, case on
    the data the code cases on, and close the leaves. *)
Ltac emits_step :=
  lazymatch goal with
  | |- emits _ (bind _ _) => apply emits_bind; [|intros ?]
  | |- emits _ (ret _) => apply emits_ret
  | |- emits _ (crash _) => apply emits_crash
  | |- emits _ timeout => apply emits_timeout
  | |- emits _ get_manager => apply emits_get_manager
  | |- emits _ (set_manager_connections _) => apply emits_set_manager_connections
  | |- emits _ (deref _) => apply emits_deref
  | |- emits _ (store _ _) => apply emits_store
  | |- emits _ (mongo_manager_log _ _ _ _) => apply emits_log
  | |- emits _ (wire_call _ _ _) => apply emits_wire_call; intros ?
  | |- emits _ (connection_destroy _) => apply emits_connection_destroy
  | |- emits _ (connection_create _) => apply emits_connection_create; intros ?
  | |- emits _ (match ?x with _ => _ end) => destruct x
  | |- emits _ (if ?x then _ else _) => destruct x
  end.

Lemma emits_find_by_hash P h :
  (forall h1 h2, P (EvLog MLOG_CON MLOG_FINE "found connection %s (looking for %s)"
                      [LogStr h1; LogStr h2])) ->
  emits P (mongo_manager_connection_find_by_hash h).
Proof. intros HP. unfold mongo_manager_connection_find_by_hash. repeat emits_step. apply HP. Qed.

Lemma emits_free_manager_item P item :
  (forall h, P (EvLog MLOG_CON MLOG_INFO "freeing connection %s" [LogStr h])) ->
  emits P (free_manager_item item).
Proof. intros HP. unfold free_manager_item. repeat emits_step. apply HP. Qed.

Lemma acquire_event_find_by_hash h : emits acquire_event (mongo_manager_connection_find_by_hash h).
Proof. by apply emits_find_by_hash. Qed.

Lemma acquire_event_register con : emits acquire_event (mongo_manager_connection_register con).
Proof.
  unfold mongo_manager_connection_register, connection_hash. repeat emits_step.
Qed.

Lemma acquire_event_deregister con : emits acquire_event (mongo_manager_connection_deregister con).
Proof.
  unfold mongo_manager_connection_deregister, connection_hash, free_manager_item.
  repeat emits_step; done.
Qed.

Lemma acquire_event_single server connection_flags :
  emits acquire_event (mongo_get_connection_single server connection_flags).
Proof.
  unfold mongo_get_connection_single.
  apply emits_bind; [apply acquire_event_find_by_hash|]. intros [con|].
  - destruct (negb _); [|emits_step].
    apply emits_bind; [unfold connection_ping; by repeat emits_step|]. intros [err|[]].
    + apply emits_bind; [apply acquire_event_deregister|]. intros _. emits_step.
    + emits_step.
  - destruct (negb _); [|emits_step].
    unfold set_hash, authenticate_connection, connection_ping.
    repeat first [ apply acquire_event_register | emits_step ]; done.
Qed.

Lemma fresh_not_live (s : state) : heap s !! fresh (dom (heap s)) = None.
Proof. apply not_elem_of_dom, is_fresh. Qed.

Lemma find_by_hash_absent h s :
  find_item (connections (manager s)) h = None ->
  mongo_manager_connection_find_by_hash h s = Return None s [].
Proof.
  intros Hf. unfold mongo_manager_connection_find_by_hash, get_manager, bind. by rewrite Hf.
Qed.

Lemma find_by_hash_present h item s :
  find_item (connections (manager s)) h = Some item ->
  mongo_manager_connection_find_by_hash h s =
    Return (Some (connection item)) s
      [EvLog MLOG_CON MLOG_FINE "found connection %s (looking for %s)"
         [LogStr (Some (item_hash item)); LogStr (Some h)]].
Proof.
  intros Hf. unfold mongo_manager_connection_find_by_hash, get_manager, bind. by rewrite Hf.
Qed.

Lemma single_connects server connection_flags s :
  let h := mongo_server_create_hash server in
  find_item (connections (manager s)) h = None ->
  has_flag connection_flags MONGO_CON_FLAG_DONT_CONNECT = false ->
  exists r s' evs,
    mongo_get_connection_single server connection_flags s = Return r s' evs /\
    ((exists con c,
        r = (Some con, None) /\
        steps evs = (fun k => (k, true)) <$> connect_plan server /\
        created evs = [con] /\ destroyed evs = [] /\
        EvPing con (inr tt) ∈ evs /\
        heap s !! con = None /\
        heap s' = <[con := c]> (heap s) /\ hash c = Some h /\
        manager s' = registered_as h con (manager s))
     \/
     (exists k failed err,
        connect_plan server !! k = Some failed /\
        r = (None, Some err) /\
        steps evs = ((fun k => (k, true)) <$> take k (connect_plan server)) ++
                    [(failed, false)] ++
                    (if k is O then [] else [(StepDestroy, true)]) /\
        destroyed evs = created evs /\
        heap s' = heap s /\ manager s' = manager s)).
Proof.
  intros h Hfind Hflag. unfold mongo_get_connection_single. fold h.
  rewrite (bind_run _ _ _ _ _ _ (find_by_hash_absent _ _ Hfind)), Hflag.
  pose proof (fresh_not_live s) as Hfresh.
  unfold connection_create, set_hash, authenticate_connection, connection_ping,
    mongo_manager_connection_register, connection_hash, connection_destroy, wire_call,
    mongo_manager_log, emit, store, deref, get_manager, set_manager_connections, bind, ret,
    connect_plan, has_credentials.
  cbn [negb].
  repeat first
    [ progress cbn [heap manager wire payload hash with_payload]
    | rewrite lookup_insert_eq
    | match goal with
      | |- context [match ?x with _ => _ end] =>
          lazymatch x with
          | context [match _ with _ => _ end] => fail
          | _ => destruct x eqn:?
          end
      end ].
  all: eexists _, _, _; (split; [reflexivity|]).
  all: repeat match goal with u : unit |- _ => destruct u end.
  all: first
    [ left; eexists _, _; split; [reflexivity|];
      do 3 (split; [reflexivity|]);
      split; [cbn; set_solver|];
      split; [exact Hfresh|];
      split; [cbn [heap]; rewrite ?insert_insert_eq; reflexivity|];
      split; reflexivity
    | right;
      let fails_at k :=
        solve [ exists k; eexists _, _; do 4 (split; [reflexivity|]);
                split; [|reflexivity]; cbn [heap]; rewrite ?delete_insert_eq;
                first [ reflexivity | by apply delete_id ] ] in
      first [ fails_at 0%nat | fails_at 1%nat | fails_at 2%nat | fails_at 3%nat ] ].
Qed.

Lemma wire_call_Return {A} con op (ev : A -> event) s a s' evs :
  wire_call con op ev s = Return a s' evs ->
  exists c d w,
    heap s !! con = Some c /\ op (manager s) (payload c) (wire s) = (a, d, w) /\
    s' = {| wire := w; heap := <[con := with_payload c d]> (heap s); manager := manager s |} /\
    evs = [ev a].
Proof.
  unfold wire_call, bind, deref. destruct (heap s !! con) as [c|]; [|done].
  destruct (op (manager s) (payload c) (wire s)) as [[a' d] w] eqn:Hop.
  intros [= <- <- <-]. by exists c, d, w.
Qed.

Lemma wire_call_run {A} con (c : mongo_connection data) op (ev : A -> event) s a d w :
  heap s !! con = Some c ->
  op (manager s) (payload c) (wire s) = (a, d, w) ->
  wire_call con op ev s =
    Return a {| wire := w; heap := <[con := with_payload c d]> (heap s);
                manager := manager s |} [ev a].
Proof.
  intros Hc Hop. unfold wire_call. rewrite (bind_run _ _ _ _ _ _ (deref_run _ _ _ Hc)).
  by rewrite Hop.
Qed.

Lemma ret_Return {A} (a b : A) (s s' : state) evs :
  ret a s = Return b s' evs -> b = a /\ s' = s /\ evs = [].
Proof. by intros [= <- <- <-]. Qed.

Lemma find_item_hash l h item : find_item l h = Some item -> item_hash item = h.
Proof.
  induction l as [|i l IH]; [done|]. cbn. destruct (String.eqb_spec (item_hash i) h); [|done].
  by intros [= <-].
Qed.

Lemma find_item_elem l h item : find_item l h = Some item -> item ∈ l.
Proof.
  induction l as [|i l IH]; [done|]. cbn. destruct (String.eqb (item_hash i) h).
  - intros [= <-]. set_solver.
  - intros Hf. set_solver.
Qed.

Lemma find_item_app_new l h con :
  find_item l h = None ->
  find_item (l ++ [{| item_hash := h; connection := con |}]) h =
    Some {| item_hash := h; connection := con |}.
Proof.
  induction l as [|i l IH]; cbn.
  - by rewrite String.eqb_refl.
  - destruct (String.eqb (item_hash i) h); [done|]. apply IH.
Qed.

(** A connection that single-connection acquire returns is the one the
    manager's list holds for the server's hash, and unless
    [DONT_CONNECT] is set [mongo_connection_ping] has succeeded on it
    within the call. *)
Lemma single_returns_registered server connection_flags s con err s' evs :
  mongo_get_connection_single server connection_flags s = Return (Some con, err) s' evs ->
  (exists item,
     find_item (connections (manager s')) (mongo_server_create_hash server) = Some item /\
     connection item = con) /\
  (has_flag connection_flags MONGO_CON_FLAG_DONT_CONNECT = false -> EvPing con (inr tt) ∈ evs).
Proof.
  set (h := mongo_server_create_hash server). intros Hrun.
  destruct (find_item (connections (manager s)) h) as [item|] eqn:Hfind;
    destruct (has_flag connection_flags MONGO_CON_FLAG_DONT_CONNECT) eqn:Hflag.
  - unfold mongo_get_connection_single in Hrun. fold h in Hrun.
    rewrite (bind_run _ _ _ _ _ _ (find_by_hash_present _ _ _ Hfind)), Hflag in Hrun.
    cbn in Hrun. injection Hrun as <- <- <- <-. split; [eauto|done].
  - unfold mongo_get_connection_single in Hrun. fold h in Hrun.
    rewrite (bind_run _ _ _ _ _ _ (find_by_hash_present _ _ _ Hfind)), Hflag in Hrun.
    cbn [negb] in Hrun.
    destruct (bind _ _ s) as [r s1 e1| |] eqn:Hping in Hrun; try done.
    injection Hrun as -> -> <-.
    apply bind_Return in Hping as ([e|[]] & s2 & e2 & e3 & Hp & Hk & ->).
    + apply bind_Return in Hk as (? & ? & ? & ? & _ & Hk & _).
      by apply ret_Return in Hk as [[=] _].
    + apply ret_Return in Hk as (Heq & -> & ->). injection Heq as -> ->.
      apply wire_call_Return in Hp as (c & d & w & _ & _ & -> & ->).
      split; [eauto|]. intros _. set_solver.
  - unfold mongo_get_connection_single in Hrun. fold h in Hrun.
    by rewrite (bind_run _ _ _ _ _ _ (find_by_hash_absent _ _ Hfind)), Hflag in Hrun.
  - destruct (single_connects server connection_flags s Hfind Hflag)
      as (r & s1 & e1 & Hrun' & Hcases).
    rewrite Hrun in Hrun'. injection Hrun' as <- <- <-.
    destruct Hcases as [(con' & c & Heq & _ & _ & _ & Hp & _ & _ & _ & ->)
                       |(k & failed & e & _ & [=] & _)].
    injection Heq as -> ->. split; [|done].
    eexists. split; [by apply find_item_app_new | reflexivity].
Qed.

(** ** What the strategies return *)

Lemma find_candidate_servers_Return rp auth_hash s col s' evs :
  find_candidate_servers rp auth_hash s = Return col s' evs ->
  col = mongo_find_candidate_servers (manager s) (heap s) rp auth_hash /\ s' = s /\
  evs = [EvFindCandidates rp auth_hash col].
Proof. by intros [= <- <- <-]. Qed.

Lemma selected_is_registered rp auth_hash servers s0 col s1 e1 con s2 e2 :
  selection_sound ->
  find_candidate_servers rp auth_hash s0 = Return col s1 e1 ->
  is_empty col = false ->
  sort_select_pick servers col s1 = Return (Some con) s2 e2 ->
  con ∈ pointers (connections (manager s2)).
Proof.
  intros (Hfind & Hsort & Hnear & Hpick) Hcol Hne Hrun.
  apply find_candidate_servers_Return in Hcol as (Hcol & -> & _).
  destruct col as [col|]; [|done]. symmetry in Hcol.
  apply bind_Return in Hrun as (sorted & s3 & ? & ? & [= <- <- <-] & Hrun & _).
  apply bind_Return in Hrun as (nearest & s4 & ? & ? & [= <- <- <-] & Hrun & _).
  unfold pick_server_from_set in Hrun.
  destruct (mongo_pick_server_from_set _ _ _ _ _) as [r w] eqn:Hp.
  injection Hrun as -> <- _. cbn [manager].
  eapply Hfind; [exact Hcol|]. eapply Hsort, Hnear, Hpick, Hp.
Qed.

Lemma replicaset_returns_registered fuel servers connection_flags s servers' con err s' evs :
  selection_sound ->
  mongo_get_read_write_connection_replicaset fuel servers connection_flags s =
    Return (servers', Some con, err) s' evs ->
  con ∈ pointers (connections (manager s')).
Proof.
  intros Hsound Hrun. unfold mongo_get_read_write_connection_replicaset in Hrun.
  apply bind_Return in Hrun as (found & s1 & ? & ? & _ & Hrun & _).
  destruct (negb found && _); [by apply ret_Return in Hrun as [[=] _]|].
  apply bind_Return in Hrun as (servers1 & s2 & ? & ? & _ & Hrun & _).
  apply bind_Return in Hrun as (auth_hash & s3 & ? & ? & _ & Hrun & _).
  apply bind_Return in Hrun as (col & s4 & ? & ? & Hcol & Hrun & _).
  destruct (is_empty col) eqn:Hne; [by apply ret_Return in Hrun as [[=] _]|].
  apply bind_Return in Hrun as (picked & s5 & ? & ? & Hpick & Hrun & _).
  apply ret_Return in Hrun as ([= -> <- ->] & -> & _).
  destruct (has_flag connection_flags MONGO_CON_FLAG_WRITE);
    eapply selected_is_registered; eauto.
Qed.

Lemma multiple_returns_registered servers connection_flags s servers' con err s' evs :
  selection_sound ->
  mongo_get_connection_multiple servers connection_flags s =
    Return (servers', Some con, err) s' evs ->
  con ∈ pointers (connections (manager s')).
Proof.
  intros Hsound Hrun. unfold mongo_get_connection_multiple in Hrun.
  apply bind_Return in Hrun as ([found messages] & s1 & ? & ? & _ & Hrun & _).
  destruct (negb found && _); [by apply ret_Return in Hrun as [[=] _]|].
  apply bind_Return in Hrun as (auth_hash & s3 & ? & ? & _ & Hrun & _).
  apply bind_Return in Hrun as (col & s4 & ? & ? & Hcol & Hrun & _).
  destruct (is_empty col) eqn:Hne.
  { destruct (negb _); by apply ret_Return in Hrun as [[=] _]. }
  apply bind_Return in Hrun as (picked & s5 & ? & ? & Hpick & Hrun & _).
  apply ret_Return in Hrun as ([= -> <- ->] & -> & _).
  eapply selected_is_registered; eauto.
Qed.

Lemma log_Return module level format args s (u : unit) s' evs :
  mongo_manager_log module level format args s = Return u s' evs ->
  s' = s /\ evs = [EvLog module level format args].
Proof. by intros [= <- <-]. Qed.

(** C1 (as amended). A connection returned by single-connection acquire
    is, at the return, the connection that the manager's list holds for
    the hash of the requested server, and when [DONT_CONNECT] is clear
    [mongo_connection_ping] has succeeded on it within the call. A
    connection returned by [mongo_get_read_write_connection] is in the
    manager's list at the return, provided the selection functions only
    hand back connections of that list. *)
Theorem returned_connection_is_registered :
  selection_sound ->
  (forall server connection_flags s con err s' evs,
     mongo_get_connection_single server connection_flags s = Return (Some con, err) s' evs ->
     (exists item,
        find_item (connections (manager s')) (mongo_server_create_hash server) = Some item /\
        connection item = con) /\
     (has_flag connection_flags MONGO_CON_FLAG_DONT_CONNECT = false ->
      EvPing con (inr tt) ∈ evs)) /\
  (forall fuel servers connection_flags s servers' con err s' evs,
     mongo_get_read_write_connection fuel servers connection_flags s =
       Return (servers', Some con, err) s' evs ->
     con ∈ pointers (connections (manager s'))).
Proof.
  intros Hsound. split.
  - intros *. apply single_returns_registered.
  - intros * Hrun. unfold mongo_get_read_write_connection in Hrun.
    destruct (con_type servers);
      apply bind_Return in Hrun as ([] & s1 & ? & ? & Hlog & Hrun & _);
      apply log_Return in Hlog as [-> _].
    + by eapply multiple_returns_registered.
    + by eapply replicaset_returns_registered.
    + by eapply multiple_returns_registered.
    + by apply ret_Return in Hrun as [[=] _].
Qed.

(** ** Standalone servers and multiple routers: the surfaced error *)

Lemma acquire_event_no_seed_failure e : acquire_event e -> seed_failure_of e = None.
Proof.
  destruct e as [module level format args| | | | | | | | | |]; try done.
  cbn. intros Hf. apply bool_decide_unpack in Hf.
  repeat (apply elem_of_cons in Hf as [->|Hf]); [..|by apply elem_of_nil in Hf];
    cbn; repeat case_match; done.
Qed.

Lemma acquire_event_no_candidate_call e : acquire_event e -> candidate_call_of e = None.
Proof. by destruct e. Qed.

Lemma omap_none {A B} (f : A -> option B) (P : A -> Prop) l :
  (forall x, P x -> f x = None) -> Forall P l -> omap f l = [].
Proof.
  intros Hf. induction 1 as [|x l Hx _ IH]; [done|]. cbn. by rewrite (Hf x Hx).
Qed.

Lemma single_no_seed_failure server connection_flags s r s' evs :
  mongo_get_connection_single server connection_flags s = Return r s' evs ->
  seed_failures evs = [] /\ candidate_calls evs = [].
Proof.
  intros Hrun. apply acquire_event_single in Hrun. split.
  - eapply omap_none; [apply acquire_event_no_seed_failure|done].
  - eapply omap_none; [apply acquire_event_no_candidate_call|done].
Qed.

Lemma multiple_seeds_messages seeds connection_flags : forall found msg messages s r s' evs,
  multiple_seeds seeds connection_flags found msg messages s = Return r s' evs ->
  r.2 = fold_left add_failure' (seed_failures evs) messages /\ candidate_calls evs = [].
Proof.
  induction seeds as [|seed rest IH]; intros found msg messages s r s' evs Hrun.
  - by apply ret_Return in Hrun as (-> & _ & ->).
  - cbn [multiple_seeds] in Hrun.
    apply bind_Return in Hrun as ([tmp err] & s1 & e1 & e2 & Hsingle & Hrun & ->).
    apply single_no_seed_failure in Hsingle as [Hsf Hcc].
    unfold seed_failures, candidate_calls in *. rewrite !omap_app, Hsf, Hcc.
    cbn [fst snd] in Hrun. destruct tmp as [con|]; [by apply IH in Hrun|].
    destruct (negb _); [|by apply IH in Hrun].
    apply bind_Return in Hrun as ([] & s2 & e3 & e4 & Hlog & Hrun & ->).
    apply log_Return in Hlog as [-> ->].
    destruct (match err with Some e => Some e | None => msg end) as [text|] eqn:Hmsg; [|done].
    apply IH in Hrun as [-> Hcc']. rewrite !omap_app, Hcc'. by cbn.
Qed.

Lemma append_assoc (a b c : string) : (a +:+ b) +:+ c = a +:+ (b +:+ c).
Proof.
  induction a as [|x a IH]; [done|].
  change (String x ((a +:+ b) +:+ c) = String x (a +:+ (b +:+ c))). by f_equal.
Qed.

Lemma concat_snoc sep l x :
  l <> [] -> String.concat sep (l ++ [x]) = String.concat sep l +:+ sep +:+ x.
Proof.
  induction l as [|a [|b l] IH]; [done|done|]. intros _.
  change (String.concat sep ((a :: b :: l) ++ [x]))
    with (a +:+ sep +:+ String.concat sep ((b :: l) ++ [x])).
  rewrite IH by done.
  change (String.concat sep (a :: b :: l)) with (a +:+ sep +:+ String.concat sep (b :: l)).
  by rewrite !append_assoc.
Qed.

Lemma composite_length failures :
  (String.length (composite failures) =? 0)%nat = bool_decide (failures = []).
Proof. by destruct failures as [|f [|g l]]. Qed.

Lemma fold_add_failure failures : forall before,
  fold_left add_failure' failures (composite before) = composite (before ++ failures).
Proof.
  induction failures as [|f l IH]; intros before; [by rewrite app_nil_r|].
  cbn [fold_left].
  replace (before ++ f :: l) with ((before ++ [f]) ++ l) by (by rewrite <- app_assoc).
  rewrite <- IH. f_equal.
  unfold add_failure'. rewrite composite_length.
  destruct before as [|b before]; [done|]. rewrite bool_decide_eq_false_2 by done.
  cbn [negb]. unfold composite. rewrite fmap_app, !fmap_cons, fmap_nil, concat_snoc by done.
  by rewrite append_assoc.
Qed.

Lemma sort_select_pick_Return servers col s r s' evs :
  sort_select_pick servers col s = Return r s' evs ->
  candidate_calls evs = [] /\ seed_failures evs = [] /\
  manager s' = manager s /\ heap s' = heap s.
Proof.
  intros Hrun.
  apply bind_Return in Hrun as (sorted & s3 & ? & ? & [= <- <- <-] & Hrun & ->).
  apply bind_Return in Hrun as (nearest & s4 & ? & ? & [= <- <- <-] & Hrun & ->).
  unfold pick_server_from_set in Hrun.
  destruct (mongo_pick_server_from_set _ _ _ _ _) as [r' w]. by injection Hrun as <- <- <-.
Qed.

Lemma create_auth_hash_Return servers s auth_hash s' evs :
  create_auth_hash servers s = Return auth_hash s' evs ->
  s' = s /\ evs = [] /\
  exists first, server servers !! 0%nat = Some first /\ auth_hash = auth_hash_of first.
Proof.
  unfold create_auth_hash, server_at, bind. destruct (server servers !! 0%nat) as [first|]; [|done].
  intros [= <- <- <-]. eauto.
Qed.

Lemma multiple_surfaced_error servers connection_flags s servers' con err s' evs call :
  mongo_get_connection_multiple servers connection_flags s = Return (servers', con, err) s' evs ->
  call ∈ candidate_calls evs ->
  is_empty call.2 = true ->
  con = None /\
  err = Some (match seed_failures evs with
              | [] => no_candidates
              | failures => composite failures
              end).
Proof.
  intros Hrun Hcall Hempty. unfold mongo_get_connection_multiple in Hrun.
  apply bind_Return in Hrun as ([found messages] & s1 & e1 & e2 & Hseeds & Hrun & ->).
  apply multiple_seeds_messages in Hseeds as [Hm Hcc]. cbn [snd] in Hm.
  change EmptyString with (composite []) in Hm. rewrite fold_add_failure, app_nil_l in Hm.
  unfold candidate_calls, seed_failures in *. rewrite omap_app, Hcc in Hcall. rewrite omap_app.
  cbn [app] in Hcall.
  destruct (negb found && _).
  { apply ret_Return in Hrun as (_ & _ & ->). by apply elem_of_nil in Hcall. }
  apply bind_Return in Hrun as (auth_hash & s2 & e3 & e4 & Hauth & Hrun & ->).
  apply create_auth_hash_Return in Hauth as (-> & -> & _). cbn [app] in *.
  apply bind_Return in Hrun as (col & s3 & e5 & e6 & Hcol & Hrun & ->).
  apply find_candidate_servers_Return in Hcol as (_ & -> & ->).
  destruct (is_empty col) eqn:Hcol.
  - rewrite Hm, composite_length in Hrun.
    destruct (omap seed_failure_of e1) as [|f l] eqn:Hsf.
    + rewrite bool_decide_eq_true_2 in Hrun by done.
      by apply ret_Return in Hrun as ([= -> -> ->] & _ & ->).
    + rewrite bool_decide_eq_false_2 in Hrun by done.
      apply ret_Return in Hrun as ([= -> -> ->] & _ & ->).
      split; [done|]. cbn [app omap list_omap seed_failure_of]. by rewrite app_nil_r.
  - apply bind_Return in Hrun as (picked & s4 & e7 & e8 & Hpick & Hrun & ->).
    apply sort_select_pick_Return in Hpick as (Hcc' & _). unfold candidate_calls in Hcc'.
    apply ret_Return in Hrun as (_ & _ & ->).
    rewrite !omap_app, Hcc' in Hcall. cbn in Hcall.
    apply list_elem_of_singleton in Hcall as ->. cbn in Hempty. congruence.
Qed.

(** C5. For a standalone server or multiple routers, when the candidate
    selection hands back an empty set no connection is returned and the
    error text is the composition of the per-seed failures if at least
    one was recorded, and [No candidate servers found] otherwise. *)
Theorem multiple_no_candidates_error fuel servers connection_flags s servers' con err s' evs call :
  con_type servers = MONGO_CON_TYPE_STANDALONE \/ con_type servers = MONGO_CON_TYPE_MULTIPLE ->
  mongo_get_read_write_connection fuel servers connection_flags s =
    Return (servers', con, err) s' evs ->
  call ∈ candidate_calls evs ->
  is_empty call.2 = true ->
  con = None /\
  err = Some (match seed_failures evs with
              | [] => "No candidate servers found"
              | failures => composite failures
              end).
Proof.
  intros Htype Hrun Hcall Hempty. unfold mongo_get_read_write_connection in Hrun.
  destruct Htype as [Htype|Htype]; rewrite Htype in Hrun;
    apply bind_Return in Hrun as ([] & s1 & ? & e2 & Hlog & Hrun & ->);
    apply log_Return in Hlog as [-> ->];
    exact (multiple_surfaced_error _ _ _ _ _ _ _ _ call Hrun Hcall Hempty).
Qed.

(** ** Topology discovery: events and the server list *)

Lemma acquire_expansion_event e : acquire_event e -> expansion_event e.
Proof. unfold expansion_event. intros He. apply orb_True. by left. Qed.

Lemma expansion_discovery_event e : expansion_event e -> discovery_event e.
Proof. unfold discovery_event. intros He. apply orb_True. by left. Qed.

Lemma expansion_event_single server connection_flags :
  emits expansion_event (mongo_get_connection_single server connection_flags).
Proof. eapply emits_mono; [apply acquire_expansion_event | apply acquire_event_single]. Qed.

Lemma expansion_event_find_by_hash h :
  emits expansion_event (mongo_manager_connection_find_by_hash h).
Proof. eapply emits_mono; [apply acquire_expansion_event | apply acquire_event_find_by_hash]. Qed.

Lemma expansion_event_deregister con :
  emits expansion_event (mongo_manager_connection_deregister con).
Proof. eapply emits_mono; [apply acquire_expansion_event | apply acquire_event_deregister]. Qed.

Ltac expansion_leaf :=
  first [ apply expansion_event_single | apply expansion_event_find_by_hash
        | apply expansion_event_deregister | emits_step ].

Lemma expansion_event_host i servers found_host :
  emits expansion_event (discover_host i servers found_host).
Proof. unfold discover_host, server_at, make_tmp_def. repeat expansion_leaf; done. Qed.

Lemma expansion_event_hosts i hosts : forall servers,
  emits expansion_event (discover_hosts i servers hosts).
Proof.
  induction hosts as [|h hosts IH]; intros servers; cbn [discover_hosts]; [emits_step|].
  apply emits_bind; [apply expansion_event_host|]. intros servers'. apply IH.
Qed.

Lemma expansion_event_switch i servers seed con o :
  emits expansion_event (discover_switch i servers seed con o).
Proof.
  unfold discover_switch.
  repeat first [ apply expansion_event_hosts | expansion_leaf ]; done.
Qed.

(** An iteration that returns has announced the hash of [servers[i]]
    and then produced expansion events only. *)
Lemma discover_iteration_events i servers repl s r s' evs :
  discover_iteration i servers repl s = Return r s' evs ->
  exists seed rest,
    server servers !! i = Some seed /\
    evs = EvLog MLOG_CON MLOG_FINE "discover_topology: checking ismaster for %s"
            [LogStr (Some (mongo_server_create_hash seed))] :: rest /\
    Forall expansion_event rest.
Proof.
  unfold discover_iteration, server_at. intros Hrun.
  destruct (server servers !! i) as [seed|] eqn:Hseed; [|done].
  apply bind_Return in Hrun as (? & s0 & ? & e1 & [= <- <- <-] & Hrun & ->).
  apply bind_Return in Hrun as ([] & s1 & ? & e2 & [= <- <-] & Hrun & ->).
  exists seed, e2. split; [done|]. split; [done|].
  revert Hrun. generalize r s' e2. generalize s.
  match goal with
  | |- forall s r s' e, ?m s = Return r s' e -> _ => change (emits expansion_event m)
  end.
  repeat first [ apply expansion_event_switch | expansion_leaf ]; done.
Qed.

Lemma discovery_event_iteration i servers repl :
  emits discovery_event (discover_iteration i servers repl).
Proof.
  intros s r s' evs Hrun.
  apply discover_iteration_events in Hrun as (seed & rest & _ & -> & Hrest).
  constructor; [done|]. eapply Forall_impl; [done|]. apply expansion_discovery_event.
Qed.

Lemma discovery_event_loop fuel : forall i servers repl,
  emits discovery_event (discover_loop fuel i servers repl).
Proof.
  induction fuel as [|fuel IH]; intros i servers repl; cbn [discover_loop]; [emits_step|].
  destruct (bool_decide _); [|emits_step].
  apply emits_bind; [apply discovery_event_iteration|]. intros r. apply IH.
Qed.

Lemma expansion_event_no_seed_failure e : expansion_event e -> seed_failure_of e = None.
Proof.
  unfold expansion_event. intros He. apply orb_True in He as [He|He].
  { by apply acquire_event_no_seed_failure. }
  destruct e as [module level format args| | | | | | | | | |]; try done.
  apply bool_decide_unpack in He.
  repeat (apply elem_of_cons in He as [->|He]); [..|by apply elem_of_nil in He];
    cbn; repeat case_match; done.
Qed.

Lemma discovery_event_no_seed_failure e : discovery_event e -> seed_failure_of e = None.
Proof.
  unfold discovery_event. intros He. apply orb_True in He as [He|He].
  { by apply expansion_event_no_seed_failure. }
  destruct e as [module level format args| | | | | | | | | |]; try done.
  apply bool_decide_unpack in He as ->. cbn; repeat case_match; done.
Qed.

Lemma discovery_event_no_candidate_call e : discovery_event e -> candidate_call_of e = None.
Proof. by destruct e. Qed.

Lemma expansion_event_no_probe e : expansion_event e -> probe_of e = None.
Proof.
  unfold expansion_event. intros He. apply orb_True in He as [He|He];
    (destruct e as [module level format args| | | | | | | | | |]; try done);
    apply bool_decide_unpack in He;
    (repeat (apply elem_of_cons in He as [->|He]); [..|by apply elem_of_nil in He];
     cbn; repeat case_match; done).
Qed.

Global Instance extends_refl : Reflexive extends.
Proof. by intros servers. Qed.

Global Instance extends_trans : Transitive extends.
Proof.
  intros a b c (Hp & Ht & Hn & Hr) (Hp' & Ht' & Hn' & Hr'). repeat split; try congruence.
  by etrans.
Qed.

Lemma extends_push servers def : extends servers (servers_push servers def).
Proof. repeat split. by apply prefix_app_r. Qed.

Lemma discover_host_extends i servers found_host s servers' s' evs :
  discover_host i servers found_host s = Return servers' s' evs ->
  servers' = servers \/ exists def, servers' = servers_push servers def.
Proof.
  intros Hrun. unfold discover_host in Hrun.
  apply bind_Return in Hrun as (seed & ? & ? & ? & _ & Hrun & _).
  apply bind_Return in Hrun as (tmp_def & ? & ? & ? & _ & Hrun & _).
  apply bind_Return in Hrun as ([known|] & ? & ? & ? & _ & Hrun & _).
  { apply ret_Return in Hrun as (-> & _). by left. }
  apply bind_Return in Hrun as ([] & ? & ? & ? & _ & Hrun & _).
  apply bind_Return in Hrun as ([[new_con|] e] & ? & ? & ? & _ & Hrun & _).
  - apply ret_Return in Hrun as (-> & _). right. eauto.
  - apply bind_Return in Hrun as ([] & ? & ? & ? & _ & Hrun & _).
    apply ret_Return in Hrun as (-> & _). by left.
Qed.

Lemma discover_hosts_extends i hosts : forall servers s servers' s' evs,
  discover_hosts i servers hosts s = Return servers' s' evs -> extends servers servers'.
Proof.
  induction hosts as [|h hosts IH]; intros servers s servers' s' evs Hrun; cbn in Hrun.
  - by apply ret_Return in Hrun as (-> & _).
  - apply bind_Return in Hrun as (servers1 & s1 & ? & ? & Hhost & Hrun & _).
    apply IH in Hrun. etrans; [|exact Hrun].
    apply discover_host_extends in Hhost as [->|[def ->]]; [done|apply extends_push].
Qed.

Lemma discover_switch_extends i servers seed con o s servers' s' evs :
  discover_switch i servers seed con o s = Return servers' s' evs -> extends servers servers'.
Proof.
  unfold discover_switch. intros Hrun.
  repeat match type of Hrun with
         | (if ?b then _ else _) _ = _ => destruct b
         | bind _ _ _ = _ => apply bind_Return in Hrun as (? & ? & ? & ? & _ & Hrun & _)
         end;
    first [ by apply ret_Return in Hrun as (-> & _) | by eapply discover_hosts_extends ].
Qed.

Lemma discover_iteration_extends i servers repl s r s' evs :
  discover_iteration i servers repl s = Return r s' evs -> extends servers r.1.
Proof.
  unfold discover_iteration. intros Hrun.
  apply bind_Return in Hrun as (seed & ? & ? & ? & _ & Hrun & _).
  apply bind_Return in Hrun as ([] & ? & ? & ? & _ & Hrun & _).
  apply bind_Return in Hrun as ([con|] & ? & ? & ? & _ & Hrun & _).
  - apply bind_Return in Hrun as (o & ? & ? & ? & _ & Hrun & _).
    apply bind_Return in Hrun as (servers' & ? & ? & ? & Hsw & Hrun & _).
    apply ret_Return in Hrun as (-> & _). by eapply discover_switch_extends.
  - apply bind_Return in Hrun as ([] & ? & ? & ? & _ & Hrun & _).
    by apply ret_Return in Hrun as (-> & _).
Qed.

Lemma discover_loop_extends fuel : forall i servers repl s servers' s' evs,
  discover_loop fuel i servers repl s = Return servers' s' evs ->
  extends servers servers' /\ ((count servers <= i)%nat -> servers' = servers).
Proof.
  induction fuel as [|fuel IH]; intros i servers repl s servers' s' evs Hrun; [done|].
  cbn [discover_loop] in Hrun. case_bool_decide as Hi.
  - apply bind_Return in Hrun as (r & s1 & ? & ? & Hit & Hrun & _).
    apply IH in Hrun as [Hrun _]. split; [|lia].
    etrans; [|exact Hrun]. by eapply discover_iteration_extends.
  - apply ret_Return in Hrun as (-> & _). done.
Qed.

(** ** The calls of the candidate filter *)

Lemma replicaset_seeds_calls seeds connection_flags : forall found msg s r s' evs,
  replicaset_seeds seeds connection_flags found msg s = Return r s' evs ->
  candidate_calls evs = [].
Proof.
  induction seeds as [|seed rest IH]; intros found msg s r s' evs Hrun.
  - by apply ret_Return in Hrun as (_ & _ & ->).
  - cbn [replicaset_seeds] in Hrun.
    apply bind_Return in Hrun as ([tmp err] & s1 & e1 & e2 & Hsingle & Hrun & ->).
    apply single_no_seed_failure in Hsingle as [_ Hcc].
    unfold candidate_calls in *. rewrite omap_app, Hcc.
    cbn [fst snd] in Hrun. destruct tmp as [con|]; [by apply IH in Hrun|].
    apply bind_Return in Hrun as ([] & s2 & e3 & e4 & Hlog & Hrun & ->).
    apply IH in Hrun. rewrite omap_app, Hrun.
    destruct (negb _).
    + by apply log_Return in Hlog as [_ ->].
    + by apply ret_Return in Hlog as (_ & _ & ->).
Qed.

Lemma discover_topology_calls fuel servers s servers' s' evs :
  mongo_discover_topology fuel servers s = Return servers' s' evs ->
  candidate_calls evs = [] /\ seed_failures evs = [] /\ extends servers servers' /\
  (server servers = [] -> servers' = servers).
Proof.
  intros Hrun. unfold mongo_discover_topology in Hrun.
  pose proof (discovery_event_loop _ _ _ _ _ _ _ _ Hrun) as Hev.
  apply discover_loop_extends in Hrun as [Hext Hsame].
  split; [|split; [|split]]; [| |done|].
  - eapply omap_none; [apply discovery_event_no_candidate_call|done].
  - eapply omap_none; [apply discovery_event_no_seed_failure|done].
  - intros Hnil. apply Hsame. unfold count. rewrite Hnil. cbn. lia.
Qed.

Lemma extends_first servers servers' first :
  extends servers servers' -> server servers !! 0%nat = Some first ->
  server servers' !! 0%nat = Some first.
Proof. intros [Hp _] Hf. by eapply prefix_lookup_Some. Qed.

Lemma replicaset_candidate_calls fuel servers connection_flags s servers' con err s' evs :
  mongo_get_read_write_connection_replicaset fuel servers connection_flags s =
    Return (servers', con, err) s' evs ->
  extends servers servers' /\
  ((candidate_calls evs = [] /\ has_flag connection_flags MONGO_CON_FLAG_DONT_CONNECT = true /\
    con = None) \/
   exists first col,
     server servers !! 0%nat = Some first /\
     candidate_calls evs =
       [(replicaset_filter_preference servers connection_flags, auth_hash_of first, col)]).
Proof.
  intros Hrun. unfold mongo_get_read_write_connection_replicaset in Hrun.
  apply bind_Return in Hrun as (found & s1 & e1 & e2 & Hseeds & Hrun & ->).
  apply replicaset_seeds_calls in Hseeds.
  unfold candidate_calls in *. rewrite omap_app, Hseeds. cbn [app].
  destruct (negb found && _) eqn:Hearly.
  { apply ret_Return in Hrun as ([= -> -> _] & _ & ->). split; [done|]. left.
    apply andb_true_iff in Hearly as [_ ->]. done. }
  apply bind_Return in Hrun as (servers1 & s2 & e3 & e4 & Hdisc & Hrun & ->).
  apply discover_topology_calls in Hdisc as (Hcc & _ & Hext & Hnil).
  fold (candidate_calls e3) in Hcc. rewrite omap_app. fold (candidate_calls e3). rewrite Hcc. cbn [app].
  apply bind_Return in Hrun as (auth_hash & s3 & e5 & e6 & Hauth & Hrun & ->).
  apply create_auth_hash_Return in Hauth as (-> & -> & first & Hfirst & ->). cbn [app].
  assert (Hfirst0 : server servers !! 0%nat = Some first).
  { destruct (server servers) as [|first0 rest] eqn:Hs.
    - rewrite (Hnil eq_refl), Hs in Hfirst. done.
    - rewrite <- Hfirst. symmetry. eapply extends_first; [done|]. by rewrite Hs. }
  apply bind_Return in Hrun as (col & s4 & e7 & e8 & Hcol & Hrun & ->).
  assert (e7 = [EvFindCandidates (replicaset_filter_preference servers connection_flags)
                  (auth_hash_of first) col]) as ->.
  { unfold replicaset_filter_preference. destruct Hext as (_ & _ & _ & <-).
    destruct (has_flag connection_flags MONGO_CON_FLAG_WRITE);
      by apply find_candidate_servers_Return in Hcol as (_ & _ & ->). }
  split.
  - destruct (is_empty col).
    + by apply ret_Return in Hrun as ([= -> _ _] & _).
    + apply bind_Return in Hrun as (? & ? & ? & ? & _ & Hrun & _).
      by apply ret_Return in Hrun as ([= -> _ _] & _).
  - right. exists first, col. split; [done|]. rewrite omap_app. cbn.
    destruct (is_empty col).
    + by apply ret_Return in Hrun as (_ & _ & ->).
    + apply bind_Return in Hrun as (? & ? & ? & ? & Hpick & Hrun & ->).
      apply sort_select_pick_Return in Hpick as (Hcc' & _).
      apply ret_Return in Hrun as (_ & _ & ->).
      unfold candidate_calls in Hcc'. by rewrite omap_app, Hcc'.
Qed.

Lemma multiple_candidate_calls servers connection_flags s servers' con err s' evs :
  mongo_get_connection_multiple servers connection_flags s =
    Return (servers', con, err) s' evs ->
  servers' = servers /\
  ((candidate_calls evs = [] /\ has_flag connection_flags MONGO_CON_FLAG_DONT_CONNECT = true /\
    con = None) \/
   exists first col,
     server servers !! 0%nat = Some first /\
     candidate_calls evs =
       [({| type := MONGO_RP_NEAREST; tagsets := tagsets (read_pref servers) |},
         auth_hash_of first, col)]).
Proof.
  intros Hrun. unfold mongo_get_connection_multiple in Hrun.
  apply bind_Return in Hrun as ([found messages] & s1 & e1 & e2 & Hseeds & Hrun & ->).
  apply multiple_seeds_messages in Hseeds as [_ Hcc].
  unfold candidate_calls in *. rewrite omap_app, Hcc. cbn [app].
  destruct (negb found && _) eqn:Hearly.
  { apply ret_Return in Hrun as ([= -> -> _] & _ & ->). split; [done|]. left.
    apply andb_true_iff in Hearly as [_ ->]. done. }
  apply bind_Return in Hrun as (auth_hash & s3 & e5 & e6 & Hauth & Hrun & ->).
  apply create_auth_hash_Return in Hauth as (-> & -> & first & Hfirst & ->). cbn [app].
  apply bind_Return in Hrun as (col & s4 & e7 & e8 & Hcol & Hrun & ->).
  apply find_candidate_servers_Return in Hcol as (_ & _ & ->).
  split.
  - destruct (is_empty col).
    + destruct (negb (String.length messages =? 0)%nat); by apply ret_Return in Hrun as ([= -> _ _] & _).
    + apply bind_Return in Hrun as (? & ? & ? & ? & _ & Hrun & _).
      by apply ret_Return in Hrun as ([= -> _ _] & _).
  - right. exists first, col. split; [done|]. rewrite omap_app. cbn.
    destruct (is_empty col).
    + destruct (negb (String.length messages =? 0)%nat); by apply ret_Return in Hrun as (_ & _ & ->).
    + apply bind_Return in Hrun as (? & ? & ? & ? & Hpick & Hrun & ->).
      apply sort_select_pick_Return in Hpick as (Hcc' & _).
      apply ret_Return in Hrun as (_ & _ & ->).
      unfold candidate_calls in Hcc'. by rewrite omap_app, Hcc'.
Qed.

(** C8. A replica-set acquisition filters the candidates with a copy of
    the caller's read preference whose type is [MONGO_RP_PRIMARY] when
    the [WRITE] flag is set, and with the caller's read preference as it
    is otherwise; the read preference of the server list is the same
    after the call; and unless [DONT_CONNECT] is set the filter is called
    exactly once. *)
Theorem replicaset_write_filters_primary fuel servers connection_flags s servers' con err s' evs :
  con_type servers = MONGO_CON_TYPE_REPLSET ->
  mongo_get_read_write_connection fuel servers connection_flags s =
    Return (servers', con, err) s' evs ->
  read_pref servers' = read_pref servers /\
  (forall call, call ∈ candidate_calls evs ->
     call.1.1 = if has_flag connection_flags MONGO_CON_FLAG_WRITE
                then {| type := MONGO_RP_PRIMARY; tagsets := tagsets (read_pref servers) |}
                else read_pref servers) /\
  (has_flag connection_flags MONGO_CON_FLAG_DONT_CONNECT = false ->
   exists call, candidate_calls evs = [call]).
Proof.
  intros Htype Hrun. unfold mongo_get_read_write_connection in Hrun. rewrite Htype in Hrun.
  apply bind_Return in Hrun as ([] & s1 & ? & e2 & Hlog & Hrun & ->).
  apply log_Return in Hlog as [-> ->].
  apply replicaset_candidate_calls in Hrun as ((_ & _ & _ & Hrp) & Hcalls).
  change (candidate_calls (_ ++ e2)) with (candidate_calls e2).
  split; [done|].
  destruct Hcalls as [(-> & Hdont & _)|(first & col & _ & ->)].
  - split; [by intros call Hcall%elem_of_nil | congruence].
  - split; [|eauto]. intros call Hcall%list_elem_of_singleton. by subst call.
Qed.

(** C10. In the replica-set strategy and in the strategy for standalone
    servers and multiple routers, the candidate filter is called once,
    and the authentication hash it is handed is computed from the user
    name and the password of the first seed alone: it is absent when the
    first seed lacks one of them, whatever the other seeds hold. The
    call is made whenever [DONT_CONNECT] is clear, and a connection is
    only ever returned after it; it is left out only by a lookup with
    [DONT_CONNECT] that finds no seed connected, which returns [NULL]. *)
Theorem auth_hash_from_first_seed fuel servers connection_flags s servers' con err s' evs
    first rest :
  server servers = first :: rest ->
  mongo_get_read_write_connection fuel servers connection_flags s =
    Return (servers', con, err) s' evs ->
  (forall call, call ∈ candidate_calls evs ->
     call.1.2 = match username first, password first with
                | Some user, Some pwd => Some (mongo_server_create_hashed_password user pwd)
                | _, _ => None
                end) /\
  (con_type servers = MONGO_CON_TYPE_STANDALONE \/
   con_type servers = MONGO_CON_TYPE_REPLSET \/
   con_type servers = MONGO_CON_TYPE_MULTIPLE ->
   has_flag connection_flags MONGO_CON_FLAG_DONT_CONNECT = false \/ is_Some con ->
   exists rp col,
     candidate_calls evs =
       [(rp,
         match username first, password first with
         | Some user, Some pwd => Some (mongo_server_create_hashed_password user pwd)
         | _, _ => None
         end,
         col)]) /\
  (candidate_calls evs = [] -> con = None).
Proof.
  intros Hfirst Hrun. unfold mongo_get_read_write_connection in Hrun.
  fold (auth_hash_of first).
  assert (Hcases : exists e2,
    candidate_calls evs = candidate_calls e2 /\
    ((candidate_calls e2 = [] /\ con = None /\
      ((exists n, con_type servers = MONGO_CON_TYPE_OTHER n) \/
       has_flag connection_flags MONGO_CON_FLAG_DONT_CONNECT = true)) \/
     exists rp col, candidate_calls e2 = [(rp, auth_hash_of first, col)])).
  { assert (Hhead : forall first0, server servers !! 0%nat = Some first0 -> first0 = first).
    { intros first0. rewrite Hfirst. by intros [= ->]. }
    destruct (con_type servers) as [| | |n];
      apply bind_Return in Hrun as ([] & s1 & ? & e2 & Hlog & Hrun & ->);
      apply log_Return in Hlog as [-> ->]; exists e2; (split; [done|]).
    - apply multiple_candidate_calls in Hrun
        as [_ [(-> & Hdont & ->)|(f & col & ->%Hhead & ->)]]; eauto 10.
    - apply replicaset_candidate_calls in Hrun
        as [_ [(-> & Hdont & ->)|(f & col & ->%Hhead & ->)]]; eauto 10.
    - apply multiple_candidate_calls in Hrun
        as [_ [(-> & Hdont & ->)|(f & col & ->%Hhead & ->)]]; eauto 10.
    - apply ret_Return in Hrun as ([= _ <- _] & _ & ->). left. eauto. }
  destruct Hcases as (e2 & -> & [(-> & -> & Hwhy)|(rp & col & ->)]).
  - split; [by intros call Hcall%elem_of_nil|]. split; [|done].
    intros Htype [Hflag|[c [=]]].
    destruct Hwhy as [[n Hn]|Hdont]; [|congruence].
    rewrite Hn in Htype. by destruct Htype as [|[|]].
  - split; [|split; [eauto|done]].
    intros call Hcall%list_elem_of_singleton. by subst call.
Qed.

(** ** Replica sets: unreachable seeds *)







(** C9. With an empty seed list and [DONT_CONNECT] clear, each of the
    three strategies reads [servers->server[0]], which is not a server
    definition, and follows it: the call faults instead of returning
    [No candidate servers found]. *)
Theorem empty_seed_list_faults fuel servers connection_flags s :
  server servers = [] ->
  has_flag connection_flags MONGO_CON_FLAG_DONT_CONNECT = false ->
  (con_type servers = MONGO_CON_TYPE_STANDALONE \/
   con_type servers = MONGO_CON_TYPE_REPLSET \/
   con_type servers = MONGO_CON_TYPE_MULTIPLE) ->
  mongo_get_read_write_connection (S fuel) servers connection_flags s =
    Crash "servers->server[i] is not a server definition".
Proof.
  intros Hs Hflag Htype. destruct servers as [seeds t name rp]. cbn in Hs, Htype. subst seeds.
  unfold mongo_get_read_write_connection, mongo_get_read_write_connection_replicaset,
    mongo_get_connection_multiple.
  destruct Htype as [->|[->| ->]]; cbn [con_type server replicaset_seeds multiple_seeds];
    unfold bind at 1; cbn [mongo_manager_log emit]; unfold bind at 1; cbn [ret negb andb];
    rewrite Hflag; reflexivity.
Qed.

(** C7. Single-connection acquire for a hash that is not registered,
    with [DONT_CONNECT] clear: the steps are create, then getnonce and
    authenticate if and only if db, user name and password are all
    there, then ping, and then the connection is appended to the
    manager's list. When a step fails the later steps are not run, the
    connection that was created is destroyed, the manager's list and the
    heap are as before, and the call returns no connection and the error
    text of the failed step. *)
Theorem connect_steps_and_failure server connection_flags s :
  find_item (connections (manager s)) (mongo_server_create_hash server) = None ->
  has_flag connection_flags MONGO_CON_FLAG_DONT_CONNECT = false ->
  exists r s' evs,
    mongo_get_connection_single server connection_flags s = Return r s' evs /\
    ((exists con,
        r = (Some con, None) /\
        steps evs = (fun k => (k, true)) <$> connect_plan server /\
        created evs = [con] /\ destroyed evs = [] /\
        connections (manager s') =
          connections (manager s) ++
          [{| item_hash := mongo_server_create_hash server; connection := con |}] /\
        is_Some (heap s' !! con))
     \/
     (exists k failed err,
        connect_plan server !! k = Some failed /\
        r = (None, Some err) /\
        steps evs = ((fun k => (k, true)) <$> take k (connect_plan server)) ++
                    [(failed, false)] ++
                    (if k is O then [] else [(StepDestroy, true)]) /\
        destroyed evs = created evs /\
        connections (manager s') = connections (manager s) /\
        heap s' = heap s)).
Proof.
  intros Hfind Hflag.
  destruct (single_connects server connection_flags s Hfind Hflag)
    as (r & s' & evs & Hrun & Hcases).
  exists r, s', evs. split; [done|].
  destruct Hcases as [(con & c & -> & Hsteps & Hcr & Hde & _ & _ & Hheap & _ & Hm)
                     |(k & failed & err & Hk & -> & Hsteps & Hde & Hheap & Hm)].
  - left. exists con. repeat split; try done.
    + by rewrite Hm.
    + rewrite Hheap, lookup_insert_eq. eauto.
  - right. exists k, failed, err. repeat split; try done. by rewrite Hm.
Qed.

(** ** The remove-seed result of ismaster *)

Lemma deregister_then {A} con (k : M A) s :
  (mongo_manager_connection_deregister con ;; k) s =
    match mongo_manager_connection_deregister con s with
    | Return _ s1 e1 =>
        match k s1 with
        | Return a s2 e2 => Return a s2 (e1 ++ e2)
        | Crash why => Crash why
        | Timeout => Timeout
        end
    | Crash why => Crash why
    | Timeout => Timeout
    end.
Proof. reflexivity. Qed.

Lemma discover_host_run i servers seed found_host tmp_def s :
  server servers !! i = Some seed ->
  tmp_def_of seed found_host = Some tmp_def ->
  discover_host i servers found_host s =
    match find_item (connections (manager s)) (mongo_server_create_hash tmp_def) with
    | Some item =>
        Return servers s
          [EvLog MLOG_CON MLOG_FINE "found connection %s (looking for %s)"
             [LogStr (Some (item_hash item));
              LogStr (Some (mongo_server_create_hash tmp_def))]]
    | None =>
        match mongo_get_connection_single tmp_def MONGO_CON_FLAG_WRITE s with
        | Return (Some con, err) s' evs =>
            Return (servers_push servers tmp_def) s'
              (EvLog MLOG_CON MLOG_INFO "discover_topology: found new host: %s:%d"
                 [LogStr (Some (host tmp_def)); LogInt (port tmp_def)] :: evs)
        | Return (None, err) s' evs =>
            Return servers s'
              (EvLog MLOG_CON MLOG_INFO "discover_topology: found new host: %s:%d"
                 [LogStr (Some (host tmp_def)); LogInt (port tmp_def)] :: evs ++
               [EvLog MLOG_CON MLOG_INFO
                  "discover_topology: could not connect to new host: %s:%d: %s"
                  [LogStr (Some (host tmp_def)); LogInt (port tmp_def); LogStr err]])
        | Crash why => Crash why
        | Timeout => Timeout
        end
    end.
Proof.
  intros Hseed Hdef. unfold discover_host, server_at, make_tmp_def. rewrite Hseed.
  unfold bind at 1. cbn [ret]. rewrite Hdef. unfold bind at 1. cbn [ret].
  destruct (find_item _ _) as [item|] eqn:Hfind.
  - by rewrite (bind_run _ _ _ _ _ _ (find_by_hash_present _ _ _ Hfind)).
  - rewrite (bind_run _ _ _ _ _ _ (find_by_hash_absent _ _ Hfind)).
    unfold bind at 1. cbn [mongo_manager_log emit]. unfold bind at 1.
    destruct (mongo_get_connection_single _ _ _) as [[[con|] err] s' evs| |]; try done.
    cbn. by rewrite app_nil_r.
Qed.

Lemma discover_switch_remove_seed i servers seed con o s :
  res o = 3 ->
  discover_switch i servers seed con o s =
    match mongo_manager_connection_deregister con s with
    | Return _ s1 e1 =>
        match discover_switch i servers seed con (as_ok o) s1 with
        | Return servers' s2 e2 =>
            Return servers' s2
              (EvLog MLOG_CON MLOG_WARN
                 "discover_topology: ismaster worked, but we need to remove the seed host's connection"
                 [] :: e1 ++ e2)
        | Crash why => Crash why
        | Timeout => Timeout
        end
    | Crash why => Crash why
    | Timeout => Timeout
    end.
Proof.
  intros Hres. unfold discover_switch. rewrite Hres. cbn [Z.eqb Pos.eqb as_ok res found_hosts].
  unfold bind at 1. cbn [mongo_manager_log emit]. rewrite deregister_then.
  destruct (mongo_manager_connection_deregister con s) as [z s1 e1| |]; [|done..].
  by destruct (bind _ _ s1).
Qed.

(** C4. When the probe answers 3, discovery logs it, deregisters the
    probed connection, and from the state this leaves it does what it
    does for an answer of 1 with the same host list. For each reported
    [host:port] the definition has that host and port and the db, user
    name and password of [servers->server[i]]; it is appended to the
    server list if and only if no item of the manager's list has its
    hash and single-connection acquire returns a connection for it. *)
Theorem remove_seed_then_expand i servers seed con o s :
  res o = 3 ->
  discover_switch i servers seed con o s =
    match mongo_manager_connection_deregister con s with
    | Return _ s1 e1 =>
        match discover_switch i servers seed con (as_ok o) s1 with
        | Return servers' s2 e2 =>
            Return servers' s2
              (EvLog MLOG_CON MLOG_WARN
                 "discover_topology: ismaster worked, but we need to remove the seed host's connection"
                 [] :: e1 ++ e2)
        | Crash why => Crash why
        | Timeout => Timeout
        end
    | Crash why => Crash why
    | Timeout => Timeout
    end /\
  (forall s1,
     discover_switch i servers seed con (as_ok o) s1 =
       (mongo_manager_log MLOG_CON MLOG_INFO "discover_topology: ismaster worked" [] ;;
        discover_hosts i servers (found_hosts o)) s1) /\
  (forall servers0 seed0 found_host name number s0 servers1 s1 evs,
     server servers0 !! i = Some seed0 ->
     split_colon found_host = Some (name, number) ->
     discover_host i servers0 found_host s0 = Return servers1 s1 evs ->
     let tmp_def := {| host := name; port := atoi number; db := db seed0;
                       username := username seed0; password := password seed0 |} in
     let appended :=
       find_item (connections (manager s0)) (mongo_server_create_hash tmp_def) = None /\
       exists new_con err evs',
         mongo_get_connection_single tmp_def MONGO_CON_FLAG_WRITE s0 =
           Return (Some new_con, err) s1 evs' in
     (appended /\ servers1 = servers_push servers0 tmp_def) \/
     (~ appended /\ servers1 = servers0)).
Proof.
  intros Hres. split; [|split].
  - by apply discover_switch_remove_seed.
  - reflexivity.
  - intros servers0 seed0 found_host name number s0 servers1 s1 evs Hseed Hsplit Hrun.
    cbn zeta.
    set (tmp_def := {| host := name; port := atoi number; db := db seed0;
                       username := username seed0; password := password seed0 |}).
    assert (Hdef : tmp_def_of seed0 found_host = Some tmp_def)
      by (unfold tmp_def_of; by rewrite Hsplit).
    rewrite (discover_host_run _ _ _ _ _ _ Hseed Hdef) in Hrun.
    destruct (find_item _ _) as [item|] eqn:Hfind.
    + injection Hrun as <- <- <-. right. split; [|done]. by intros [[=] _].
    + destruct (mongo_get_connection_single _ _ _) as [[[new_con|] err] s' evs'| |] eqn:Hsingle;
        try done; injection Hrun as <- <- <-.
      * left. split; [|done]. split; [done|]. eauto.
      * right. split; [|done]. intros [_ (new_con & err' & evs'' & [=])].
Qed.

(** ** Termination of topology discovery *)

Lemma find_item_None l h : find_item l h = None <-> h ∉ hashes l.
Proof.
  unfold hashes. induction l as [|item l IH]; cbn; [set_solver|].
  destruct (String.eqb_spec (item_hash item) h) as [->|Hne]; [set_solver|].
  rewrite IH. set_solver.
Qed.

Lemma hashes_snoc l item : hashes (l ++ [item]) = hashes l ∪ {[item_hash item]}.
Proof. unfold hashes. rewrite fmap_app, list_to_set_app_L. cbn. set_solver. Qed.

Lemma unlink_find l h item :
  find_item l h = Some item ->
  exists rest,
    unlink l h = Some (item, rest) /\
    pointers l ≡ₚ connection item :: pointers rest /\
    (forall x, x ∈ rest -> x ∈ l) /\
    hashes l ⊆ hashes rest ∪ {[h]}.
Proof.
  induction l as [|x l IH]; [done|]. cbn.
  destruct (String.eqb_spec (item_hash x) h) as [Heq|Hne].
  - intros [= <-]. exists l. repeat split; [done|set_solver|].
    unfold hashes. cbn. set_solver.
  - intros Hfind. destruct (IH Hfind) as (rest & -> & Hperm & Hsub & Hh).
    exists (x :: rest). repeat split.
    + rewrite !pointers_cons, Hperm. apply Permutation_swap.
    + set_solver.
    + unfold hashes in *. cbn. set_solver.
Qed.

Lemma registry_ok_live s item :
  registry_ok s -> item ∈ connections (manager s) ->
  exists c, heap s !! connection item = Some c /\ hash c = Some (item_hash item).
Proof. intros [_ Hlive]. apply Hlive. Qed.

Lemma wire_call_registry_ok {A} con op (ev : A -> event) s a s' evs :
  registry_ok s ->
  wire_call con op ev s = Return a s' evs ->
  registry_ok s' /\ manager s' = manager s /\
  exists c d w, heap s !! con = Some c /\ op (manager s) (payload c) (wire s) = (a, d, w).
Proof.
  intros [Hnd Hlive] Hrun.
  apply wire_call_Return in Hrun as (c & d & w & Hc & Hop & -> & _).
  split; [|split; [done|eauto]]. split; [done|]. cbn. intros item Hitem.
  destruct (Hlive item Hitem) as (c' & Hc' & Hh).
  destruct (decide (connection item = con)) as [Heq|Hne].
  - rewrite Heq in *. rewrite lookup_insert_eq. eexists. split; [done|]. cbn. congruence.
  - rewrite lookup_insert_ne by done. eauto.
Qed.

Lemma connection_hash_run con (c : mongo_connection data) h s :
  heap s !! con = Some c -> hash c = Some h -> connection_hash con s = Return h s [].
Proof.
  intros Hc Hh. unfold connection_hash.
  by rewrite (bind_run _ _ _ _ _ _ (deref_run _ _ _ Hc)), Hh.
Qed.

Lemma made_after_getnonce m d w r d' w' h :
  mongo_connection_getnonce m d w = (r, d', w') -> made_for d h -> made_for d' h.
Proof.
  intros Heq Hd. change d' with (r, d', w').1.2. rewrite <- Heq. by apply made_getnonce.
Qed.

Lemma made_after_authenticate m d database user pwd nonce w r d' w' h :
  mongo_connection_authenticate m d database user pwd nonce w = (r, d', w') ->
  made_for d h -> made_for d' h.
Proof.
  intros Heq Hd. change d' with (r, d', w').1.2. rewrite <- Heq. by apply made_authenticate.
Qed.

Lemma made_after_ping m d w r d' w' h :
  mongo_connection_ping m d w = (r, d', w') -> made_for d h -> made_for d' h.
Proof.
  intros Heq Hd. change d' with (r, d', w').1.2. rewrite <- Heq. by apply made_ping.
Qed.

Lemma made_after_ismaster m d repl def w o d' w' h :
  mongo_connection_ismaster m d repl def w = (o, d', w') -> made_for d h -> made_for d' h.
Proof.
  intros Heq Hd. change d' with (o, d', w').1.2. rewrite <- Heq. by apply made_ismaster.
Qed.

Lemma registry_made_same (s s' : state) :
  heap s' = heap s -> manager s' = manager s -> registry_made s -> registry_made s'.
Proof. unfold registry_made. by intros -> ->. Qed.

Lemma wire_call_made {A} con op (ev : A -> event) s a s' evs :
  (forall m d w a d' w' h, op m d w = (a, d', w') -> made_for d h -> made_for d' h) ->
  registry_made s ->
  wire_call con op ev s = Return a s' evs ->
  registry_made s'.
Proof.
  intros Hop Hmade Hrun.
  apply wire_call_Return in Hrun as (c & d & w & Hc & Heq & -> & _).
  intros item c' Hitem Hc'. cbn in Hitem, Hc'.
  destruct (decide (connection item = con)) as [Hcon|Hne].
  - rewrite Hcon, lookup_insert_eq in Hc'. injection Hc' as <-. cbn.
    eapply Hop; [exact Heq|]. apply Hmade; [done|]. by rewrite Hcon.
  - rewrite lookup_insert_ne in Hc' by done. by apply Hmade.
Qed.

(** Single-connection acquire for a hash that is not registered: the
    connection it appends was made for that hash. *)
Lemma single_connects_made server connection_flags s :
  find_item (connections (manager s)) (mongo_server_create_hash server) = None ->
  has_flag connection_flags MONGO_CON_FLAG_DONT_CONNECT = false ->
  match mongo_get_connection_single server connection_flags s with
  | Return (Some con, _) s' _ =>
      exists c, heap s' !! con = Some c /\
                made_for (payload c) (mongo_server_create_hash server)
  | _ => True
  end.
Proof.
  intros Hfind Hflag. unfold mongo_get_connection_single.
  rewrite (bind_run _ _ _ _ _ _ (find_by_hash_absent _ _ Hfind)), Hflag.
  unfold connection_create, set_hash, authenticate_connection, connection_ping,
    mongo_manager_connection_register, connection_hash, connection_destroy, wire_call,
    mongo_manager_log, emit, store, deref, get_manager, set_manager_connections, bind, ret.
  cbn [negb].
  repeat first
    [ progress cbn [heap manager wire payload hash with_payload]
    | rewrite lookup_insert_eq
    | match goal with
      | |- context [match ?x with _ => _ end] =>
          lazymatch x with
          | context [match _ with _ => _ end] => fail
          | _ => destruct x eqn:?
          end
      end ]; try done.
  all: eexists; (split; [first [reflexivity | cbn [heap]; apply lookup_insert_eq]|]);
    cbn [payload with_payload].
  all: eauto using made_by_create, made_after_getnonce, made_after_authenticate,
         made_after_ping.
Qed.


Lemma deregister_registered s h item :
  registry_ok s ->
  find_item (connections (manager s)) h = Some item ->
  exists s' evs rest,
    mongo_manager_connection_deregister (connection item) s = Return 1 s' evs /\
    registry_ok s' /\
    (registry_made s -> registry_made s') /\
    connections (manager s') = rest /\
    hashes (connections (manager s)) ⊆ hashes rest ∪ {[h]}.
Proof.
  intros [Hnd Hlive] Hfind.
  destruct (unlink_find _ _ _ Hfind) as (rest & Hunlink & Hperm & Hsub & Hh).
  pose proof (find_item_elem _ _ _ Hfind) as Hitem.
  destruct (Hlive item Hitem) as (c & Hc & Hhash).
  rewrite (find_item_hash _ _ _ Hfind) in Hhash.
  rewrite Hperm in Hnd. apply NoDup_cons in Hnd as [Hnotin Hnd].
  exists {| wire := mongo_connection_destroy (set_connections (manager s) rest) (payload c)
                      (wire s);
            heap := delete (connection item) (heap s);
            manager := set_connections (manager s) rest |},
    [EvDestroy (connection item);
     EvLog MLOG_CON MLOG_INFO "freeing connection %s" [LogStr (Some (item_hash item))]],
    rest.
  split; [|split; [|split; [|done]]].
  - unfold mongo_manager_connection_deregister, get_manager. unfold bind at 1.
    destruct (connections (manager s)) as [|x l] eqn:Hl; [by apply elem_of_nil in Hitem|].
    rewrite (bind_run _ _ _ _ _ _ (connection_hash_run _ _ _ _ Hc Hhash)). rewrite Hunlink.
    unfold bind at 1. cbn [set_manager_connections].
    assert (Hc2 : heap {| wire := wire s; heap := heap s;
                          manager := set_connections (manager s) rest |}
                  !! connection item = Some c) by exact Hc.
    by rewrite (bind_run _ _ _ _ _ _ (connection_destroy_run _ _ _ Hc2)).
  - split; cbn; [done|]. intros x Hx.
    destruct (Hlive x (Hsub x Hx)) as (c' & Hc' & Hh').
    exists c'. split; [|done]. rewrite lookup_delete_ne; [done|].
    intros Heq. apply Hnotin. rewrite Heq. by apply list_elem_of_fmap_2.
  - intros Hmade x c' Hx Hc'. cbn in Hx, Hc'.
    apply lookup_delete_Some in Hc' as [_ Hc']. apply Hmade; [by apply Hsub|done].
Qed.

Lemma single_absent_ok server connection_flags s :
  registry_ok s ->
  find_item (connections (manager s)) (mongo_server_create_hash server) = None ->
  exists r s' evs,
    mongo_get_connection_single server connection_flags s = Return r s' evs /\
    registry_ok s' /\
    ((r.1 = None /\ manager s' = manager s) \/
     (exists con, r.1 = Some con /\
        manager s' = registered_as (mongo_server_create_hash server) con (manager s))).
Proof.
  intros Hok Hfind.
  destruct (has_flag connection_flags MONGO_CON_FLAG_DONT_CONNECT) eqn:Hflag.
  { exists (None, None), s, []. split; [|split; [done|by left]].
    unfold mongo_get_connection_single.
    by rewrite (bind_run _ _ _ _ _ _ (find_by_hash_absent _ _ Hfind)), Hflag. }
  destruct (single_connects server connection_flags s Hfind Hflag)
    as (r & s' & evs & Hrun & Hcases).
  exists r, s', evs. split; [done|].
  destruct Hcases as [(con & c & -> & _ & _ & _ & _ & Hfresh & Hheap & Hhash & Hm)
                     |(k & failed & err & _ & -> & _ & _ & Hheap & Hm)].
  - split; [|right; eauto]. destruct Hok as [Hnd Hlive].
    split; rewrite Hm; cbn.
    + rewrite pointers_app. apply NoDup_app. split; [done|]. split; [|apply NoDup_singleton].
      intros p Hp Hp'. apply list_elem_of_singleton in Hp' as ->. cbn in Hp.
      apply list_elem_of_fmap in Hp as (item & Heq & Hitem).
      destruct (Hlive item Hitem) as (c' & Hc' & _). congruence.
    + intros item [Hitem|Hitem]%elem_of_app.
      * destruct (Hlive item Hitem) as (c' & Hc' & Hh'). exists c'. split; [|done].
        rewrite Hheap, lookup_insert_ne; [done|]. intros Heq. rewrite <- Heq in Hc'. congruence.
      * apply list_elem_of_singleton in Hitem as ->. exists c. cbn.
        by rewrite Hheap, lookup_insert_eq.
  - split; [|by left]. destruct Hok as [Hnd Hlive]. split; rewrite Hm; [done|].
    intros item Hitem. rewrite Hheap. by apply Hlive.
Qed.

(** Single-connection acquire for a hash that is not registered keeps
    the connections of the list made for their hashes. *)
Lemma single_absent_made server connection_flags s r s' evs :
  registry_ok s -> registry_made s ->
  find_item (connections (manager s)) (mongo_server_create_hash server) = None ->
  mongo_get_connection_single server connection_flags s = Return r s' evs ->
  registry_made s'.
Proof.
  intros Hok Hmade Hfind Hrun.
  destruct (has_flag connection_flags MONGO_CON_FLAG_DONT_CONNECT) eqn:Hflag.
  { unfold mongo_get_connection_single in Hrun.
    rewrite (bind_run _ _ _ _ _ _ (find_by_hash_absent _ _ Hfind)), Hflag in Hrun.
    by injection Hrun as _ <- _. }
  pose proof (single_connects_made server connection_flags s Hfind Hflag) as Hnew.
  destruct (single_connects server connection_flags s Hfind Hflag)
    as (r0 & s0 & e0 & Hrun0 & Hcases).
  rewrite Hrun in Hrun0, Hnew. injection Hrun0 as <- <- <-.
  destruct Hcases as [(con & c & -> & _ & _ & _ & _ & Hfresh & Hheap & _ & Hm)
                     |(k & failed & err & _ & -> & _ & _ & Hheap & Hm)].
  - destruct Hnew as (c' & Hc' & Hmade').
    intros item x Hitem Hx. rewrite Hm in Hitem. cbn in Hitem.
    apply elem_of_app in Hitem as [Hitem|Hitem].
    + destruct (registry_ok_live s item Hok Hitem) as (y & Hy & _).
      rewrite Hheap, lookup_insert_ne in Hx by congruence. by apply Hmade.
    + apply list_elem_of_singleton in Hitem as ->. cbn in Hx |- *. congruence.
  - by eapply registry_made_same.
Qed.

Lemma unregistered_register space s s' h con :
  manager s' = registered_as h con (manager s) ->
  find_item (connections (manager s)) h = None ->
  h ∈ space ->
  (unregistered space s' + 1 = unregistered space s)%nat.
Proof.
  intros Hm Hfind Hh. unfold unregistered. rewrite Hm. unfold registered_as.
  cbn [connections set_connections]. rewrite hashes_snoc. cbn [item_hash].
  apply find_item_None in Hfind.
  replace (space ∖ (hashes (connections (manager s)) ∪ {[h]}))
    with ((space ∖ hashes (connections (manager s))) ∖ {[h]}) by set_solver.
  rewrite size_difference by set_solver. rewrite size_singleton.
  destruct (size (space ∖ hashes (connections (manager s)))) as [|n] eqn:Hsize; [|lia].
  apply size_empty_iff in Hsize. set_solver.
Qed.

Lemma unregistered_same space (s s' : state) :
  manager s' = manager s -> unregistered space s' = unregistered space s.
Proof. unfold unregistered. by intros ->. Qed.

Lemma unregistered_deregister space (s s' : state) h :
  hashes (connections (manager s)) ⊆ hashes (connections (manager s')) ∪ {[h]} ->
  (unregistered space s' <= unregistered space s + 1)%nat.
Proof.
  unfold unregistered.
  generalize (hashes (connections (manager s))) (hashes (connections (manager s'))).
  intros X X' Hsub.
  etrans; [apply (subseteq_size _ ((space ∖ X) ∪ {[h]}))|].
  { intros x Hx. destruct (decide (x ∈ X)); set_solver. }
  rewrite size_union_alt.
  assert (size (({[h]} : gset string) ∖ (space ∖ X)) <= 1)%nat; [|lia].
  etrans; [apply (subseteq_size _ {[h]}); set_solver|]. by rewrite size_singleton.
Qed.

Lemma unregistered_deregister_outside space (s s' : state) h :
  hashes (connections (manager s)) ⊆ hashes (connections (manager s')) ∪ {[h]} ->
  h ∉ space ->
  (unregistered space s' <= unregistered space s)%nat.
Proof.
  unfold unregistered. intros Hsub Hh. apply subseteq_size. set_solver.
Qed.

Lemma tmp_def_of_credentials a b found_host :
  same_credentials a b -> tmp_def_of a found_host = tmp_def_of b found_host.
Proof. intros (Hd & Hu & Hp). unfold tmp_def_of. by rewrite Hd, Hu, Hp. Qed.

Lemma tmp_def_of_inherits seed found_host tmp_def :
  tmp_def_of seed found_host = Some tmp_def -> same_credentials tmp_def seed.
Proof.
  unfold tmp_def_of. destruct (split_colon found_host) as [[name number]|]; [|done].
  by intros [= <-].
Qed.

Lemma discover_host_ok space i servers seed found_host tmp_def s :
  registry_ok s -> registry_made s ->
  server servers !! i = Some seed ->
  tmp_def_of seed found_host = Some tmp_def ->
  mongo_server_create_hash tmp_def ∈ space ->
  exists servers' s' evs,
    discover_host i servers found_host s = Return servers' s' evs /\
    registry_ok s' /\ registry_made s' /\
    ((servers' = servers /\ unregistered space s' = unregistered space s) \/
     (servers' = servers_push servers tmp_def /\
      (unregistered space s' + 1 = unregistered space s)%nat)).
Proof.
  intros Hok Hmade Hseed Hdef Hspace. rewrite (discover_host_run _ _ _ _ _ _ Hseed Hdef).
  destruct (find_item _ _) as [item|] eqn:Hfind.
  { eexists _, _, _. split; [done|]. split; [done|]. split; [done|]. by left. }
  destruct (single_absent_ok tmp_def MONGO_CON_FLAG_WRITE s Hok Hfind)
    as ([[con|] err] & s' & evs & Hrun & Hok' & Hcases); cbn [fst] in Hcases;
    pose proof (single_absent_made _ _ _ _ _ _ Hok Hmade Hfind Hrun) as Hmade';
    rewrite Hrun;
    (eexists _, _, _; split; [done|]; split; [done|]; split; [done|]).
  - destruct Hcases as [[[=] _]|(con' & _ & Hm)]. right. split; [done|].
    by eapply unregistered_register.
  - destruct Hcases as [[_ Hm]|(con' & [=] & _)]. left. split; [done|].
    by apply unregistered_same.
Qed.

Lemma count_push servers def : count (servers_push servers def) = S (count servers).
Proof. unfold count. cbn. rewrite length_app. cbn. lia. Qed.

Lemma discover_hosts_ok space i seed hosts : forall servers s,
  registry_ok s -> registry_made s ->
  server servers !! i = Some seed ->
  (forall found_host, found_host ∈ hosts ->
     exists tmp_def, tmp_def_of seed found_host = Some tmp_def /\
                     mongo_server_create_hash tmp_def ∈ space) ->
  exists servers' s' evs,
    discover_hosts i servers hosts s = Return servers' s' evs /\
    registry_ok s' /\ registry_made s' /\
    extends servers servers' /\
    (forall def, def ∈ server servers' -> def ∈ server servers \/ same_credentials def seed) /\
    (unregistered space s' + count servers' = unregistered space s + count servers)%nat.
Proof.
  induction hosts as [|h hosts IH]; intros servers s Hok Hmade Hseed Hhosts.
  { exists servers, s, []. split; [done|]. split; [done|]. split; [done|]. split; [done|].
    split; [by left|done]. }
  destruct (Hhosts h) as (tmp_def & Hdef & Hspace); [set_solver|].
  destruct (discover_host_ok space i servers seed h tmp_def s Hok Hmade Hseed Hdef Hspace)
    as (servers1 & s1 & e1 & Hrun1 & Hok1 & Hmade1 & Hcases).
  assert (Hext1 : extends servers servers1).
  { destruct Hcases as [[-> _]|[-> _]]; [done|apply extends_push]. }
  assert (Hseed1 : server servers1 !! i = Some seed).
  { destruct Hext1 as [Hp _]. by eapply prefix_lookup_Some. }
  destruct (IH servers1 s1 Hok1 Hmade1 Hseed1)
    as (servers2 & s2 & e2 & Hrun2 & Hok2 & Hmade2 & Hext2 & Hcred & Hu).
  { intros h' Hh'. apply Hhosts. set_solver. }
  eexists _, _, _. split.
  { cbn [discover_hosts]. rewrite (bind_run _ _ _ _ _ _ Hrun1), Hrun2. reflexivity. }
  split; [done|]. split; [done|]. split; [by etrans|]. split.
  - intros def Hmem. destruct (Hcred def Hmem) as [Hin|Hsame]; [|by right].
    destruct Hcases as [[-> _]|[-> _]]; [by left|]. cbn in Hin.
    apply elem_of_app in Hin as [Hin|Hin]; [by left|].
    apply list_elem_of_singleton in Hin as ->. right. by eapply tmp_def_of_inherits.
  - destruct Hcases as [[-> Hu1]|[-> Hu1]]; [lia|]. rewrite count_push in Hu. lia.
Qed.

Lemma extends_count servers servers' : extends servers servers' -> (count servers <= count servers')%nat.
Proof. intros [Hp _]. by apply prefix_length. Qed.

Lemma discover_switch_ok space i servers seed item o s :
  registry_ok s -> registry_made s ->
  find_item (connections (manager s)) (mongo_server_create_hash seed) = Some item ->
  server servers !! i = Some seed ->
  (res o = 3 -> mongo_server_create_hash seed ∉ space) ->
  (forall found_host, found_host ∈ found_hosts o ->
     exists tmp_def, tmp_def_of seed found_host = Some tmp_def /\
                     mongo_server_create_hash tmp_def ∈ space) ->
  exists servers' s' evs,
    discover_switch i servers seed (connection item) o s = Return servers' s' evs /\
    registry_ok s' /\ registry_made s' /\
    extends servers servers' /\
    (forall def, def ∈ server servers' -> def ∈ server servers \/ same_credentials def seed) /\
    (unregistered space s' + count servers' <= unregistered space s + count servers + 1)%nat /\
    ((count servers < count servers')%nat ->
     (unregistered space s' + count servers' <= unregistered space s + count servers)%nat).
Proof.
  intros Hok Hmade Hfind Hseed Hres Hhosts. unfold discover_switch.
  destruct (res o =? 0) eqn:H0.
  { destruct (deregister_registered s _ item Hok Hfind)
      as (s' & evs & rest & Hrun & Hok' & Hmade' & Hrest & Hh).
    eexists _, _, _. split.
    { unfold bind at 1. cbn [mongo_manager_log emit]. rewrite (bind_run _ _ _ _ _ _ Hrun).
      reflexivity. }
    split; [done|]. split; [by apply Hmade'|]. split; [done|]. split; [by left|].
    rewrite <- Hrest in Hh. apply (unregistered_deregister space) in Hh. split; lia. }
  destruct (res o =? 3) eqn:H3.
  { destruct (deregister_registered s _ item Hok Hfind)
      as (s1 & e1 & rest & Hrun1 & Hok1 & Hmade1 & Hrest & Hh).
    rewrite <- Hrest in Hh.
    apply (unregistered_deregister_outside space) in Hh; [|apply Hres; lia].
    destruct (discover_hosts_ok space i seed (found_hosts o) servers s1 Hok1 (Hmade1 Hmade)
                Hseed Hhosts)
      as (servers' & s' & evs & Hrun & Hok' & Hmade' & Hext & Hcred & Hu).
    eexists _, _, _. split.
    { unfold bind at 1. cbn [mongo_manager_log emit]. rewrite (bind_run _ _ _ _ _ _ Hrun1).
      unfold bind at 1. cbn [mongo_manager_log emit]. rewrite Hrun. reflexivity. }
    split; [done|]. split; [done|]. split; [done|]. split; [done|]. split; lia. }
  destruct (res o =? 1) eqn:H1.
  { destruct (discover_hosts_ok space i seed (found_hosts o) servers s Hok Hmade Hseed Hhosts)
      as (servers' & s' & evs & Hrun & Hok' & Hmade' & Hext & Hcred & Hu).
    eexists _, _, _. split.
    { unfold bind at 1. cbn [mongo_manager_log emit]. rewrite Hrun. reflexivity. }
    split; [done|]. split; [done|]. split; [done|]. split; [done|]. split; lia. }
  destruct (res o =? 2);
    (eexists _, _, _; split; [reflexivity|]; split; [done|]; split; [done|]; split; [done|];
     split; [by left|]; split; lia).
Qed.

Lemma discover_iteration_ok space seeds i servers repl s :
  registry_ok s -> registry_made s ->
  (i < count servers)%nat ->
  inherits seeds servers ->
  removed_seed_unreported space ->
  reports_within space seeds ->
  exists r s' evs,
    discover_iteration i servers repl s = Return r s' evs /\
    registry_ok s' /\ registry_made s' /\
    extends servers r.1 /\
    inherits seeds r.1 /\
    (unregistered space s' + count r.1 <= unregistered space s + count servers + 1)%nat /\
    ((count servers < count r.1)%nat ->
     (unregistered space s' + count r.1 <= unregistered space s + count servers)%nat).
Proof.
  intros Hok Hmade Hi Hinh Hremoved Hwithin.
  destruct (lookup_lt_is_Some_2 (server servers) i Hi) as [seed Hseed].
  destruct (Hinh seed) as (seed0 & Hseed0 & Hcred0); [by eapply list_elem_of_lookup_2|].
  unfold discover_iteration, server_at. rewrite Hseed.
  unfold bind at 1. cbn [ret]. unfold bind at 1. cbn [mongo_manager_log emit].
  destruct (find_item (connections (manager s)) (mongo_server_create_hash seed))
    as [item|] eqn:Hfind.
  - rewrite (bind_run _ _ _ _ _ _ (find_by_hash_present _ _ _ Hfind)).
    pose proof (find_item_elem _ _ _ Hfind) as Hitem.
    destruct (registry_ok_live s item Hok Hitem) as (c & Hc & _).
    pose proof (Hmade item c Hitem Hc) as Hfor.
    rewrite (find_item_hash _ _ _ Hfind) in Hfor.
    destruct (mongo_connection_ismaster (manager s) (payload c) repl seed (wire s))
      as [[o d] w] eqn:Hism.
    pose proof (wire_call_run (connection item) c
                  (fun m d => mongo_connection_ismaster m d repl seed)
                  (EvIsmaster (connection item) seed) s o d w Hc Hism) as Hcall.
    destruct (wire_call_registry_ok _ _ _ _ _ _ _ Hok Hcall) as (Hok1 & Hm1 & _).
    assert (Hmade1 := wire_call_made _ _ _ _ _ _ _
                        (fun m d w o d' w' h => made_after_ismaster m d repl seed w o d' w' h)
                        Hmade Hcall).
    set (s1 := {| wire := w; heap := <[connection item:=with_payload c d]> (heap s);
                  manager := manager s |}) in *.
    destruct (discover_switch_ok space i servers seed item o s1 Hok1 Hmade1 Hfind Hseed)
      as (servers' & s' & evs & Hrun & Hok' & Hmade' & Hext & Hcred & Hu & Hu').
    { intros Hres. apply (Hremoved (manager s) (payload c) repl seed (wire s) Hfor).
      by rewrite Hism. }
    { intros found_host Hh.
      destruct (Hwithin (manager s) (payload c) repl seed (wire s) seed0 found_host Hseed0)
        as (tmp_def & Hdef & Hspace); [by rewrite Hism|].
      exists tmp_def. split; [|done]. by rewrite (tmp_def_of_credentials _ _ _ Hcred0). }
    eexists _, _, _. split.
    { rewrite (bind_run _ _ _ _ _ _ Hcall), (bind_run _ _ _ _ _ _ Hrun). reflexivity. }
    split; [done|]. split; [done|]. split; [done|]. split; [|done].
    intros def Hdef. destruct (Hcred def Hdef) as [Hin|Hsame]; [by apply Hinh|].
    exists seed0. split; [done|].
    destruct Hsame as (? & ? & ?), Hcred0 as (? & ? & ?). repeat split; congruence.
  - rewrite (bind_run _ _ _ _ _ _ (find_by_hash_absent _ _ Hfind)).
    eexists _, _, _. split; [reflexivity|]. split; [done|]. split; [done|]. split; [done|].
    split; [done|]. cbn [fst]. split; lia.
Qed.

Lemma discover_loop_terminates space seeds : forall bound pending i servers repl s,
  registry_ok s -> registry_made s ->
  inherits seeds servers ->
  removed_seed_unreported space ->
  reports_within space seeds ->
  (unregistered space s + (count servers - i) <= bound)%nat ->
  (count servers - i <= pending)%nat ->
  exists fuel servers' s' evs,
    discover_loop fuel i servers repl s = Return servers' s' evs /\
    registry_ok s' /\ registry_made s'.
Proof.
  induction bound as [bound IHb] using lt_wf_ind.
  induction pending as [pending IHp] using lt_wf_ind.
  intros i servers repl s Hok Hmade Hinh Hremoved Hwithin Hbound Hpending.
  destruct (decide (i < count servers)%nat) as [Hi|Hi].
  - destruct (discover_iteration_ok space seeds i servers repl s Hok Hmade Hi Hinh Hremoved
                Hwithin)
      as (r & s1 & e1 & Hrun1 & Hok1 & Hmade1 & Hext1 & Hinh1 & Hu & Hu').
    pose proof (extends_count _ _ Hext1) as Hcount.
    assert (Hrest : exists fuel servers' s' evs,
      discover_loop fuel (S i) r.1 r.2 s1 = Return servers' s' evs /\
      registry_ok s' /\ registry_made s').
    { destruct (decide (count servers < count r.1)%nat) as [Hgrew|Hsame].
      - apply (IHb (bound - 1)%nat ltac:(lia) (count r.1 - S i)%nat); try done; lia.
      - apply (IHp (count r.1 - S i)%nat ltac:(lia)); try done; lia. }
    destruct Hrest as (fuel & servers' & s' & evs & Hrun & Hok').
    exists (S fuel). eexists _, _, _. split; [|exact Hok'].
    cbn [discover_loop]. rewrite bool_decide_eq_true_2 by done.
    rewrite (bind_run _ _ _ _ _ _ Hrun1), Hrun. reflexivity.
  - exists 1%nat, servers, s, []. split; [|done].
    cbn [discover_loop]. by rewrite bool_decide_eq_false_2.
Qed.

(** More fuel does not change what the loop returns. *)
Lemma discover_loop_fuel fuel : forall fuel' i servers repl s servers' s' evs,
  (fuel <= fuel')%nat ->
  discover_loop fuel i servers repl s = Return servers' s' evs ->
  discover_loop fuel' i servers repl s = Return servers' s' evs.
Proof.
  induction fuel as [|fuel IH]; intros fuel' i servers repl s servers' s' evs Hle Hrun; [done|].
  destruct fuel' as [|fuel']; [lia|].
  cbn [discover_loop] in *. case_bool_decide; [|done].
  apply bind_Return in Hrun as (r & s1 & e1 & e2 & Hit & Hrun & ->).
  rewrite (bind_run _ _ _ _ _ _ Hit). rewrite (IH fuel' _ _ _ _ _ _ _ ltac:(lia) Hrun). done.
Qed.

Lemma discover_loop_probed fuel : forall i servers repl s servers' s' evs,
  discover_loop fuel i servers repl s = Return servers' s' evs ->
  probed evs = mongo_server_create_hash <$> drop i (server servers').
Proof.
  induction fuel as [|fuel IH]; intros i servers repl s servers' s' evs Hrun; [done|].
  cbn [discover_loop] in Hrun. case_bool_decide as Hi.
  - apply bind_Return in Hrun as (r & s1 & e1 & e2 & Hit & Hrun & ->).
    pose proof (discover_iteration_extends _ _ _ _ _ _ _ Hit) as Hext1.
    pose proof (discover_loop_extends _ _ _ _ _ _ _ _ Hrun) as [Hext2 _].
    apply discover_iteration_events in Hit as (seed & rest & Hseed & -> & Hrest).
    apply IH in Hrun. unfold probed in *. rewrite omap_app, Hrun.
    assert (Hseed' : server servers' !! i = Some seed).
    { destruct Hext1 as [Hp1 _], Hext2 as [Hp2 _].
      eapply prefix_lookup_Some; [|exact Hp2]. by eapply prefix_lookup_Some. }
    rewrite (drop_S _ _ _ Hseed'). cbn [omap list_omap probe_of].
    rewrite String.eqb_refl.
    rewrite (omap_none probe_of expansion_event rest expansion_event_no_probe Hrest).
    reflexivity.
  - apply ret_Return in Hrun as (-> & _ & ->).
    rewrite drop_ge; [done|]. unfold count in Hi. lia.
Qed.

(** C3 (as amended). The loop of topology discovery reads its bound at
    every test: whenever it returns, every definition of the final
    server list, the appended ones included, has been visited by the
    loop, in list order. A definition is appended only when no item of
    the manager's list has its hash, and after the append an item of the
    list has it. The loop terminates, from a state whose manager's list
    is well formed and holds connections made for their hashes, if the
    hashes of the hosts that [mongo_connection_ismaster] reports stay
    within a finite set and a definition whose probe answers 3 does not
    have its hash in that set, so that a hash deregistered on that answer
    is not reported again: from some amount of fuel on, the loop returns
    the same extended server list, and the manager's list is as well
    formed as before. *)
Theorem discovery_loop_probes_and_terminates :
  (forall fuel servers s servers' s' evs,
     mongo_discover_topology fuel servers s = Return servers' s' evs ->
     extends servers servers' /\
     probed evs = mongo_server_create_hash <$> server servers') /\
  (forall i servers0 found_host s0 servers1 s1 evs,
     discover_host i servers0 found_host s0 = Return servers1 s1 evs ->
     servers1 = servers0 \/
     exists def item,
       servers1 = servers_push servers0 def /\
       find_item (connections (manager s0)) (mongo_server_create_hash def) = None /\
       find_item (connections (manager s1)) (mongo_server_create_hash def) = Some item) /\
  (forall (space : gset string) servers s,
     registry_ok s ->
     registry_made s ->
     reports_within space (server servers) ->
     removed_seed_unreported space ->
     exists fuel0 servers' s' evs,
       (forall fuel, (fuel0 <= fuel)%nat ->
          mongo_discover_topology fuel servers s = Return servers' s' evs) /\
       registry_ok s' /\ registry_made s').
Proof.
  split; [|split].
  - intros fuel servers s servers' s' evs Hrun. unfold mongo_discover_topology in Hrun.
    split; [by eapply discover_loop_extends|].
    by rewrite (discover_loop_probed _ _ _ _ _ _ _ _ Hrun), drop_0.
  - intros i servers0 found_host s0 servers1 s1 evs Hrun.
    assert (Hparts : exists seed tmp_def, server servers0 !! i = Some seed /\
                       tmp_def_of seed found_host = Some tmp_def).
    { unfold discover_host, server_at, make_tmp_def in Hrun.
      destruct (server servers0 !! i) as [seed|]; [|done].
      unfold bind at 1 in Hrun. cbn [ret] in Hrun.
      destruct (tmp_def_of seed found_host) as [tmp_def|] eqn:Hdef; [by exists seed, tmp_def|].
      by unfold bind at 1 in Hrun. }
    destruct Hparts as (seed & tmp_def & Hseed & Hdef).
    rewrite (discover_host_run _ _ _ _ _ _ Hseed Hdef) in Hrun.
    destruct (find_item _ _) as [item|] eqn:Hfind; [injection Hrun as <- _ _; by left|].
    destruct (mongo_get_connection_single _ _ _) as [[[new_con|] err] s' evs'| |] eqn:Hsingle;
      try done; injection Hrun as <- <- _; [|by left].
    right. apply single_returns_registered in Hsingle as [(item & Hitem & _) _]. eauto.
  - intros space servers s Hok Hmade Hwithin Hremoved.
    destruct (discover_loop_terminates space (server servers)
                (unregistered space s + count servers)%nat (count servers) 0%nat servers
                (repl_set_name servers) s Hok Hmade)
      as (fuel0 & servers' & s' & evs & Hrun & Hok'); try done; try lia.
    { intros def Hdef. exists def. by split. }
    exists fuel0, servers', s', evs. split; [|done].
    intros fuel Hfuel. unfold mongo_discover_topology. by eapply discover_loop_fuel.
Qed.

(** * Further properties of the manager *)

(** ** The list of items as a map from hashes *)

Lemma find_item_split l h item :
  find_item l h = Some item ->
  exists before after,
    l = before ++ item :: after /\ find_item before h = None /\ item_hash item = h.
Proof.
  induction l as [|x l IH]; [done|]. cbn.
  destruct (String.eqb_spec (item_hash x) h) as [Heq|Hne].
  - intros [= <-]. by exists [], l.
  - intros Hfind. destruct (IH Hfind) as (before & after & -> & Hb & Hh).
    exists (x :: before), after. split; [done|]. split; [|done]. cbn.
    by rewrite (proj2 (String.eqb_neq _ _) Hne).
Qed.

Lemma find_item_middle before item after h :
  find_item before h = None -> item_hash item = h ->
  find_item (before ++ item :: after) h = Some item.
Proof.
  intros Hb Hh. induction before as [|x before IH]; cbn in *.
  - by rewrite Hh, String.eqb_refl.
  - destruct (String.eqb (item_hash x) h); [done|]. by apply IH.
Qed.

Lemma find_item_app l1 l2 h :
  find_item (l1 ++ l2) h =
    match find_item l1 h with Some item => Some item | None => find_item l2 h end.
Proof.
  induction l1 as [|x l1 IH]; [done|]. cbn. by destruct (String.eqb (item_hash x) h).
Qed.

Lemma unlink_middle before item after h :
  find_item before h = None -> item_hash item = h ->
  unlink (before ++ item :: after) h = Some (item, before ++ after).
Proof.
  intros Hb Hh. induction before as [|x before IH]; cbn in *.
  - by rewrite Hh, String.eqb_refl.
  - destruct (String.eqb (item_hash x) h); [done|]. by rewrite IH.
Qed.

Lemma unlink_absent l h : find_item l h = None -> unlink l h = None.
Proof.
  induction l as [|x l IH]; [done|]. cbn. destruct (String.eqb (item_hash x) h); [done|].
  intros Hf. by rewrite IH.
Qed.

(** [mongo_manager_connection_deregister] on a live connection that
    carries a hash, the list not being empty. *)
Lemma deregister_run con (c : mongo_connection data) h s :
  heap s !! con = Some c -> hash c = Some h ->
  connections (manager s) <> [] ->
  mongo_manager_connection_deregister con s =
    match unlink (connections (manager s)) h with
    | Some (item, rest) =>
        Return 1
          {| wire := mongo_connection_destroy (set_connections (manager s) rest) (payload c)
                       (wire s);
             heap := delete con (heap s);
             manager := set_connections (manager s) rest |}
          [EvDestroy con;
           EvLog MLOG_CON MLOG_INFO "freeing connection %s" [LogStr (Some (item_hash item))]]
    | None => Return 0 s []
    end.
Proof.
  intros Hc Hh Hne. unfold mongo_manager_connection_deregister, get_manager. unfold bind at 1.
  destruct (connections (manager s)) as [|x l] eqn:Hl; [done|].
  rewrite (bind_run _ _ _ _ _ _ (connection_hash_run _ _ _ _ Hc Hh)).
  destruct (unlink (x :: l) h) as [[item rest]|]; [|done].
  unfold bind at 1. cbn [set_manager_connections].
  assert (Hc2 : heap {| wire := wire s; heap := heap s;
                        manager := set_connections (manager s) rest |} !! con = Some c)
    by exact Hc.
  by rewrite (bind_run _ _ _ _ _ _ (connection_destroy_run _ _ _ Hc2)).
Qed.

Lemma register_run con (c : mongo_connection data) h s :
  heap s !! con = Some c -> hash c = Some h ->
  mongo_manager_connection_register con s =
    Return tt
      {| wire := wire s; heap := heap s; manager := registered_as h con (manager s) |} [].
Proof.
  intros Hc Hh. unfold mongo_manager_connection_register, get_manager. unfold bind at 1.
  by rewrite (bind_run _ _ _ _ _ _ (connection_hash_run _ _ _ _ Hc Hh)).
Qed.

(** X1. [mongo_manager_connection_find_by_hash] leaves the state as it
    is and hands back the connection of the first item, in the order of
    the list, whose hash is the one asked for; it hands back [NULL]
    exactly when no item of the list has that hash. *)
Theorem find_by_hash_first_match h s :
  exists r evs,
    mongo_manager_connection_find_by_hash h s = Return r s evs /\
    (r = None <-> h ∉ hashes (connections (manager s))) /\
    (forall con, r = Some con ->
       exists before item after,
         connections (manager s) = before ++ item :: after /\
         (h ∉ hashes before) /\ item_hash item = h /\ connection item = con).
Proof.
  destruct (find_by_hash_run h s) as (evs & Hrun & _).
  eexists _, evs. split; [exact Hrun|].
  destruct (find_item (connections (manager s)) h) as [item|] eqn:Hfind; cbn.
  - split.
    + split; [done|]. intros Hno. apply find_item_None in Hno. congruence.
    + intros con [= <-].
      destruct (find_item_split _ _ _ Hfind) as (before & after & Hl & Hb & Hh).
      exists before, item, after. split; [done|]. split; [by apply find_item_None|done].
  - split; [|done]. split; [|done]. intros _. by apply find_item_None.
Qed.

(** X2. Registering a live connection appends one item for its hash at
    the end of the list and touches nothing else. The list is not
    searched for the hash first: when an older item has the same hash, a
    lookup of that hash keeps answering with the older connection;
    otherwise it answers with the new one. Lookups of other hashes answer
    as before. *)
Theorem register_then_find con (c : mongo_connection data) h s :
  heap s !! con = Some c -> hash c = Some h ->
  exists s',
    mongo_manager_connection_register con s = Return tt s' [] /\
    connections (manager s') =
      connections (manager s) ++ [{| item_hash := h; connection := con |}] /\
    heap s' = heap s /\ wire s' = wire s /\
    (exists evs,
       mongo_manager_connection_find_by_hash h s' =
         Return (Some (match find_item (connections (manager s)) h with
                       | Some older => connection older
                       | None => con
                       end)) s' evs) /\
    (forall h', h' <> h ->
       exists r evs evs',
         mongo_manager_connection_find_by_hash h' s' = Return r s' evs /\
         mongo_manager_connection_find_by_hash h' s = Return r s evs').
Proof.
  intros Hc Hh.
  set (s1 := {| wire := wire s; heap := heap s; manager := registered_as h con (manager s) |}).
  exists s1. split; [exact (register_run con c h s Hc Hh)|].
  split; [done|]. split; [done|]. split; [done|]. split.
  - destruct (find_by_hash_run h s1) as (evs & Hrun & _).
    exists evs. rewrite Hrun. cbn. rewrite find_item_app. cbn. rewrite String.eqb_refl.
    by destruct (find_item (connections (manager s)) h).
  - intros h' Hne.
    destruct (find_by_hash_run h' s1) as (evs & Hrun & _).
    destruct (find_by_hash_run h' s) as (evs' & Hrun' & _).
    eexists _, evs, evs'. split; [|exact Hrun']. rewrite Hrun. cbn.
    rewrite find_item_app. cbn.
    rewrite (proj2 (String.eqb_neq h h')) by done.
    by destruct (find_item (connections (manager s)) h').
Qed.

(** X3. Deregistering finds nothing to remove: on an empty list the
    call answers 0 without reading the connection at all, and on a list
    none of whose items has the hash of the connection it answers 0 as
    well. In both cases the state is as before and the connection is not
    destroyed. *)
Theorem deregister_without_item con s :
  (connections (manager s) = [] ->
   mongo_manager_connection_deregister con s = Return 0 s []) /\
  (forall (c : mongo_connection data) h,
     heap s !! con = Some c -> hash c = Some h ->
     h ∉ hashes (connections (manager s)) ->
     mongo_manager_connection_deregister con s = Return 0 s []).
Proof.
  split.
  - intros Hnil. unfold mongo_manager_connection_deregister, get_manager. unfold bind at 1.
    by rewrite Hnil.
  - intros c h Hc Hh Hno. apply find_item_None in Hno.
    destruct (connections (manager s)) as [|x l] eqn:Hl.
    + unfold mongo_manager_connection_deregister, get_manager. unfold bind at 1.
      by rewrite Hl.
    + rewrite (deregister_run con c h s Hc Hh) by (by rewrite Hl).
      rewrite Hl. by rewrite (unlink_absent _ _ Hno).
Qed.

(** X4. Deregistering compares hashes, not pointers: the item that
    leaves the list is the first one whose hash equals the hash of the
    connection handed in, whichever connection that item points to, and
    the connection destroyed is the one handed in. The other items keep
    their order. *)
Theorem deregister_unlinks_by_hash con (c : mongo_connection data) h before item after s :
  heap s !! con = Some c -> hash c = Some h ->
  connections (manager s) = before ++ item :: after ->
  h ∉ hashes before -> item_hash item = h ->
  exists s',
    mongo_manager_connection_deregister con s =
      Return 1 s'
        [EvDestroy con;
         EvLog MLOG_CON MLOG_INFO "freeing connection %s" [LogStr (Some h)]] /\
    connections (manager s') = before ++ after /\
    heap s' = delete con (heap s).
Proof.
  intros Hc Hh Hl Hb Hitem. apply find_item_None in Hb.
  rewrite (deregister_run con c h s Hc Hh) by (rewrite Hl; by destruct before).
  rewrite Hl, (unlink_middle _ _ _ _ Hb Hitem), Hitem. eexists. split; [reflexivity|]. done.
Qed.

(** X5. Register, then deregister: when no item had the hash of the
    connection, the list is back to what it was, the call answers 1 and
    the connection has been destroyed. *)
Theorem register_then_deregister con (c : mongo_connection data) h s :
  heap s !! con = Some c -> hash c = Some h ->
  h ∉ hashes (connections (manager s)) ->
  exists s' evs,
    (mongo_manager_connection_register con ;; mongo_manager_connection_deregister con) s =
      Return 1 s' evs /\
    connections (manager s') = connections (manager s) /\
    heap s' = delete con (heap s) /\
    destroyed evs = [con].
Proof.
  intros Hc Hh Hno. apply find_item_None in Hno.
  rewrite (bind_run _ _ _ _ _ _ (register_run con c h s Hc Hh)).
  set (s1 := {| wire := wire s; heap := heap s; manager := registered_as h con (manager s) |}).
  assert (Hc1 : heap s1 !! con = Some c) by exact Hc.
  rewrite (deregister_run con c h s1 Hc1 Hh)
    by (cbn; by destruct (connections (manager s))).
  cbn [s1 manager registered_as set_connections connections].
  rewrite (unlink_middle _ {| item_hash := h; connection := con |} [] _ Hno eq_refl),
    app_nil_r.
  eexists _, _. split; [reflexivity|]. done.
Qed.

(** ** Single-connection acquire on a registered hash, and lookup only *)

Lemma single_dont_connect_run server connection_flags s :
  has_flag connection_flags MONGO_CON_FLAG_DONT_CONNECT = true ->
  exists evs,
    mongo_get_connection_single server connection_flags s =
      Return (connection <$> find_item (connections (manager s))
                               (mongo_server_create_hash server), None) s evs /\
    steps evs = [] /\
    (find_item (connections (manager s)) (mongo_server_create_hash server) = None -> evs = []).
Proof.
  intros Hflag. unfold mongo_get_connection_single.
  destruct (find_item (connections (manager s)) (mongo_server_create_hash server))
    as [item|] eqn:Hfind.
  - rewrite (bind_run _ _ _ _ _ _ (find_by_hash_present _ _ _ Hfind)), Hflag. cbn.
    eexists. split; [reflexivity|]. done.
  - rewrite (bind_run _ _ _ _ _ _ (find_by_hash_absent _ _ Hfind)), Hflag. cbn.
    eexists. split; [reflexivity|]. done.
Qed.

(** X6. With [DONT_CONNECT] single-connection acquire is a lookup: it
    hands back what the manager's list holds for the hash of the server,
    stores no error text, leaves the state as it is and performs no wire
    operation and no destruction. *)
Theorem single_dont_connect_is_lookup server connection_flags s :
  has_flag connection_flags MONGO_CON_FLAG_DONT_CONNECT = true ->
  exists evs,
    mongo_get_connection_single server connection_flags s =
      Return (connection <$> find_item (connections (manager s))
                               (mongo_server_create_hash server), None) s evs /\
    steps evs = [].
Proof.
  intros Hflag. destruct (single_dont_connect_run server connection_flags s Hflag)
    as (evs & Hrun & Hsteps & _).
  by exists evs.
Qed.

(** Single-connection acquire, without [DONT_CONNECT], for a hash that
    an item of the list carries, the item pointing to a live connection
    with that hash. *)
Lemma single_registered_run server connection_flags s item (c : mongo_connection data) :
  has_flag connection_flags MONGO_CON_FLAG_DONT_CONNECT = false ->
  find_item (connections (manager s)) (mongo_server_create_hash server) = Some item ->
  heap s !! connection item = Some c -> hash c = Some (item_hash item) ->
  exists r s' evs,
    mongo_get_connection_single server connection_flags s = Return r s' evs /\
    created evs = [] /\
    match mongo_connection_ping (manager s) (payload c) (wire s) with
    | (inr _, d, w) =>
        r = (Some (connection item), None) /\
        s' = {| wire := w; heap := <[connection item := with_payload c d]> (heap s);
                manager := manager s |} /\
        steps evs = [(StepPing, true)]
    | (inl err, d, w) =>
        r = (None, Some err) /\
        (exists before after,
           connections (manager s) = before ++ item :: after /\
           find_item before (mongo_server_create_hash server) = None /\
           connections (manager s') = before ++ after) /\
        heap s' = delete (connection item) (heap s) /\
        steps evs = [(StepPing, false); (StepDestroy, true)]
    end.
Proof.
  intros Hflag Hfind Hc Hh. set (h := mongo_server_create_hash server) in *.
  unfold mongo_get_connection_single. fold h.
  rewrite (bind_run _ _ _ _ _ _ (find_by_hash_present _ _ _ Hfind)), Hflag. cbn [negb].
  destruct (mongo_connection_ping (manager s) (payload c) (wire s)) as [[[err|[]] d] w] eqn:Hping.
  - unfold connection_ping.
    rewrite (bind_run _ _ _ _ _ _ (wire_call_run _ _ _ _ _ _ _ _ Hc Hping)).
    set (s1 := {| wire := w; heap := <[connection item:=with_payload c d]> (heap s);
                  manager := manager s |}).
    assert (Hc1 : heap s1 !! connection item = Some (with_payload c d))
      by (cbn; by rewrite lookup_insert_eq).
    destruct (find_item_split _ _ _ Hfind) as (before & after & Hl & Hb & Hitem).
    rewrite Hitem in Hh.
    rewrite deregister_then.
    rewrite (deregister_run (connection item) (with_payload c d) h s1 Hc1 Hh)
      by (cbn; rewrite Hl; by destruct before).
    cbn [s1 manager]. rewrite Hl, (unlink_middle _ _ _ _ Hb Hitem). cbn.
    eexists _, _, _. split; [reflexivity|]. cbn. split; [done|]. split; [done|].
    split; [by exists before, after|]. split; [|done]. by rewrite delete_insert_eq.
  - unfold connection_ping.
    rewrite (bind_run _ _ _ _ _ _ (wire_call_run _ _ _ _ _ _ _ _ Hc Hping)). cbn.
    eexists _, _, _. split; [reflexivity|]. done.
Qed.

(** X7. Single-connection acquire, without [DONT_CONNECT], for a server
    whose hash is registered, the manager's list being well formed: the
    registered connection is pinged and no connection is created. When
    the ping succeeds that connection is the result and the list is as
    before. When the ping fails the result is [NULL] with the text of
    the ping, the item has left the list, the other items keeping their
    order, and the connection has been destroyed. *)
Theorem single_pings_registered server connection_flags s item :
  registry_ok s ->
  has_flag connection_flags MONGO_CON_FLAG_DONT_CONNECT = false ->
  find_item (connections (manager s)) (mongo_server_create_hash server) = Some item ->
  exists c r s' evs,
    heap s !! connection item = Some c /\
    mongo_get_connection_single server connection_flags s = Return r s' evs /\
    created evs = [] /\
    match mongo_connection_ping (manager s) (payload c) (wire s) with
    | (inr _, d, w) =>
        r = (Some (connection item), None) /\
        s' = {| wire := w; heap := <[connection item := with_payload c d]> (heap s);
                manager := manager s |} /\
        steps evs = [(StepPing, true)]
    | (inl err, d, w) =>
        r = (None, Some err) /\
        (exists before after,
           connections (manager s) = before ++ item :: after /\
           find_item before (mongo_server_create_hash server) = None /\
           connections (manager s') = before ++ after) /\
        heap s' = delete (connection item) (heap s) /\
        steps evs = [(StepPing, false); (StepDestroy, true)]
    end.
Proof.
  intros Hok Hflag Hfind.
  destruct (registry_ok_live s item Hok (find_item_elem _ _ _ Hfind)) as (c & Hc & Hh).
  destruct (single_registered_run server connection_flags s item c Hflag Hfind Hc Hh)
    as (r & s' & evs & Hrun & Hcreated & Hcases).
  exists c, r, s', evs. split; [exact Hc|]. split; [exact Hrun|]. split; [exact Hcreated|].
  exact Hcases.
Qed.

(** X8. Acquire, then look up: a connection that single-connection
    acquire has returned is what a following acquire for the same server
    with [DONT_CONNECT] returns, without any wire operation. *)
Theorem acquire_then_lookup server connection_flags lookup_flags s con err s' evs :
  mongo_get_connection_single server connection_flags s = Return (Some con, err) s' evs ->
  has_flag lookup_flags MONGO_CON_FLAG_DONT_CONNECT = true ->
  exists evs',
    mongo_get_connection_single server lookup_flags s' = Return (Some con, None) s' evs' /\
    steps evs' = [].
Proof.
  intros Hrun Hflag.
  apply single_returns_registered in Hrun as [(item & Hfind & Hcon) _].
  destruct (single_dont_connect_run server lookup_flags s' Hflag) as (evs' & Hrun' & Hsteps & _).
  exists evs'. split; [|done]. rewrite Hrun', Hfind. cbn. by rewrite Hcon.
Qed.

(** ** Topology discovery: iterations that do not expand *)

Lemma discover_loop_unregistered fuel : forall i servers repl s,
  (forall def, def ∈ server servers ->
     find_item (connections (manager s)) (mongo_server_create_hash def) = None) ->
  (count servers - i < fuel)%nat ->
  discover_loop fuel i servers repl s =
    Return servers s (drop i (server servers) ≫= skipped_events).
Proof.
  induction fuel as [|fuel IH]; intros i servers repl s Habsent Hfuel; [lia|].
  cbn [discover_loop]. case_bool_decide as Hi.
  - destruct (lookup_lt_is_Some_2 (server servers) i Hi) as [seed Hseed].
    assert (Hit : discover_iteration i servers repl s =
                  Return (servers, repl) s (skipped_events seed)).
    { unfold discover_iteration, server_at. rewrite Hseed.
      unfold bind at 1. cbn [ret]. unfold bind at 1. cbn [mongo_manager_log emit].
      rewrite (bind_run _ _ _ _ _ _
                 (find_by_hash_absent _ _ (Habsent seed (list_elem_of_lookup_2 _ _ _ Hseed)))).
      reflexivity. }
    rewrite (bind_run _ _ _ _ _ _ Hit). cbn [fst snd].
    rewrite (IH (S i) servers repl s Habsent) by lia.
    by rewrite (drop_S _ _ _ Hseed).
  - unfold count in Hi. rewrite drop_ge by lia. done.
Qed.

(** X9. Topology discovery over a server list none of whose definitions
    has a registered connection: every definition is visited and skipped
    with a warning, [mongo_connection_ismaster] is not called, and the
    server list and the state are as before. *)
Theorem discovery_skips_unregistered fuel servers s :
  (forall def, def ∈ server servers ->
     find_item (connections (manager s)) (mongo_server_create_hash def) = None) ->
  (count servers < fuel)%nat ->
  mongo_discover_topology fuel servers s =
    Return servers s (server servers ≫= skipped_events).
Proof.
  intros Habsent Hfuel. unfold mongo_discover_topology.
  rewrite (discover_loop_unregistered fuel 0 servers _ s Habsent) by lia.
  by rewrite drop_0.
Qed.

(** A discovery iteration up to the [switch]: the definition at [i] has
    a registered live connection, which is probed. *)
Lemma discover_iteration_probe i servers repl seed item (c : mongo_connection data) s o d w :
  server servers !! i = Some seed ->
  find_item (connections (manager s)) (mongo_server_create_hash seed) = Some item ->
  heap s !! connection item = Some c ->
  mongo_connection_ismaster (manager s) (payload c) repl seed (wire s) = (o, d, w) ->
  discover_iteration i servers repl s =
    match discover_switch i servers seed (connection item) o
            {| wire := w; heap := <[connection item := with_payload c d]> (heap s);
               manager := manager s |} with
    | Return servers' s' evs =>
        Return (servers', out_repl_set_name o) s'
          ([EvLog MLOG_CON MLOG_FINE "discover_topology: checking ismaster for %s"
              [LogStr (Some (mongo_server_create_hash seed))];
            EvLog MLOG_CON MLOG_FINE "found connection %s (looking for %s)"
              [LogStr (Some (item_hash item)); LogStr (Some (mongo_server_create_hash seed))];
            EvIsmaster (connection item) seed o] ++ evs)
    | Crash why => Crash why
    | Timeout => Timeout
    end.
Proof.
  intros Hseed Hfind Hc Hism. unfold discover_iteration, server_at. rewrite Hseed.
  unfold bind at 1. cbn [ret]. unfold bind at 1. cbn [mongo_manager_log emit].
  rewrite (bind_run _ _ _ _ _ _ (find_by_hash_present _ _ _ Hfind)).
  pose proof (wire_call_run (connection item) c
                (fun m d => mongo_connection_ismaster m d repl seed)
                (EvIsmaster (connection item) seed) s o d w Hc Hism) as Hcall.
  rewrite (bind_run _ _ _ _ _ _ Hcall).
  unfold bind at 1.
  destruct (discover_switch _ _ _ _ _ _) as [servers' s' evs| |]; [|done..].
  cbn. by rewrite app_nil_r.
Qed.

(** X10. A discovery iteration whose probe answers neither 1 nor 3
    leaves the server list as it is and creates no connection. On the
    answer 0 the item of the probed connection leaves the manager's list
    and the connection is destroyed; on any other answer (2, or a code
    the [switch] does not know) nothing is removed and nothing is
    destroyed. *)
Theorem discovery_iteration_without_expansion i servers repl seed item
    (c : mongo_connection data) s o d w :
  server servers !! i = Some seed ->
  find_item (connections (manager s)) (mongo_server_create_hash seed) = Some item ->
  heap s !! connection item = Some c -> hash c = Some (item_hash item) ->
  mongo_connection_ismaster (manager s) (payload c) repl seed (wire s) = (o, d, w) ->
  res o <> 1 -> res o <> 3 ->
  exists s' evs,
    discover_iteration i servers repl s = Return (servers, out_repl_set_name o) s' evs /\
    created evs = [] /\
    if res o =? 0 then
      (exists before after,
         connections (manager s) = before ++ item :: after /\
         connections (manager s') = before ++ after) /\
      heap s' = delete (connection item) (heap s) /\
      destroyed evs = [connection item]
    else
      s' = {| wire := w; heap := <[connection item := with_payload c d]> (heap s);
              manager := manager s |} /\
      destroyed evs = [].
Proof.
  intros Hseed Hfind Hc Hh Hism H1 H3.
  rewrite (discover_iteration_probe _ _ _ _ _ _ _ _ _ _ Hseed Hfind Hc Hism).
  unfold discover_switch.
  destruct (res o =? 0) eqn:H0.
  - set (s1 := {| wire := w; heap := <[connection item:=with_payload c d]> (heap s);
                  manager := manager s |}).
    assert (Hc1 : heap s1 !! connection item = Some (with_payload c d))
      by (cbn; by rewrite lookup_insert_eq).
    destruct (find_item_split _ _ _ Hfind) as (before & after & Hl & Hb & Hitem).
    rewrite Hitem in Hh.
    unfold bind at 1. cbn [mongo_manager_log emit]. rewrite deregister_then.
    rewrite (deregister_run (connection item) (with_payload c d) _ s1 Hc1 Hh)
      by (cbn; rewrite Hl; by destruct before).
    cbn [s1 manager]. rewrite Hl, (unlink_middle _ _ _ _ Hb Hitem). cbn.
    eexists _, _. split; [reflexivity|]. cbn. split; [done|].
    split; [by exists before, after|]. split; [|done]. by rewrite delete_insert_eq.
  - destruct (res o =? 3) eqn:H3'; [lia|]. destruct (res o =? 1) eqn:H1'; [lia|].
    destruct (res o =? 2); cbn; eexists _, _; (split; [reflexivity|]); done.
Qed.

(** X11. A reported host without a colon: when the probe answers 1 and
    the first host of its list has no colon, [strchr] hands back [NULL]
    and the iteration faults on it. *)
Theorem found_host_without_colon_faults i servers repl seed item
    (c : mongo_connection data) s o d w found_host rest :
  server servers !! i = Some seed ->
  find_item (connections (manager s)) (mongo_server_create_hash seed) = Some item ->
  heap s !! connection item = Some c ->
  mongo_connection_ismaster (manager s) (payload c) repl seed (wire s) = (o, d, w) ->
  res o = 1 ->
  found_hosts o = found_host :: rest ->
  ":"%char ∉ characters found_host ->
  discover_iteration i servers repl s = Crash "strchr found no colon in found_hosts[j]".
Proof.
  intros Hseed Hfind Hc Hism H1 Hhosts Hcolon.
  assert (Hsplit : split_colon found_host = None).
  { clear -Hcolon. induction found_host as [|a t IH]; [done|]. cbn in *.
    destruct (Ascii.eqb_spec a ":"%char) as [->|Hne]; [set_solver|].
    rewrite IH; [done|]. set_solver. }
  rewrite (discover_iteration_probe _ _ _ _ _ _ _ _ _ _ Hseed Hfind Hc Hism).
  unfold discover_switch. rewrite H1, Hhosts. cbn [Z.eqb Pos.eqb].
  unfold bind at 1. cbn [mongo_manager_log emit discover_hosts].
  unfold bind at 1. unfold discover_host, server_at. rewrite Hseed.
  unfold bind at 1. cbn [ret]. unfold make_tmp_def, tmp_def_of. rewrite Hsplit.
  reflexivity.
Qed.

(** ** Host and port of a reported host *)



(** ** The decimal text of a port, read back by [atoi] *)









(** ** What topology discovery appends *)

Lemma discover_host_Return i servers found_host s servers' s' evs :
  discover_host i servers found_host s = Return servers' s' evs ->
  servers' = servers \/
  exists seed tmp_def,
    server servers !! i = Some seed /\
    tmp_def_of seed found_host = Some tmp_def /\
    servers' = servers_push servers tmp_def.
Proof.
  intros Hrun.
  assert (Hparts : exists seed tmp_def, server servers !! i = Some seed /\
                     tmp_def_of seed found_host = Some tmp_def).
  { unfold discover_host, server_at, make_tmp_def in Hrun.
    destruct (server servers !! i) as [seed|]; [|done].
    unfold bind at 1 in Hrun. cbn [ret] in Hrun.
    destruct (tmp_def_of seed found_host) as [tmp_def|] eqn:Hdef; [by exists seed, tmp_def|].
    by unfold bind at 1 in Hrun. }
  destruct Hparts as (seed & tmp_def & Hseed & Hdef).
  rewrite (discover_host_run _ _ _ _ _ _ Hseed Hdef) in Hrun.
  destruct (find_item _ _) as [item|]; [injection Hrun as <- _ _; by left|].
  destruct (mongo_get_connection_single _ _ _) as [[[new_con|] err] s1 evs1| |];
    try done; injection Hrun as <- _ _; [|by left].
  right. by exists seed, tmp_def.
Qed.

Lemma discover_hosts_inherits seeds i hosts : forall servers s servers' s' evs,
  discover_hosts i servers hosts s = Return servers' s' evs ->
  inherits seeds servers -> inherits seeds servers'.
Proof.
  induction hosts as [|h hosts IH]; intros servers s servers' s' evs Hrun Hinh.
  - by apply ret_Return in Hrun as (-> & _).
  - cbn [discover_hosts] in Hrun.
    apply bind_Return in Hrun as (servers1 & s1 & e1 & e2 & Hhost & Hrun & _).
    apply (IH _ _ _ _ _ Hrun).
    apply discover_host_Return in Hhost as [->|(seed & tmp_def & Hseed & Hdef & ->)]; [done|].
    intros def [Hin|Hin]%elem_of_app; [by apply Hinh|].
    apply list_elem_of_singleton in Hin as ->.
    destruct (Hinh seed (list_elem_of_lookup_2 _ _ _ Hseed)) as (seed0 & Hseed0 & Hcred0).
    exists seed0. split; [done|].
    destruct (tmp_def_of_inherits _ _ _ Hdef) as (? & ? & ?), Hcred0 as (? & ? & ?).
    repeat split; congruence.
Qed.

Lemma discover_switch_inherits seeds i servers seed con o s servers' s' evs :
  discover_switch i servers seed con o s = Return servers' s' evs ->
  inherits seeds servers -> inherits seeds servers'.
Proof.
  unfold discover_switch. intros Hrun Hinh.
  destruct (res o =? 0).
  { apply bind_Return in Hrun as (? & ? & ? & ? & _ & Hrun & _).
    apply bind_Return in Hrun as (? & ? & ? & ? & _ & Hrun & _).
    by apply ret_Return in Hrun as (-> & _). }
  destruct (res o =? 3).
  { apply bind_Return in Hrun as (? & ? & ? & ? & _ & Hrun & _).
    apply bind_Return in Hrun as (? & ? & ? & ? & _ & Hrun & _).
    apply bind_Return in Hrun as (? & ? & ? & ? & _ & Hrun & _).
    by eapply discover_hosts_inherits. }
  destruct (res o =? 1).
  { apply bind_Return in Hrun as (? & ? & ? & ? & _ & Hrun & _).
    by eapply discover_hosts_inherits. }
  destruct (res o =? 2).
  { apply bind_Return in Hrun as (? & ? & ? & ? & _ & Hrun & _).
    by apply ret_Return in Hrun as (-> & _). }
  by apply ret_Return in Hrun as (-> & _).
Qed.

Lemma discover_loop_inherits seeds fuel : forall i servers repl s servers' s' evs,
  discover_loop fuel i servers repl s = Return servers' s' evs ->
  inherits seeds servers -> inherits seeds servers'.
Proof.
  induction fuel as [|fuel IH]; intros i servers repl s servers' s' evs Hrun Hinh; [done|].
  cbn [discover_loop] in Hrun. case_bool_decide as Hi.
  - apply bind_Return in Hrun as (r & s1 & e1 & e2 & Hit & Hrun & _).
    apply (IH _ _ _ _ _ _ _ Hrun).
    unfold discover_iteration in Hit.
    apply bind_Return in Hit as (seed & ? & ? & ? & _ & Hit & _).
    apply bind_Return in Hit as (? & ? & ? & ? & _ & Hit & _).
    apply bind_Return in Hit as ([con|] & ? & ? & ? & _ & Hit & _).
    + apply bind_Return in Hit as (o & ? & ? & ? & _ & Hit & _).
      apply bind_Return in Hit as (servers1 & ? & ? & ? & Hsw & Hit & _).
      apply ret_Return in Hit as (-> & _). cbn [fst].
      by eapply discover_switch_inherits.
    + apply bind_Return in Hit as (? & ? & ? & ? & _ & Hit & _).
      by apply ret_Return in Hit as (-> & _).
  - by apply ret_Return in Hrun as (-> & _).
Qed.

(** X13. Topology discovery only appends to the server list: the
    definitions it was given stay in front, in their order, and the
    connection type, the set name and the read preference of the list
    are as before. Every definition of the final list carries the
    database, user name and password of one of the definitions the list
    started with. *)
Theorem discovery_appends_with_seed_credentials fuel servers s servers' s' evs :
  mongo_discover_topology fuel servers s = Return servers' s' evs ->
  extends servers servers' /\
  forall def, def ∈ server servers' ->
    exists seed, seed ∈ server servers /\ same_credentials def seed.
Proof.
  intros Hrun. unfold mongo_discover_topology in Hrun. split.
  - by apply discover_loop_extends in Hrun as [Hext _].
  - apply (discover_loop_inherits (server servers) _ _ _ _ _ _ _ _ Hrun).
    intros def Hdef. exists def. by split.
Qed.

(** ** Lookup-only acquisition *)

Lemma single_lookup_absent server connection_flags s :
  has_flag connection_flags MONGO_CON_FLAG_DONT_CONNECT = true ->
  find_item (connections (manager s)) (mongo_server_create_hash server) = None ->
  mongo_get_connection_single server connection_flags s = Return (None, None) s [].
Proof.
  intros Hflag Hfind. unfold mongo_get_connection_single.
  by rewrite (bind_run _ _ _ _ _ _ (find_by_hash_absent _ _ Hfind)), Hflag.
Qed.

Lemma replicaset_seeds_lookup seeds connection_flags : forall found msg s,
  has_flag connection_flags MONGO_CON_FLAG_DONT_CONNECT = true ->
  (forall def, def ∈ seeds ->
     find_item (connections (manager s)) (mongo_server_create_hash def) = None) ->
  replicaset_seeds seeds connection_flags found msg s = Return found s [].
Proof.
  induction seeds as [|seed rest IH]; intros found msg s Hflag Habsent; [done|].
  cbn [replicaset_seeds].
  rewrite (bind_run _ _ _ _ _ _ (single_lookup_absent seed _ s Hflag (Habsent seed ltac:(set_solver)))).
  cbn [fst snd]. rewrite Hflag. cbn [negb]. unfold bind at 1. cbn [ret].
  rewrite IH; [done..|]. intros def Hdef. apply Habsent. set_solver.
Qed.

Lemma multiple_seeds_lookup seeds connection_flags : forall found msg messages s,
  has_flag connection_flags MONGO_CON_FLAG_DONT_CONNECT = true ->
  (forall def, def ∈ seeds ->
     find_item (connections (manager s)) (mongo_server_create_hash def) = None) ->
  multiple_seeds seeds connection_flags found msg messages s = Return (found, messages) s [].
Proof.
  induction seeds as [|seed rest IH]; intros found msg messages s Hflag Habsent; [done|].
  cbn [multiple_seeds].
  rewrite (bind_run _ _ _ _ _ _ (single_lookup_absent seed _ s Hflag (Habsent seed ltac:(set_solver)))).
  cbn [fst snd]. rewrite Hflag. cbn [negb].
  rewrite IH; [done..|]. intros def Hdef. apply Habsent. set_solver.
Qed.

(** X14. Lookup-only acquisition that finds nothing: with
    [DONT_CONNECT], when none of the seeds has a registered connection,
    each of the three strategies hands back [NULL] and stores no error
    text. The state is as before, one line is logged and nothing else
    happens: no wire operation, no discovery, no call of the candidate
    filter. This holds for an empty seed list too, and with any fuel. *)
Theorem lookup_only_without_connection fuel servers connection_flags s :
  has_flag connection_flags MONGO_CON_FLAG_DONT_CONNECT = true ->
  (forall def, def ∈ server servers ->
     find_item (connections (manager s)) (mongo_server_create_hash def) = None) ->
  (forall n, con_type servers <> MONGO_CON_TYPE_OTHER n) ->
  mongo_get_read_write_connection fuel servers connection_flags s =
    Return (servers, None, None) s [announcement servers connection_flags].
Proof.
  intros Hflag Habsent Htype.
  assert (Hmultiple : mongo_get_connection_multiple servers connection_flags s =
                      Return (servers, None, None) s []).
  { unfold mongo_get_connection_multiple.
    rewrite (bind_run _ _ _ _ _ _
               (multiple_seeds_lookup _ _ false None EmptyString s Hflag Habsent)).
    by rewrite Hflag. }
  assert (Hreplicaset :
    mongo_get_read_write_connection_replicaset fuel servers connection_flags s =
    Return (servers, None, None) s []).
  { unfold mongo_get_read_write_connection_replicaset.
    rewrite (bind_run _ _ _ _ _ _ (replicaset_seeds_lookup _ _ false None s Hflag Habsent)).
    by rewrite Hflag. }
  unfold mongo_get_read_write_connection, announcement.
  destruct (con_type servers) as [| | |n] eqn:Ht.
  - unfold bind at 1. cbn [mongo_manager_log emit]. by rewrite Hmultiple.
  - unfold bind at 1. cbn [mongo_manager_log emit]. by rewrite Hreplicaset.
  - unfold bind at 1. cbn [mongo_manager_log emit]. by rewrite Hmultiple.
  - by destruct (Htype n).
Qed.

(** ** What the strategies call *)

Lemma emits_replicaset_seeds (P : event -> Prop) seeds connection_flags :
  (forall e, acquire_event e -> P e) ->
  (forall args, P (EvLog MLOG_CON MLOG_WARN "Couldn't connect to '%s:%d': %s" args)) ->
  forall found msg, emits P (replicaset_seeds seeds connection_flags found msg).
Proof.
  intros Hacq Hlog. induction seeds as [|seed rest IH]; intros found msg; cbn [replicaset_seeds].
  - emits_step.
  - apply emits_bind; [eapply emits_mono; [exact Hacq|apply acquire_event_single]|].
    intros [[con|] err]; cbn [fst snd]; [apply IH|].
    apply emits_bind; [|intros _; apply IH].
    destruct (negb _); emits_step. apply Hlog.
Qed.

Lemma emits_multiple_seeds (P : event -> Prop) seeds connection_flags :
  (forall e, acquire_event e -> P e) ->
  (forall args, P (EvLog MLOG_CON MLOG_WARN "Couldn't connect to '%s:%d': %s" args)) ->
  forall found msg messages, emits P (multiple_seeds seeds connection_flags found msg messages).
Proof.
  intros Hacq Hlog. induction seeds as [|seed rest IH]; intros found msg messages;
    cbn [multiple_seeds].
  - emits_step.
  - apply emits_bind; [eapply emits_mono; [exact Hacq|apply acquire_event_single]|].
    intros [[con|] err]; cbn [fst snd]; [apply IH|].
    destruct (negb _); [|apply IH].
    apply emits_bind; [emits_step; apply Hlog|]. intros _.
    destruct (match err with Some e => Some e | None => msg end); [apply IH|emits_step].
Qed.

Lemma acquire_event_no_ismaster_call e : acquire_event e -> ismaster_call_of e = None.
Proof. by destruct e. Qed.

Lemma acquire_event_no_selection e : acquire_event e -> selection_call_of e = None.
Proof. by destruct e. Qed.

Lemma discovery_event_no_selection e : discovery_event e -> selection_call_of e = None.
Proof. by destruct e. Qed.

Lemma sort_select_pick_preferences servers col s r s' evs :
  sort_select_pick servers col s = Return r s' evs ->
  selection_calls evs = [(CallSort, read_pref servers); (CallSelectNearest, read_pref servers);
      (CallPick, read_pref servers)] /\
  ismaster_calls evs = [].
Proof.
  unfold sort_select_pick, sort_servers, select_nearest_servers, pick_server_from_set, bind.
  destruct (mongo_pick_server_from_set _ _ _ _ _) as [picked w]. by intros [= <- <- <-].
Qed.

Lemma multiple_no_ismaster_call servers connection_flags :
  emits (fun e => ismaster_call_of e = None)
    (mongo_get_connection_multiple servers connection_flags).
Proof.
  unfold mongo_get_connection_multiple.
  apply emits_bind.
  { apply emits_multiple_seeds; [apply acquire_event_no_ismaster_call|done]. }
  intros [found messages].
  unfold create_auth_hash, server_at.
  destruct (negb found && _); [emits_step|].
  apply emits_bind; [repeat emits_step|]. intros auth_hash.
  apply emits_bind; [intros ? ? ? ? [= <- <- <-]; by repeat constructor|]. intros col.
  destruct (is_empty col); [destruct (negb _); emits_step|].
  apply emits_bind; [|intros ?; emits_step].
  intros s0 r s1 e Hpick.
  apply sort_select_pick_preferences in Hpick as [_ Hnone].
  unfold ismaster_calls in Hnone.
  induction e as [|x e IH]; [constructor|]. cbn in Hnone.
  destruct (ismaster_call_of x) eqn:Hx; [done|]. constructor; [done|by apply IH].
Qed.

(** X15. The strategy for standalone servers and for multiple routers
    never probes with [mongo_connection_ismaster] and hands the server
    list back as it was given: nothing is discovered. *)
Theorem multiple_never_probes fuel servers connection_flags s servers' con err s' evs :
  con_type servers = MONGO_CON_TYPE_STANDALONE \/ con_type servers = MONGO_CON_TYPE_MULTIPLE ->
  mongo_get_read_write_connection fuel servers connection_flags s =
    Return (servers', con, err) s' evs ->
  servers' = servers /\ ismaster_calls evs = [].
Proof.
  intros Htype Hrun.
  assert (Hm : exists e1 e2, evs = e1 :: e2 /\ ismaster_call_of e1 = None /\
                 mongo_get_connection_multiple servers connection_flags s =
                   Return (servers', con, err) s' e2).
  { unfold mongo_get_read_write_connection in Hrun.
    destruct Htype as [Ht|Ht]; rewrite Ht in Hrun;
      apply bind_Return in Hrun as ([] & s1 & ? & e2 & Hlog & Hrun & ->);
      apply log_Return in Hlog as [-> ->]; by eexists _, e2. }
  destruct Hm as (e1 & e2 & -> & He1 & Hrun2).
  split; [by apply multiple_candidate_calls in Hrun2 as [-> _]|].
  unfold ismaster_calls. cbn [omap list_omap]. rewrite He1.
  apply multiple_no_ismaster_call in Hrun2.
  by apply (omap_none ismaster_call_of (fun e => ismaster_call_of e = None)).
Qed.

Lemma replicaset_selection fuel servers connection_flags s servers' con err s' evs :
  mongo_get_read_write_connection_replicaset fuel servers connection_flags s =
    Return (servers', con, err) s' evs ->
  (selection_calls evs = [] /\ con = None) \/
  (selection_calls evs = [(CallSort, read_pref servers); (CallSelectNearest, read_pref servers);
      (CallPick, read_pref servers)] /\
   err = None).
Proof.
  intros Hrun. unfold mongo_get_read_write_connection_replicaset in Hrun.
  apply bind_Return in Hrun as (found & s1 & e1 & e2 & Hseeds & Hrun & ->).
  apply (emits_replicaset_seeds (fun e => selection_call_of e = None)) in Hseeds;
    [|apply acquire_event_no_selection|done].
  apply (omap_none selection_call_of _ _ (fun e H => H)) in Hseeds.
  unfold selection_calls in *. rewrite omap_app, Hseeds. cbn [app].
  destruct (negb found && _).
  { apply ret_Return in Hrun as ([= _ <- _] & _ & ->). by left. }
  apply bind_Return in Hrun as (servers1 & s2 & e3 & e4 & Hdisc & Hrun & ->).
  unfold mongo_discover_topology in Hdisc.
  pose proof (discovery_event_loop _ _ _ _ _ _ _ _ Hdisc) as Hev.
  apply (omap_none selection_call_of _ _ discovery_event_no_selection) in Hev.
  apply discover_loop_extends in Hdisc as [(_ & _ & _ & Hrp) _].
  rewrite omap_app, Hev. cbn [app].
  apply bind_Return in Hrun as (auth_hash & s3 & e5 & e6 & Hauth & Hrun & ->).
  apply create_auth_hash_Return in Hauth as (-> & -> & _). cbn [app].
  apply bind_Return in Hrun as (col & s4 & e7 & e8 & Hcol & Hrun & ->).
  assert (selection_calls e7 = []) as Hcol'.
  { destruct (has_flag connection_flags MONGO_CON_FLAG_WRITE);
      by apply find_candidate_servers_Return in Hcol as (_ & _ & ->). }
  unfold selection_calls in Hcol'. rewrite omap_app, Hcol'. cbn [app].
  destruct (is_empty col).
  - apply ret_Return in Hrun as ([= _ <- _] & _ & ->). by left.
  - apply bind_Return in Hrun as (picked & s5 & e9 & e10 & Hpick & Hrun & ->).
    apply sort_select_pick_preferences in Hpick as [Hpick _].
    apply ret_Return in Hrun as ([= _ _ <-] & _ & ->).
    right. unfold selection_calls in Hpick. rewrite omap_app, Hpick, Hrp. done.
Qed.

Lemma multiple_selection servers connection_flags s servers' con err s' evs :
  mongo_get_connection_multiple servers connection_flags s =
    Return (servers', con, err) s' evs ->
  (selection_calls evs = [] /\ con = None) \/
  (selection_calls evs = [(CallSort, read_pref servers); (CallSelectNearest, read_pref servers);
      (CallPick, read_pref servers)] /\
   err = None).
Proof.
  intros Hrun. unfold mongo_get_connection_multiple in Hrun.
  apply bind_Return in Hrun as ([found messages] & s1 & e1 & e2 & Hseeds & Hrun & ->).
  apply (emits_multiple_seeds (fun e => selection_call_of e = None)) in Hseeds;
    [|apply acquire_event_no_selection|done].
  apply (omap_none selection_call_of _ _ (fun e H => H)) in Hseeds.
  unfold selection_calls in *. rewrite omap_app, Hseeds. cbn [app].
  destruct (negb found && _).
  { apply ret_Return in Hrun as ([= _ <- _] & _ & ->). by left. }
  apply bind_Return in Hrun as (auth_hash & s3 & e5 & e6 & Hauth & Hrun & ->).
  apply create_auth_hash_Return in Hauth as (-> & -> & _). cbn [app].
  apply bind_Return in Hrun as (col & s4 & e7 & e8 & Hcol & Hrun & ->).
  apply find_candidate_servers_Return in Hcol as (_ & _ & ->).
  rewrite omap_app. cbn [omap list_omap selection_call_of app].
  destruct (is_empty col).
  - destruct (negb _); apply ret_Return in Hrun as ([= _ <- _] & _ & ->); by left.
  - apply bind_Return in Hrun as (picked & s5 & e9 & e10 & Hpick & Hrun & ->).
    apply sort_select_pick_preferences in Hpick as [Hpick _].
    apply ret_Return in Hrun as ([= _ _ <-] & _ & ->).
    right. unfold selection_calls in Hpick. by rewrite omap_app, Hpick.
Qed.

(** X16. Sorting, selecting the nearest and picking are always done
    with the read preference of the server list as the caller set it,
    also when the candidates were filtered with a copy whose type was
    forced to [MONGO_RP_PRIMARY] (a write on a replica set) or to
    [MONGO_RP_NEAREST] (standalone and multiple). An acquisition either
    calls none of the three and returns [NULL], or calls
    [mongo_sort_servers], then [mongo_select_nearest_servers], then
    [mongo_pick_server_from_set], each exactly once, and stores no error
    text. *)
Theorem selection_uses_caller_preference fuel servers connection_flags s servers' con err
    s' evs :
  mongo_get_read_write_connection fuel servers connection_flags s =
    Return (servers', con, err) s' evs ->
  (selection_calls evs = [] /\ con = None) \/
  (selection_calls evs = [(CallSort, read_pref servers); (CallSelectNearest, read_pref servers);
      (CallPick, read_pref servers)] /\
   err = None).
Proof.
  intros Hrun. unfold mongo_get_read_write_connection in Hrun.
  destruct (con_type servers);
    apply bind_Return in Hrun as ([] & s1 & ? & e2 & Hlog & Hrun & ->);
    apply log_Return in Hlog as [-> ->];
    change (selection_calls (_ ++ e2)) with (selection_calls e2).
  - by apply multiple_selection in Hrun.
  - by apply replicaset_selection in Hrun.
  - by apply multiple_selection in Hrun.
  - apply ret_Return in Hrun as ([= _ <- _] & _ & ->). by left.
Qed.

Lemma multiple_seeds_dont_connect seeds connection_flags : forall found msg messages s,
  has_flag connection_flags MONGO_CON_FLAG_DONT_CONNECT = true ->
  exists found' evs,
    multiple_seeds seeds connection_flags found msg messages s =
      Return (found', messages) s evs /\
    steps evs = [].
Proof.
  induction seeds as [|seed rest IH]; intros found msg messages s Hflag.
  { by exists found, []. }
  cbn [multiple_seeds].
  destruct (single_dont_connect_run seed connection_flags s Hflag) as (e1 & Hrun1 & Hsteps1 & _).
  rewrite (bind_run _ _ _ _ _ _ Hrun1). cbn [fst snd]. rewrite Hflag. cbn [negb].
  destruct (connection <$> find_item _ _) as [con|].
  - destruct (IH true msg messages s Hflag) as (found' & e2 & -> & Hsteps2).
    eexists _, _. split; [reflexivity|]. unfold steps in *. by rewrite omap_app, Hsteps1, Hsteps2.
  - destruct (IH found msg messages s Hflag) as (found' & e2 & -> & Hsteps2).
    eexists _, _. split; [reflexivity|]. unfold steps in *. by rewrite omap_app, Hsteps1, Hsteps2.
Qed.

(** X17. Lookup-only acquisition of a standalone server or of multiple
    routers: with [DONT_CONNECT] the whole acquisition performs no wire
    operation and destroys nothing; the manager and the connections are
    as before. What comes back was picked among the registered
    connections, and an error text, if any, is never a composition of
    seed failures. *)
Theorem multiple_dont_connect_is_lookup fuel servers connection_flags s servers' con err s'
    evs :
  con_type servers = MONGO_CON_TYPE_STANDALONE \/ con_type servers = MONGO_CON_TYPE_MULTIPLE ->
  has_flag connection_flags MONGO_CON_FLAG_DONT_CONNECT = true ->
  mongo_get_read_write_connection fuel servers connection_flags s =
    Return (servers', con, err) s' evs ->
  steps evs = [] /\ manager s' = manager s /\ heap s' = heap s /\
  (err = None \/ err = Some "No candidate servers found").
Proof.
  intros Htype Hflag Hrun.
  assert (Hm : exists e1 e2, evs = e1 :: e2 /\ step_of e1 = None /\
                 mongo_get_connection_multiple servers connection_flags s =
                   Return (servers', con, err) s' e2).
  { unfold mongo_get_read_write_connection in Hrun.
    destruct Htype as [Ht|Ht]; rewrite Ht in Hrun;
      apply bind_Return in Hrun as ([] & s1 & ? & e2 & Hlog & Hrun & ->);
      apply log_Return in Hlog as [-> ->]; by eexists _, e2. }
  destruct Hm as (e1 & e2 & -> & He1 & Hrun2).
  unfold steps. cbn [omap list_omap]. rewrite He1. clear Hrun He1 e1.
  unfold mongo_get_connection_multiple in Hrun2.
  apply bind_Return in Hrun2 as ([found messages] & s1 & e3 & e4 & Hseeds & Hrun & ->).
  destruct (multiple_seeds_dont_connect (server servers) connection_flags false None
              EmptyString s Hflag) as (found' & e3' & Hseeds' & Hsteps3).
  rewrite Hseeds in Hseeds'. injection Hseeds' as -> -> -> ->.
  unfold steps in *. rewrite omap_app, Hsteps3. cbn [app].
  destruct (negb found' && _).
  { apply ret_Return in Hrun as ([= _ _ ->] & -> & ->).
    split; [done|]. split; [done|]. split; [done|]. by left. }
  apply bind_Return in Hrun as (auth_hash & s3 & e5 & e6 & Hauth & Hrun & ->).
  apply create_auth_hash_Return in Hauth as (-> & -> & _). cbn [app].
  apply bind_Return in Hrun as (col & s4 & e7 & e8 & Hcol & Hrun & ->).
  apply find_candidate_servers_Return in Hcol as (_ & -> & ->).
  cbn [omap list_omap step_of app].
  destruct (is_empty col).
  - cbn [String.length Nat.eqb negb] in Hrun.
    apply ret_Return in Hrun as ([= _ _ ->] & -> & ->).
    split; [done|]. split; [done|]. split; [done|]. by right.
  - apply bind_Return in Hrun as (picked & s5 & e9 & e10 & Hpick & Hrun & ->).
    apply ret_Return in Hrun as ([= _ _ <-] & -> & ->). rewrite app_nil_r.
    pose proof (sort_select_pick_Return _ _ _ _ _ _ Hpick) as (_ & _ & Hm & Hh).
    split; [|split; [done|]; split; [done|]; by left].
    revert Hpick. unfold sort_select_pick, sort_servers, select_nearest_servers,
      pick_server_from_set, bind.
    destruct (mongo_pick_server_from_set _ _ _ _ _) as [picked' w]. by intros [= _ _ <-].
Qed.


(** ** The manager's list stays well formed *)

Lemma safe_bind {A B} U L (m : M A) (k : A -> M B) s (Q : A -> Prop) (Q' : B -> Prop) :
  safe U L m s Q ->
  (forall a s1, well_kept U L s1 -> Q a -> safe U L (k a) s1 Q') ->
  safe U L (bind m k) s Q'.
Proof.
  unfold safe, bind. destruct (m s) as [a s1 e1| |]; [|done..].
  intros [Hk HQ] Hnext. specialize (Hnext a s1 Hk HQ).
  by destruct (k a s1).
Qed.

Lemma safe_total {A} U L (m : M A) s (Q : A -> Prop) :
  (exists a s' evs, m s = Return a s' evs /\ well_kept U L s' /\ Q a) -> safe U L m s Q.
Proof. intros (a & s' & evs & Hrun & Hk & HQ). unfold safe. by rewrite Hrun. Qed.

Lemma safe_mono {A} U L (m : M A) s (Q Q' : A -> Prop) :
  (forall a, Q a -> Q' a) -> safe U L m s Q -> safe U L m s Q'.
Proof. unfold safe. destruct (m s); [|done..]. intros HQ [? ?]. split; [done|by apply HQ]. Qed.

Lemma well_kept_same U L (s s' : state) :
  heap s' = heap s -> manager s' = manager s -> well_kept U L s -> well_kept U L s'.
Proof.
  intros Hh Hm ([Hnd Hlive] & Hu & Hl). unfold well_kept, registry_ok, unique_hashes, tidy in *.
  rewrite Hh, Hm. done.
Qed.

Lemma find_item_not_elem l h : find_item l h = None -> h ∉ item_hash <$> l.
Proof.
  intros Hf%find_item_None. unfold hashes in Hf. by rewrite elem_of_list_to_set in Hf.
Qed.

(** The item [item] has left the list and its connection the heap. *)
Lemma well_kept_remove U L (s s' : state) before item after :
  well_kept U L s ->
  connections (manager s) = before ++ item :: after ->
  connections (manager s') = before ++ after ->
  heap s' = delete (connection item) (heap s) ->
  well_kept U L s'.
Proof.
  intros ([Hnd Hlive] & Hu & Hl) Hl1 Hl' Hheap.
  unfold well_kept, registry_ok, unique_hashes, tidy in *.
  rewrite Hl1 in Hnd, Hlive, Hu, Hl. rewrite Hl', Hheap.
  assert (Hsub : before ++ after `sublist_of` before ++ item :: after).
  { apply sublist_app; [done|]. by apply sublist_cons. }
  split; [split|split].
  - eapply sublist_NoDup; [exact Hnd|]. by apply fmap_sublist.
  - intros x Hx. destruct (Hlive x) as (c & Hc & Hh).
    { eapply elem_of_sublist; [exact Hx|exact Hsub]. }
    exists c. split; [|done]. rewrite lookup_delete_ne; [done|].
    intros Heq. unfold pointers in Hnd. rewrite fmap_app, fmap_cons in Hnd.
    apply NoDup_app in Hnd as (_ & Hdisj & Hnd). apply NoDup_cons in Hnd as [Hnotin _].
    apply elem_of_app in Hx as [Hx|Hx].
    + apply (Hdisj (connection x)); [by apply list_elem_of_fmap_2|]. rewrite Heq. by left.
    + apply Hnotin. rewrite Heq. by apply list_elem_of_fmap_2.
  - intros HU. eapply sublist_NoDup; [exact (Hu HU)|]. by apply fmap_sublist.
  - intros HL p Hp. destruct (decide (p = connection item)) as [->|Hne].
    { rewrite lookup_delete_eq in Hp. by destruct Hp. }
    rewrite lookup_delete_ne in Hp by done. specialize (Hl HL p Hp).
    unfold pointers in *. rewrite fmap_app, fmap_cons in Hl. rewrite fmap_app.
    set_solver.
Qed.

(** A wire operation has changed what connections.c keeps in the
    connection [con]. *)
Lemma well_kept_payload U L (s : state) con (c : mongo_connection data) d w :
  well_kept U L s ->
  heap s !! con = Some c ->
  well_kept U L {| wire := w; heap := <[con := with_payload c d]> (heap s);
                   manager := manager s |}.
Proof.
  intros ([Hnd Hlive] & Hu & Hl) Hc. split; [split|split]; cbn; [done| |done|].
  - intros item Hitem. destruct (Hlive item Hitem) as (c' & Hc' & Hh).
    destruct (decide (connection item = con)) as [Heq|Hne].
    + rewrite Heq in *. rewrite lookup_insert_eq. eexists. split; [done|]. cbn. congruence.
    + rewrite lookup_insert_ne by done. eauto.
  - intros HL p Hp. cbn in Hp. apply (Hl HL).
    destruct (decide (p = con)) as [->|Hne]; [by rewrite Hc|].
    by rewrite lookup_insert_ne in Hp.
Qed.

(** Single-connection acquire from a well-kept state returns and leaves
    a well-kept state; unless [DONT_CONNECT] is set, [NULL] comes with an
    error text. *)
Lemma single_kept U L server connection_flags s :
  well_kept U L s ->
  exists r s' evs,
    mongo_get_connection_single server connection_flags s = Return r s' evs /\
    well_kept U L s' /\
    (has_flag connection_flags MONGO_CON_FLAG_DONT_CONNECT = false ->
     r.1 = None -> is_Some r.2).
Proof.
  intros Hk. pose proof Hk as (Hok & Hu & Hl).
  destruct (has_flag connection_flags MONGO_CON_FLAG_DONT_CONNECT) eqn:Hflag.
  { destruct (single_dont_connect_run server connection_flags s Hflag) as (evs & Hrun & _).
    eexists _, s, evs. split; [exact Hrun|]. split; [done|]. done. }
  destruct (find_item (connections (manager s)) (mongo_server_create_hash server))
    as [item|] eqn:Hfind.
  - destruct (registry_ok_live s item Hok (find_item_elem _ _ _ Hfind)) as (c & Hc & Hh).
    destruct (single_registered_run server connection_flags s item c Hflag Hfind Hc Hh)
      as (r & s' & evs & Hrun & _ & Hcases).
    exists r, s', evs. split; [exact Hrun|].
    destruct (mongo_connection_ping (manager s) (payload c) (wire s)) as [[[err|[]] d] w] eqn:Hping.
    + destruct Hcases as (-> & (before & after & Hl1 & _ & Hl') & Hheap & _).
      split; [by eapply well_kept_remove|]. cbn. eauto.
    + destruct Hcases as (-> & -> & _). split; [|done]. by apply well_kept_payload.
  - destruct (single_absent_ok server connection_flags s Hok Hfind)
      as (r & s' & evs & Hrun & Hok' & _).
    destruct (single_connects server connection_flags s Hfind Hflag)
      as (r' & s1 & e1 & Hrun' & Hcases).
    rewrite Hrun in Hrun'. injection Hrun' as <- <- <-.
    exists r, s', evs. split; [exact Hrun|].
    destruct Hcases as [(con & c & -> & _ & _ & _ & _ & Hfresh & Hheap & _ & Hm)
                       |(k & failed & err & _ & -> & _ & _ & Hheap & Hm)].
    + split; [|done]. split; [exact Hok'|]. unfold unique_hashes, tidy. rewrite Hm, Hheap. cbn.
      split.
      * intros HU. rewrite fmap_app. apply NoDup_app. split; [by apply Hu|].
        split; [|apply NoDup_singleton].
        intros h Hin Hin'. apply list_elem_of_singleton in Hin' as ->.
        by apply (find_item_not_elem _ _ Hfind).
      * intros HL p Hp. rewrite pointers_app. cbn.
        destruct (decide (p = con)) as [->|Hne]; [set_solver|].
        rewrite lookup_insert_ne in Hp by done. specialize (Hl HL p Hp). set_solver.
    + split; [|cbn; eauto]. split; [exact Hok'|]. unfold unique_hashes, tidy.
      rewrite Hm, Hheap. by split.
Qed.

Lemma deregister_kept U L s h item :
  well_kept U L s ->
  find_item (connections (manager s)) h = Some item ->
  exists r s' evs,
    mongo_manager_connection_deregister (connection item) s = Return r s' evs /\
    well_kept U L s'.
Proof.
  intros Hk Hfind. pose proof Hk as (Hok & _ & _).
  destruct (registry_ok_live s item Hok (find_item_elem _ _ _ Hfind)) as (c & Hc & Hh).
  destruct (find_item_split _ _ _ Hfind) as (before & after & Hl & Hb & Hitem).
  rewrite Hitem in Hh.
  rewrite (deregister_run (connection item) c h s Hc Hh) by (rewrite Hl; by destruct before).
  rewrite Hl, (unlink_middle _ _ _ _ Hb Hitem).
  eexists _, _, _. split; [reflexivity|]. by eapply well_kept_remove.
Qed.

Lemma discover_host_safe U L i servers seed found_host s :
  well_kept U L s ->
  server servers !! i = Some seed ->
  is_Some (split_colon found_host) ->
  safe U L (discover_host i servers found_host) s (extends servers).
Proof.
  intros Hk Hseed [[name number] Hsplit].
  set (tmp_def := {| host := name; port := atoi number; db := db seed;
                     username := username seed; password := password seed |}).
  assert (Hdef : tmp_def_of seed found_host = Some tmp_def)
    by (unfold tmp_def_of; by rewrite Hsplit).
  unfold safe. rewrite (discover_host_run _ _ _ _ _ _ Hseed Hdef).
  destruct (find_item _ _) as [item|]; [done|].
  destruct (single_kept U L tmp_def MONGO_CON_FLAG_WRITE s Hk)
    as ([[con|] err] & s' & evs & -> & Hk' & _).
  - split; [done|apply extends_push].
  - done.
Qed.

Lemma discover_hosts_safe U L i seed hosts : forall servers s,
  well_kept U L s ->
  server servers !! i = Some seed ->
  (forall found_host, found_host ∈ hosts -> is_Some (split_colon found_host)) ->
  safe U L (discover_hosts i servers hosts) s (extends servers).
Proof.
  induction hosts as [|h hosts IH]; intros servers s Hk Hseed Hcolon.
  { by apply safe_total; exists servers, s, []. }
  cbn [discover_hosts].
  eapply safe_bind; [apply (discover_host_safe U L i servers seed h s Hk Hseed); set_solver|].
  intros servers1 s1 Hk1 Hext1. eapply safe_mono; [|apply IH]; [|done| |].
  - intros servers2 Hext2. by etrans.
  - destruct Hext1 as [Hp _]. by eapply prefix_lookup_Some.
  - intros fh Hfh. apply Hcolon. set_solver.
Qed.

Lemma safe_log {A} U L level format args (k : M A) s (Q : A -> Prop) :
  safe U L k s Q -> safe U L (mongo_manager_log MLOG_CON level format args ;; k) s Q.
Proof.
  unfold safe, bind. cbn [mongo_manager_log emit]. by destruct (k s).
Qed.

Lemma safe_ret {A} U L (a : A) s (Q : A -> Prop) : well_kept U L s -> Q a -> safe U L (ret a) s Q.
Proof. intros Hk HQ. by apply safe_total; exists a, s, []. Qed.

Lemma discover_switch_safe U L i servers seed item o s :
  well_kept U L s ->
  find_item (connections (manager s)) (mongo_server_create_hash seed) = Some item ->
  server servers !! i = Some seed ->
  (forall found_host, found_host ∈ found_hosts o -> is_Some (split_colon found_host)) ->
  safe U L (discover_switch i servers seed (connection item) o) s (extends servers).
Proof.
  intros Hk Hfind Hseed Hcolon. unfold discover_switch.
  assert (Hdereg : safe U L (mongo_manager_connection_deregister (connection item)) s
                     (fun _ => True)).
  { destruct (deregister_kept U L s _ item Hk Hfind) as (r & s' & evs & Hrun & Hk').
    apply safe_total. by exists r, s', evs. }
  assert (Hhosts : forall s1, well_kept U L s1 ->
    safe U L (mongo_manager_log MLOG_CON MLOG_INFO "discover_topology: ismaster worked" [] ;;
            discover_hosts i servers (found_hosts o)) s1 (extends servers)).
  { intros s1 Hk1. apply safe_log. by eapply discover_hosts_safe. }
  destruct (res o =? 0).
  { apply safe_log. eapply safe_bind; [exact Hdereg|]. intros _ s1 Hk1 _. by apply safe_ret. }
  destruct (res o =? 3).
  { apply safe_log. eapply safe_bind; [exact Hdereg|]. intros _ s1 Hk1 _. by apply Hhosts. }
  destruct (res o =? 1); [by apply Hhosts|].
  destruct (res o =? 2); [apply safe_log|]; by apply safe_ret.
Qed.

Lemma discover_iteration_safe U L i servers repl s :
  well_kept U L s ->
  (i < count servers)%nat ->
  reported_hosts_have_colon ->
  safe U L (discover_iteration i servers repl) s (fun r => extends servers r.1).
Proof.
  intros Hk Hi Hcolon. pose proof Hk as (Hok & Hu & Hl).
  destruct (lookup_lt_is_Some_2 (server servers) i Hi) as [seed Hseed].
  destruct (find_item (connections (manager s)) (mongo_server_create_hash seed))
    as [item|] eqn:Hfind.
  - destruct (registry_ok_live s item Hok (find_item_elem _ _ _ Hfind)) as (c & Hc & _).
    destruct (mongo_connection_ismaster (manager s) (payload c) repl seed (wire s))
      as [[o d] w] eqn:Hism.
    unfold safe. rewrite (discover_iteration_probe _ _ _ _ _ _ _ _ _ _ Hseed Hfind Hc Hism).
    set (s1 := {| wire := w; heap := <[connection item:=with_payload c d]> (heap s);
                  manager := manager s |}) in *.
    assert (Hk1 : well_kept U L s1) by (by apply well_kept_payload).
    assert (Hhosts : forall found_host,
              found_host ∈ found_hosts o -> is_Some (split_colon found_host)).
    { intros found_host Hh.
      apply (Hcolon (manager s) (payload c) repl seed (wire s)). by rewrite Hism. }
    pose proof (discover_switch_safe U L i servers seed item o s1 Hk1 Hfind Hseed Hhosts) as Hsw.
    unfold safe in Hsw. by destruct (discover_switch _ _ _ _ _ _).
  - apply safe_total. eexists (servers, repl), s, _. split; [|done].
    unfold discover_iteration, server_at. rewrite Hseed.
    unfold bind at 1. cbn [ret]. unfold bind at 1. cbn [mongo_manager_log emit].
    rewrite (bind_run _ _ _ _ _ _ (find_by_hash_absent _ _ Hfind)). reflexivity.
Qed.

Lemma discover_loop_safe U L fuel : forall i servers repl s,
  well_kept U L s ->
  reported_hosts_have_colon ->
  safe U L (discover_loop fuel i servers repl) s (extends servers).
Proof.
  induction fuel as [|fuel IH]; intros i servers repl s Hk Hcolon; [done|].
  cbn [discover_loop]. case_bool_decide as Hi; [|by apply safe_ret].
  eapply safe_bind; [by apply discover_iteration_safe|].
  intros r s1 Hk1 Hext1. cbv beta in Hext1. eapply safe_mono; [|by apply IH].
  intros servers2 Hext2. by etrans.
Qed.

Lemma replicaset_seeds_kept U L seeds connection_flags : forall found msg s,
  well_kept U L s ->
  exists r s' evs,
    replicaset_seeds seeds connection_flags found msg s = Return r s' evs /\
    well_kept U L s' /\
    (r = true -> found = true \/ seeds <> []).
Proof.
  induction seeds as [|seed rest IH]; intros found msg s Hk.
  { exists found, s, []. split; [done|]. split; [done|]. by left. }
  cbn [replicaset_seeds].
  destruct (single_kept U L seed connection_flags s Hk) as ([tmp err] & s1 & e1 & Hrun1 & Hk1 & _).
  rewrite (bind_run _ _ _ _ _ _ Hrun1). cbn [fst snd].
  destruct tmp as [con|].
  - destruct (IH true (match err with Some e => Some e | None => msg end) s1 Hk1)
      as (r & s2 & e2 & -> & Hk2 & _).
    eexists _, _, _. split; [reflexivity|]. split; [done|]. by right.
  - destruct (IH found (match err with Some e => Some e | None => msg end) s1 Hk1)
      as (r & s2 & e2 & Hrun2 & Hk2 & _).
    destruct (negb _).
    + unfold bind at 1. cbn [mongo_manager_log emit]. rewrite Hrun2.
      eexists _, _, _. split; [reflexivity|]. split; [done|]. by right.
    + unfold bind at 1. cbn [ret]. rewrite Hrun2.
      eexists _, _, _. split; [reflexivity|]. split; [done|]. by right.
Qed.

Lemma multiple_seeds_kept U L seeds connection_flags : forall found msg messages s,
  well_kept U L s ->
  exists r s' evs,
    multiple_seeds seeds connection_flags found msg messages s = Return r s' evs /\
    well_kept U L s' /\
    (r.1 = true -> found = true \/ seeds <> []).
Proof.
  induction seeds as [|seed rest IH]; intros found msg messages s Hk.
  { exists (found, messages), s, []. split; [done|]. split; [done|]. by left. }
  cbn [multiple_seeds].
  destruct (single_kept U L seed connection_flags s Hk)
    as ([tmp err] & s1 & e1 & Hrun1 & Hk1 & Herr).
  rewrite (bind_run _ _ _ _ _ _ Hrun1). cbn [fst snd] in *.
  destruct tmp as [con|].
  - destruct (IH true (match err with Some e => Some e | None => msg end) messages s1 Hk1)
      as (r & s2 & e2 & -> & Hk2 & _).
    eexists _, _, _. split; [reflexivity|]. split; [done|]. by right.
  - destruct (has_flag connection_flags MONGO_CON_FLAG_DONT_CONNECT) eqn:Hflag; cbn [negb].
    + destruct (IH found (match err with Some e => Some e | None => msg end) messages s1 Hk1)
        as (r & s2 & e2 & -> & Hk2 & _).
      eexists _, _, _. split; [reflexivity|]. split; [done|]. by right.
    + destruct (Herr eq_refl eq_refl) as [text ->].
      destruct (IH found (Some text) (add_failure messages seed text) s1 Hk1)
        as (r & s2 & e2 & Hrun2 & Hk2 & _).
      unfold bind at 1. cbn [mongo_manager_log emit]. rewrite Hrun2.
      eexists _, _, _. split; [reflexivity|]. split; [done|]. by right.
Qed.

Lemma selection_kept U L servers (col : option (list ptr)) messages s :
  well_kept U L s ->
  exists r s' evs,
    (if is_empty col then (ret (servers, None, Some messages) : M acquired)
     else do con <- sort_select_pick servers col; ret (servers, con, None)) s =
      Return r s' evs /\
    well_kept U L s'.
Proof.
  intros Hk. destruct (is_empty col); [by exists (servers, None, Some messages), s, []|].
  unfold sort_select_pick, sort_servers, select_nearest_servers, pick_server_from_set, bind.
  destruct (mongo_pick_server_from_set _ _ _ _ _) as [picked w]. cbn [ret].
  eexists _, _, _. split; [reflexivity|]. by eapply well_kept_same.
Qed.

Lemma multiple_kept U L servers connection_flags s :
  well_kept U L s ->
  (server servers = [] -> has_flag connection_flags MONGO_CON_FLAG_DONT_CONNECT = true) ->
  exists r s' evs,
    mongo_get_connection_multiple servers connection_flags s = Return r s' evs /\
    well_kept U L s'.
Proof.
  intros Hk Hseeds. unfold mongo_get_connection_multiple.
  destruct (multiple_seeds_kept U L (server servers) connection_flags false None EmptyString s Hk)
    as ([found messages] & s1 & e1 & Hrun1 & Hk1 & Hfound).
  rewrite (bind_run _ _ _ _ _ _ Hrun1). cbn [fst] in Hfound.
  destruct (negb found && _) eqn:Hearly; [by eexists _, _, _|].
  assert (Hfirst : exists first, server servers !! 0%nat = Some first).
  { destruct (server servers) as [|first rest]; [|by exists first].
    rewrite (Hseeds eq_refl), andb_true_r in Hearly. apply negb_false_iff in Hearly.
    by destruct (Hfound Hearly). }
  destruct Hfirst as [first Hfirst].
  unfold create_auth_hash, server_at. rewrite Hfirst.
  unfold bind at 1. unfold bind at 1. cbn [ret]. unfold bind at 1.
  cbn [find_candidate_servers].
  destruct (selection_kept U L servers
              (mongo_find_candidate_servers (manager s1) (heap s1)
                 (set_type (mongo_read_preference_copy (read_pref servers)) MONGO_RP_NEAREST)
                 (auth_hash_of first))
              (if negb (String.length messages =? 0)%nat then messages else no_candidates)
              s1 Hk1) as (r & s2 & e2 & Hrun2 & Hk2).
  destruct (is_empty _).
  - destruct (negb (String.length messages =? 0)%nat); rewrite Hrun2; by eexists _, _, _.
  - rewrite Hrun2. by eexists _, _, _.
Qed.

Lemma replicaset_safe U L fuel servers connection_flags s :
  well_kept U L s ->
  (server servers = [] -> has_flag connection_flags MONGO_CON_FLAG_DONT_CONNECT = true) ->
  reported_hosts_have_colon ->
  safe U L (mongo_get_read_write_connection_replicaset fuel servers connection_flags) s
    (fun _ => True).
Proof.
  intros Hk Hseeds Hcolon. unfold mongo_get_read_write_connection_replicaset.
  destruct (replicaset_seeds_kept U L (server servers) connection_flags false None s Hk)
    as (found & s1 & e1 & Hrun1 & Hk1 & Hfound).
  unfold safe at 1. rewrite (bind_run _ _ _ _ _ _ Hrun1).
  destruct (negb found && _) eqn:Hearly; [done|].
  assert (Hfirst : exists first, server servers !! 0%nat = Some first).
  { destruct (server servers) as [|first rest]; [|by exists first].
    rewrite (Hseeds eq_refl), andb_true_r in Hearly. apply negb_false_iff in Hearly.
    by destruct (Hfound Hearly). }
  destruct Hfirst as [first Hfirst].
  pose proof (discover_loop_safe U L fuel 0 servers (repl_set_name servers) s1 Hk1 Hcolon) as Hd.
  unfold safe in Hd. unfold mongo_discover_topology. unfold bind at 1.
  destruct (discover_loop _ _ _ _ _) as [servers1 s2 e2| |]; [|done..].
  destruct Hd as [Hk2 Hext].
  pose proof (extends_first _ _ _ Hext Hfirst) as Hfirst1.
  unfold create_auth_hash, server_at. rewrite Hfirst1.
  unfold bind at 1. unfold bind at 1. cbn [ret]. unfold bind at 1.
  set (rp := if has_flag connection_flags MONGO_CON_FLAG_WRITE
             then set_type (mongo_read_preference_copy (read_pref servers1)) MONGO_RP_PRIMARY
             else read_pref servers1).
  replace (if has_flag connection_flags MONGO_CON_FLAG_WRITE
           then find_candidate_servers
                  (set_type (mongo_read_preference_copy (read_pref servers1)) MONGO_RP_PRIMARY)
                  (auth_hash_of first)
           else find_candidate_servers (read_pref servers1) (auth_hash_of first))
    with (find_candidate_servers rp (auth_hash_of first))
    by (unfold rp; by destruct (has_flag connection_flags MONGO_CON_FLAG_WRITE)).
  cbn [find_candidate_servers].
  destruct (selection_kept U L servers1
              (mongo_find_candidate_servers (manager s2) (heap s2) rp (auth_hash_of first))
              no_candidates s2 Hk2) as (r & s3 & e3 & Hrun3 & Hk3).
  destruct (is_empty _); by rewrite Hrun3.
Qed.

Lemma acquisition_safe U L fuel servers connection_flags s :
  well_kept U L s ->
  (server servers = [] -> has_flag connection_flags MONGO_CON_FLAG_DONT_CONNECT = true) ->
  reported_hosts_have_colon ->
  match mongo_get_read_write_connection fuel servers connection_flags s with
  | Return _ s' _ => well_kept U L s'
  | Crash _ => False
  | Timeout => con_type servers = MONGO_CON_TYPE_REPLSET
  end.
Proof.
  intros Hk Hseeds Hcolon. unfold mongo_get_read_write_connection.
  destruct (con_type servers) as [| | |n]; unfold bind at 1; cbn [mongo_manager_log emit].
  - by destruct (multiple_kept U L servers connection_flags s Hk Hseeds)
      as (r & s' & evs & -> & Hk').
  - pose proof (replicaset_safe U L fuel servers connection_flags s Hk Hseeds Hcolon) as Hsafe.
    unfold safe in Hsafe.
    destruct (mongo_get_read_write_connection_replicaset _ _ _ _); [|done..].
    by destruct Hsafe.
  - by destruct (multiple_kept U L servers connection_flags s Hk Hseeds)
      as (r & s' & evs & -> & Hk').
  - done.
Qed.

(** X18. An acquisition from a state whose manager's list is well
    formed dereferences no connection that is not live and reads no
    server definition that is not there, provided that the seed list is
    not empty (or [DONT_CONNECT] is set) and that every reported host has
    a colon. When it returns, the manager's list is well formed again;
    if no two of its items had the same hash before, no two have
    afterwards; and if every live connection was held by the list
    before, so it is afterwards. Only the replica-set strategy can run
    out of fuel. *)
Theorem acquisition_keeps_registry fuel servers connection_flags s :
  registry_ok s ->
  (server servers = [] -> has_flag connection_flags MONGO_CON_FLAG_DONT_CONNECT = true) ->
  reported_hosts_have_colon ->
  match mongo_get_read_write_connection fuel servers connection_flags s with
  | Return _ s' _ =>
      registry_ok s' /\ (unique_hashes s -> unique_hashes s') /\ (tidy s -> tidy s')
  | Crash _ => False
  | Timeout => con_type servers = MONGO_CON_TYPE_REPLSET
  end.
Proof.
  intros Hok Hseeds Hcolon.
  assert (Hk : well_kept (unique_hashes s) (tidy s) s) by done.
  pose proof (acquisition_safe _ _ fuel servers connection_flags s Hk Hseeds Hcolon) as Hsafe.
  destruct (mongo_get_read_write_connection _ _ _ _) as [r s' evs| |]; [|done..].
  exact Hsafe.
Qed.

(** ** Teardown: when [mongo_deinit] returns *)

Lemma destroy_manager_item_Return next : forall item s s' evs,
  destroy_manager_item item next s = Return tt s' evs ->
  NoDup (pointers (item :: next)) /\
  forall p, p ∈ pointers (item :: next) -> is_Some (heap s !! p).
Proof.
  induction next as [|n next IH]; intros item s s' evs Hrun.
  - cbn [destroy_manager_item] in Hrun.
    apply bind_Return in Hrun as ([] & s1 & e1 & e2 & Hret & Hrun & _).
    apply ret_Return in Hret as (_ & -> & _).
    apply bind_Return in Hrun as ([] & s2 & e3 & e4 & Hdes & _ & _).
    unfold connection_destroy in Hdes.
    apply bind_Return in Hdes as (c & s3 & e5 & e6 & Hderef & _ & _).
    unfold deref in Hderef. destruct (heap s !! connection item) as [c'|] eqn:Hc; [|done].
    split; [apply NoDup_singleton|]. intros p Hp. apply list_elem_of_singleton in Hp as ->.
    by rewrite Hc.
  - change (destroy_manager_item item (n :: next))
      with (destroy_manager_item n next ;; connection_destroy (connection item) ;;
            free_manager_item item) in Hrun.
    apply bind_Return in Hrun as ([] & s1 & e1 & e2 & Htail & Hrun & _).
    destruct (IH _ _ _ _ Htail) as [Hnd Hlive].
    destruct (destroy_manager_item_run next n s Hnd Hlive) as (s1' & e1' & Hrun' & _ & _ & Hheap).
    rewrite Htail in Hrun'. injection Hrun' as <- _.
    apply bind_Return in Hrun as ([] & s2 & e3 & e4 & Hdes & _ & _).
    unfold connection_destroy in Hdes.
    apply bind_Return in Hdes as (c & s3 & e5 & e6 & Hderef & _ & _).
    unfold deref in Hderef. destruct (heap s1 !! connection item) as [c'|] eqn:Hc; [|done].
    rewrite Hheap in Hc. case_bool_decide as Hin; [done|].
    split.
    + rewrite (pointers_cons item). by apply NoDup_cons.
    + intros p Hp. rewrite (pointers_cons item) in Hp. apply elem_of_cons in Hp as [->|Hp].
      * by rewrite Hc.
      * by apply Hlive.
Qed.

(** X19. [mongo_deinit] runs to its end exactly when every item of the
    manager's list points to a live connection and no connection is
    pointed to twice. With a connection registered twice, or one that
    is no longer live, the teardown hands [mongo_connection_destroy] a
    connection that is not live. *)
Theorem deinit_returns_iff s :
  (exists s' evs, mongo_deinit s = Return tt s' evs) <->
  NoDup (pointers (connections (manager s))) /\
  forall p, p ∈ pointers (connections (manager s)) -> is_Some (heap s !! p).
Proof.
  split.
  - intros (s' & evs & Hrun). unfold mongo_deinit, get_manager in Hrun.
    unfold bind at 1 in Hrun.
    destruct (connections (manager s)) as [|item next].
    { split; [apply NoDup_nil_2|]. intros p Hp. by apply elem_of_nil in Hp. }
    unfold bind at 1 in Hrun.
    destruct (destroy_manager_item item next s) as [[] s1 e1| |] eqn:Hd; [|done..].
    by eapply destroy_manager_item_Return.
  - intros [Hnd Hlive]. unfold mongo_deinit, get_manager. unfold bind at 1.
    destruct (connections (manager s)) as [|item next].
    { by eexists _, _. }
    destruct (destroy_manager_item_run next item s Hnd Hlive) as (s1 & e1 & Hrun & _).
    rewrite (bind_run _ _ _ _ _ _ Hrun). by eexists _, _.
Qed.

(** ** From [mongo_init] to [mongo_deinit] *)

Lemma acquisitions_safe U L calls : forall s,
  well_kept U L s ->
  reported_hosts_have_colon ->
  Forall (fun call : nat * mongo_servers * Z =>
            server call.1.2 = [] ->
            has_flag call.2 MONGO_CON_FLAG_DONT_CONNECT = true) calls ->
  safe U L (acquisitions calls) s (fun _ => True).
Proof.
  induction calls as [|[[fuel servers] connection_flags] rest IH]; intros s Hk Hcolon Hcalls.
  { by apply safe_ret. }
  apply Forall_cons in Hcalls as [Hcall Hrest]. cbn [acquisitions].
  pose proof (acquisition_safe U L fuel servers connection_flags s Hk Hcall Hcolon) as Hsafe.
  unfold safe, bind.
  destruct (mongo_get_read_write_connection _ _ _ _) as [r s1 e1| |]; [|done..].
  specialize (IH s1 Hsafe Hcolon Hrest). unfold safe in IH.
  by destruct (acquisitions rest s1).
Qed.

Lemma initial_kept U L w : well_kept U L (initial w).
Proof.
  split; [split|split]; cbn.
  - apply NoDup_nil_2.
  - intros item Hitem. by apply elem_of_nil in Hitem.
  - intros _. apply NoDup_nil_2.
  - intros _ p [c Hc]. cbn in Hc. by rewrite lookup_empty in Hc.
Qed.

(** X20. From [mongo_init] to [mongo_deinit]: a client that starts with
    a fresh manager, performs any number of acquisitions (each with a
    seed list that is not empty, or with [DONT_CONNECT]; every reported
    host having a colon) and then tears the manager down never hands a
    connection that is not live to connections.c, and at the end no
    connection is live: all that were created have been destroyed. A
    replica-set acquisition that runs out of fuel cuts the session. *)
Theorem session_ends_clean calls w :
  reported_hosts_have_colon ->
  Forall (fun call : nat * mongo_servers * Z =>
            server call.1.2 = [] ->
            has_flag call.2 MONGO_CON_FLAG_DONT_CONNECT = true) calls ->
  match (acquisitions calls ;; mongo_deinit) (initial w) with
  | Return _ s' _ => connections (manager s') = [] /\ heap s' = ∅
  | Crash _ => False
  | Timeout => True
  end.
Proof.
  intros Hcolon Hcalls.
  pose proof (acquisitions_safe True True calls (initial w) (initial_kept _ _ w) Hcolon Hcalls)
    as Hsafe.
  unfold safe in Hsafe. unfold bind at 1.
  destruct (acquisitions calls (initial w)) as [[] s1 e1| |]; [|done..].
  destruct Hsafe as [([Hnd Hlive] & _ & Htidy) _]. specialize (Htidy I).
  unfold mongo_deinit, get_manager. unfold bind at 1.
  destruct (connections (manager s1)) as [|item next] eqn:Hl.
  - cbn. split; [done|]. apply map_eq. intros p. rewrite lookup_empty.
    destruct (heap s1 !! p) as [c|] eqn:Hp; [|done].
    specialize (Htidy p (mk_is_Some _ _ Hp)). rewrite Hl in Htidy. by apply elem_of_nil in Htidy.
  - destruct (destroy_manager_item_run next item s1) as (s2 & e2 & Hrun & _ & _ & Hheap).
    { exact Hnd. }
    { intros p Hp. apply list_elem_of_fmap in Hp as (x & -> & Hx).
      destruct (Hlive x Hx) as (c & Hc & _). by rewrite Hc. }
    rewrite (bind_run _ _ _ _ _ _ Hrun). cbn. split; [done|].
    apply map_eq. intros p. rewrite lookup_empty, Hheap.
    case_bool_decide as Hin; [done|].
    destruct (heap s1 !! p) as [c|] eqn:Hp; [|done].
    specialize (Htidy p (mk_is_Some _ _ Hp)). rewrite Hl in Htidy. done.
Qed.

End Properties.

(** * The simulated deployment at work *)

Section Scenarios.

Import Sim.

(** Solves [run = Return ...] for a closed [run], filling in what the
    right-hand side leaves open. *)
Ltac run_eq :=
  lazymatch goal with
  | |- ?lhs = _ =>
      let v := eval vm_compute in lhs in
      transitivity v; [vm_compute; reflexivity | reflexivity]
  end.

(** Adds [Hrun : run = v], [v] being the value of the closed [run]. *)
Ltac computed run :=
  let v := eval vm_compute in run in
  assert (run = v) as Hrun by (vm_compute; reflexivity).

(** Discovery through a seed that is an alias: the alias is removed, the
    three members are registered and the server list has four entries. *)
Example scenario_alias_seed :
  match @mongo_get_read_write_connection (collaborators rs0) 10
          (seeds [anonymous "a" 1] MONGO_CON_TYPE_REPLSET) 0 (fresh_state rs0 100) with
  | Return (servers, con, err) s evs =>
      (count servers, item_hash <$> connections (manager s), con, err)
  | _ => (0%nat, [], None, None)
  end = (4%nat, ["b:1;X"; "c:1;X"; "d:1;X"], Some 1%positive, None).
Proof. vm_compute. reflexivity. Qed.

Lemma sim_selection_sound dep : @selection_sound (collaborators dep).
Proof.
  repeat split; cbn.
  - intros m h rp auth_hash col c [= <-]. done.
  - done.
  - done.
  - intros m h col rp w c w' [= Hhead _]. by eapply head_Some_elem_of.
Qed.

(** [mongo_deinit] on two registered connections: the second one is
    destroyed first. *)
Lemma deinit_not_in_registration_order :
  exists s' evs,
    @mongo_deinit (collaborators rs) (two_connections rs) = Return tt s' evs /\
    pointers (connections (manager (two_connections rs))) = [1; 2]%positive /\
    destroyed evs = [2; 1]%positive /\
    destroyed evs <> pointers (connections (manager (two_connections rs))).
Proof.
  eexists _, _. split; [run_eq|]. split; [run_eq|]. split; [run_eq|].
  vm_compute. discriminate.
Qed.

Lemma two_connections_ok dep :
  NoDup (pointers (connections (manager (two_connections dep)))) /\
  forall p, p ∈ pointers (connections (manager (two_connections dep))) ->
            is_Some (heap (two_connections dep) !! p).
Proof.
  split.
  - apply (bool_decide_unpack _). vm_compute. exact I.
  - intros p Hp. apply list_elem_of_In in Hp. cbn in Hp.
    destruct Hp as [<-|[<-|[]]]; vm_compute; eauto.
Qed.

Lemma deinit_destroys_in_reverse_order_witness :
  exists s' evs,
    @mongo_deinit (collaborators rs) (two_connections rs) = Return tt s' evs /\
    destroyed evs = rev (pointers (connections (manager (two_connections rs)))) /\
    connections (manager s') = [] /\
    forall p, p ∈ pointers (connections (manager (two_connections rs))) -> heap s' !! p = None.
Proof.
  apply (deinit_destroys_in_reverse_order (two_connections rs)); apply two_connections_ok.
Defined.

(** A registered connection whose last ping is 100 seconds old, with a
    ping interval of 5 seconds. With [DONT_CONNECT] single-connection
    acquire returns it and pings nothing. Without [DONT_CONNECT], an
    acquisition for the seed [c:1] pings the connection to [c:1] only and
    returns the old connection to [b:1]. *)
Lemma stale_connection_returned_without_ping :
  (exists s' evs c,
     @mongo_get_connection_single (collaborators rs) (anonymous "b" 1)
       (@MONGO_CON_FLAG_DONT_CONNECT (collaborators rs)) (stale rs) =
       Return (Some 1%positive, None) s' evs /\
     pings evs = [] /\
     heap s' !! 1%positive = Some c /\
     ping_interval (manager s') <= wire s' - last_ping (payload c)) /\
  (exists servers' s' evs c,
     @mongo_get_read_write_connection (collaborators rs) 10
       (seeds [anonymous "c" 1] MONGO_CON_TYPE_STANDALONE) 0 (stale rs) =
       Return (servers', Some 1%positive, None) s' evs /\
     pings evs = [(2%positive, true)] /\
     heap s' !! 1%positive = Some c /\
     ping_interval (manager s') <= wire s' - last_ping (payload c)).
Proof.
  split.
  - eexists _, _, _. split; [run_eq|]. split; [run_eq|]. split; [run_eq|].
    vm_compute. discriminate.
  - eexists _, _, _, _. split; [run_eq|]. split; [run_eq|]. split; [run_eq|].
    vm_compute. discriminate.
Qed.

Lemma returned_connection_is_registered_witness :
  @selection_sound (collaborators rs0) /\
  exists servers' con err s' evs,
    @mongo_get_read_write_connection (collaborators rs0) 10
      (seeds [anonymous "a" 1] MONGO_CON_TYPE_REPLSET) 0 (fresh_state rs0 100) =
      Return (servers', Some con, err) s' evs /\
    con ∈ pointers (connections (manager s')).
Proof.
  split; [apply sim_selection_sound|].
  eexists _, _, _, _, _. split; [run_eq|].
  eapply (proj2 (@returned_connection_is_registered (collaborators rs0)
                   (sim_selection_sound rs0))
            10%nat (seeds [anonymous "a" 1] MONGO_CON_TYPE_REPLSET) 0 (fresh_state rs0 100)).
  run_eq.
Defined.

Lemma remove_seed_then_expand_witness :
  res alias_answer = 3 /\
  exists servers' s' evs,
    @discover_switch (collaborators rs0) 0 (seeds [anonymous "a" 1] MONGO_CON_TYPE_REPLSET)
      (anonymous "a" 1) 1%positive alias_answer (one_connection rs0 "a" 100) =
      Return servers' s' evs /\
    server servers' = [anonymous "a" 1; anonymous "b" 1; anonymous "c" 1; anonymous "d" 1] /\
    item_hash <$> connections (manager s') = ["b:1;X"; "c:1;X"; "d:1;X"].
Proof.
  split; [reflexivity|].
  destruct (@remove_seed_then_expand (collaborators rs0) 0
              (seeds [anonymous "a" 1] MONGO_CON_TYPE_REPLSET) (anonymous "a" 1) 1%positive
              alias_answer (one_connection rs0 "a" 100) eq_refl) as (-> & _).
  eexists _, _, _. split; [run_eq|]. split; run_eq.
Defined.

Lemma multiple_no_candidates_error_witness :
  exists servers' con err s' evs call,
    @mongo_get_read_write_connection (collaborators down) 10
      (seeds [anonymous "a" 1; anonymous "b" 2] MONGO_CON_TYPE_STANDALONE) 0
      (fresh_state down 100) = Return (servers', con, err) s' evs /\
    call ∈ candidate_calls evs /\
    is_empty call.2 = true /\
    con = None /\
    err = Some (match seed_failures evs with
                | [] => "No candidate servers found"
                | failures => composite failures
                end).
Proof.
  eexists _, _, _, _, _, (_, _, _). split; [run_eq|].
  split; [apply list_elem_of_here|]. split; [reflexivity|].
  eapply (@multiple_no_candidates_error (collaborators down) 10%nat
            (seeds [anonymous "a" 1; anonymous "b" 2] MONGO_CON_TYPE_STANDALONE) 0
            (fresh_state down 100)).
  - by left.
  - run_eq.
  - apply list_elem_of_here.
  - reflexivity.
Defined.

(** The text of two failed seeds. *)
Example composite_of_two_failures :
  match @mongo_get_read_write_connection (collaborators down) 10
          (seeds [anonymous "a" 1; anonymous "b" 2] MONGO_CON_TYPE_MULTIPLE) 0
          (fresh_state down 100) with
  | Return (_, _, err) _ _ => err
  | _ => None
  end = Some "Failed to connect to: a:1: Connection refused; Failed to connect to: b:2: Connection refused".
Proof. vm_compute. reflexivity. Qed.





Lemma connect_steps_and_failure_witness :
  exists r s' evs,
    @mongo_get_connection_single (collaborators rs) (with_credentials "b" 1) 0
      (fresh_state rs 100) = Return r s' evs /\
    r = (Some 1%positive, None) /\
    steps evs = [(StepCreate, true); (StepGetnonce, true); (StepAuthenticate, true);
                 (StepPing, true)].
Proof.
  destruct (@connect_steps_and_failure (collaborators rs) (with_credentials "b" 1) 0
              (fresh_state rs 100) eq_refl eq_refl) as (r & s' & evs & Hrun & _).
  exists r, s', evs. split; [exact Hrun|].
  assert (Hval : Return r s' evs =
                 ltac:(let v := eval vm_compute in
                         (@mongo_get_connection_single (collaborators rs)
                            (with_credentials "b" 1) 0 (fresh_state rs 100)) in exact v)).
  { rewrite <- Hrun. vm_compute. reflexivity. }
  injection Hval as -> _ ->. split; reflexivity.
Defined.

Lemma replicaset_write_filters_primary_witness :
  exists servers' con err s' evs,
    @mongo_get_read_write_connection (collaborators rs0) 10
      (seeds [anonymous "a" 1] MONGO_CON_TYPE_REPLSET)
      (@MONGO_CON_FLAG_WRITE (collaborators rs0)) (fresh_state rs0 100) =
      Return (servers', con, err) s' evs /\
    read_pref servers' = nearest /\
    (forall call, call ∈ candidate_calls evs ->
       call.1.1 = {| type := MONGO_RP_PRIMARY; tagsets := [] |}) /\
    exists call, candidate_calls evs = [call].
Proof.
  computed (@mongo_get_read_write_connection (collaborators rs0) 10
              (seeds [anonymous "a" 1] MONGO_CON_TYPE_REPLSET)
              (@MONGO_CON_FLAG_WRITE (collaborators rs0)) (fresh_state rs0 100)).
  eexists _, _, _, _, _. split; [exact Hrun|].
  destruct (@replicaset_write_filters_primary (collaborators rs0) 10%nat
              (seeds [anonymous "a" 1] MONGO_CON_TYPE_REPLSET)
              (@MONGO_CON_FLAG_WRITE (collaborators rs0)) (fresh_state rs0 100)
              _ _ _ _ _ eq_refl Hrun) as (Hrp & Hcalls & Hone).
  split; [exact Hrp|]. split; [exact Hcalls|]. by apply Hone.
Defined.

Lemma empty_seed_list_faults_witness :
  @mongo_get_read_write_connection (collaborators rs) 1 (seeds [] MONGO_CON_TYPE_REPLSET) 0
    (fresh_state rs 100) = Crash "servers->server[i] is not a server definition".
Proof.
  apply (@empty_seed_list_faults (collaborators rs) 0%nat (seeds [] MONGO_CON_TYPE_REPLSET) 0
           (fresh_state rs 100)).
  - reflexivity.
  - reflexivity.
  - right. by left.
Defined.

(** Multiple routers, the first seed with credentials and the second
    without: the one call of the filter gets the hash of the first
    seed's user name and password. *)
Lemma auth_hash_from_first_seed_witness :
  exists servers' con err s' evs rp col,
    @mongo_get_read_write_connection (collaborators rs) 10
      (seeds [with_credentials "b" 1; anonymous "c" 1] MONGO_CON_TYPE_MULTIPLE) 0
      (fresh_state rs 100) = Return (servers', con, err) s' evs /\
    candidate_calls evs = [(rp, Some "app:mongo:secret", col)].
Proof.
  computed (@mongo_get_read_write_connection (collaborators rs) 10
              (seeds [with_credentials "b" 1; anonymous "c" 1] MONGO_CON_TYPE_MULTIPLE) 0
              (fresh_state rs 100)).
  destruct (@auth_hash_from_first_seed (collaborators rs) 10%nat
              (seeds [with_credentials "b" 1; anonymous "c" 1] MONGO_CON_TYPE_MULTIPLE) 0
              (fresh_state rs 100) _ _ _ _ _ (with_credentials "b" 1) [anonymous "c" 1]
              eq_refl Hrun) as (_ & Hone & _).
  destruct Hone as (rp & col & Hcalls); [right; by right|by left|].
  eexists _, _, _, _, _, rp, col. split; [exact Hrun|exact Hcalls].
Defined.

(** The same with a replica set, and with the seeds in the other order:
    the filter gets no hash, although the second seed has credentials. *)
Example auth_hash_absent_in_rs :
  match @mongo_get_read_write_connection (collaborators rs) 10
          (seeds [anonymous "c" 1; with_credentials "b" 1] MONGO_CON_TYPE_REPLSET) 0
          (fresh_state rs 100) with
  | Return _ _ evs => (candidate_calls evs).*1.*2
  | _ => []
  end = [None].
Proof. vm_compute. reflexivity. Qed.

(** Replaces a closed call by its value. *)
Ltac evaluate t :=
  let v := eval vm_compute in t in
  replace t with v by (vm_compute; reflexivity).

(** One iteration of discovery in [mirror], on the connection to
    [here:1], which names [there:1] as only member. *)
Ltac mirror_step here there reported repl Hseed :=
  assert (Hfind : find_item (connections (manager (one_connection mirror here 100)))
                    (@mongo_server_create_hash (collaborators mirror) (anonymous here 1))
                  = Some (registered here 1%positive)) by (vm_compute; reflexivity);
  rewrite (bind_run _ _ _ _ _ _ (find_by_hash_present _ _ _ Hfind));
  assert (Hc : heap (one_connection mirror here 100) !! connection (registered here 1%positive)
               = Some (connected here 100)) by (vm_compute; reflexivity);
  assert (Hism : @mongo_connection_ismaster (collaborators mirror)
                   (manager (one_connection mirror here 100)) (payload (connected here 100))
                   repl (anonymous here 1) (wire (one_connection mirror here 100))
                 = ({| res := 3; out_repl_set_name := repl;
                       found_hosts := [reported];
                       out_error_message := None |},
                    payload (connected here 100), 100)) by reflexivity;
  rewrite (bind_run _ _ _ _ _ _
             (@wire_call_run (collaborators mirror) _ _ _ _ _ _ _ _ _ Hc Hism));
  unfold bind at 1;
  rewrite (@discover_switch_remove_seed (collaborators mirror)) by reflexivity;
  match goal with
  | |- context [@mongo_manager_connection_deregister ?C ?c ?st] =>
      evaluate (@mongo_manager_connection_deregister C c st)
  end;
  cbv beta iota;
  unfold discover_switch; cbn [as_ok res found_hosts Z.eqb Pos.eqb];
  unfold bind at 1; cbn [mongo_manager_log emit discover_hosts];
  unfold bind at 1;
  rewrite (@discover_host_run (collaborators mirror) _ _ _ reported (anonymous there 1) _
             Hseed eq_refl);
  match goal with
  | |- context [find_item ?l ?h] => evaluate (find_item l h)
  end;
  match goal with
  | |- context [@mongo_get_connection_single ?C ?d ?f ?st] =>
      evaluate (@mongo_get_connection_single C d f st)
  end;
  cbv beta iota; cbn [ret];
  eexists; f_equal.

Lemma mirror_iteration other pre servers repl :
  server servers = pre ++ [anonymous (node other) 1] ->
  exists evs,
    @discover_iteration (collaborators mirror) (length pre) servers repl (mirror_state other) =
      Return (servers_push servers (anonymous (node (negb other)) 1), repl)
        (mirror_state (negb other)) evs.
Proof.
  intros Hs.
  assert (Hseed : server servers !! length pre = Some (anonymous (node other) 1)).
  { rewrite Hs. by apply list_lookup_middle. }
  unfold discover_iteration, server_at. rewrite Hseed.
  unfold bind at 1. cbn [ret]. unfold bind at 1. cbn [mongo_manager_log emit].
  unfold mirror_state.
  destruct other; cbn [node negb] in *.
  - mirror_step "b" "a" "a:1" repl Hseed.
  - mirror_step "a" "b" "b:1" repl Hseed.
Qed.

(** From either state of [mirror] the loop runs out of any fuel. *)
Lemma mirror_loop_never_ends fuel : forall other pre servers repl,
  server servers = pre ++ [anonymous (node other) 1] ->
  @discover_loop (collaborators mirror) fuel (length pre) servers repl (mirror_state other) =
    Timeout.
Proof.
  induction fuel as [|fuel IH]; intros other pre servers repl Hs; [done|].
  cbn [discover_loop]. rewrite bool_decide_eq_true_2.
  2:{ unfold count. rewrite Hs, length_app. cbn. lia. }
  destruct (mirror_iteration other pre servers repl Hs) as [evs Hrun].
  rewrite (bind_run _ _ _ _ _ _ Hrun). cbn [fst snd].
  replace (S (length pre)) with (length (pre ++ [anonymous (node other) 1]))
    by (rewrite length_app; cbn; lia).
  rewrite (IH (negb other) (pre ++ [anonymous (node other) 1])).
  - done.
  - cbn. by rewrite Hs.
Qed.

Lemma reply_of_elem table e r : reply_of table e = Some r -> (e, r) ∈ table.
Proof.
  induction table as [|[e' r'] table IH]; [done|]. cbn. case_bool_decide as He.
  - intros [= <-]. subst. by left.
  - intros Hr. right. by apply IH.
Qed.

(** What ismaster hands back in the simulation is an entry of the
    table, or an error without hosts. *)
Lemma sim_ismaster_out dep m d repl def (w : Z) :
  let o := (ismaster dep m d repl def w).1.1 in
  (res o = 0 /\ found_hosts o = []) \/
  exists e, (e, (res o, found_hosts o)) ∈ ismaster_reply dep.
Proof.
  unfold ismaster. destruct (reply_of _ _) as [[code hosts]|] eqn:Hr; cbn; [|by left].
  right. eexists. by eapply reply_of_elem.
Qed.

Lemma mirror_reports_within :
  @reports_within (collaborators mirror) mirror_space [anonymous "a" 1].
Proof.
  intros m d repl def w seed found_host Hseed Hhost.
  apply list_elem_of_singleton in Hseed as ->.
  destruct (sim_ismaster_out mirror m d repl def w) as [[_ Hnil]|[e He]].
  { cbn in Hhost, Hnil. rewrite Hnil in Hhost. by apply elem_of_nil in Hhost. }
  cbn in Hhost, He. revert Hhost. 
  generalize dependent (found_hosts (ismaster mirror m d repl def w).1.1).
  generalize (res (ismaster mirror m d repl def w).1.1).
  intros code hosts He Hhost.
  repeat (apply elem_of_cons in He as [He|He]); [..|by apply elem_of_nil in He];
    injection He as _ _ ->;
    apply list_elem_of_singleton in Hhost as ->;
    (eexists; split; [reflexivity|]); vm_compute; set_solver.
Qed.

Lemma mirror_state_ok other : @registry_ok (collaborators mirror) (mirror_state other).
Proof.
  split.
  - apply (bool_decide_unpack _). by destruct other.
  - intros item Hitem. apply list_elem_of_singleton in Hitem as ->.
    exists (connected (node other) 100). by destruct other.
Qed.

Lemma discovery_never_ends_in_mirror :
  @registry_ok (collaborators mirror) (mirror_state false) /\
  @reports_within (collaborators mirror) mirror_space [anonymous "a" 1] /\
  (forall fuel,
     @mongo_discover_topology (collaborators mirror) fuel
       (seeds [anonymous "a" 1] MONGO_CON_TYPE_REPLSET) (mirror_state false) = Timeout) /\
  (forall fuel,
     @mongo_get_read_write_connection (collaborators mirror) fuel
       (seeds [anonymous "a" 1] MONGO_CON_TYPE_REPLSET) 0 (fresh_state mirror 100) = Timeout).
Proof.
  split; [apply mirror_state_ok|]. split; [apply mirror_reports_within|].
  assert (Hloop : forall fuel,
    @mongo_discover_topology (collaborators mirror) fuel
      (seeds [anonymous "a" 1] MONGO_CON_TYPE_REPLSET) (mirror_state false) = Timeout).
  { intros fuel. unfold mongo_discover_topology.
    by apply (mirror_loop_never_ends fuel false []). }
  split; [exact Hloop|]. intros fuel.
  assert (Hseeds : exists evs,
    @replicaset_seeds (collaborators mirror) [anonymous "a" 1] 0 false None
      (fresh_state mirror 100) = Return true (mirror_state false) evs)
    by (eexists; run_eq).
  destruct Hseeds as [evs Hseeds].
  unfold mongo_get_read_write_connection. cbn [con_type seeds].
  unfold bind at 1. cbn [mongo_manager_log emit].
  unfold mongo_get_read_write_connection_replicaset. cbn [server].
  rewrite (bind_run _ _ _ _ _ _ Hseeds). cbn [negb andb].
  unfold bind at 1. fold (seeds [anonymous "a" 1] MONGO_CON_TYPE_REPLSET).
  by rewrite Hloop.
Qed.

(** In the simulation a connection made for a hash talks to the host
    and port the hash starts with. *)
Lemma sim_made_for dep d h :
  @made_for (collaborators dep) d h ->
  exists credentials,
    h = (peer d).1 +:+ ":" +:+ string_of_Z (peer d).2 +:+ ";" +:+ credentials.
Proof.
  induction 1 as [m def w d w' Hcreate|m d w h _ IH|m d database user pwd nonce w h _ IH
                 |m d w h _ IH|m d repl def w h _ IH]; cbn in *.
  - unfold create in Hcreate. case_bool_decide; [|done]. injection Hcreate as <- _.
    unfold create_hash. cbn. eauto.
  - done.
  - unfold authenticate. by destruct (String.eqb pwd "secret").
  - unfold ping. destruct (w <? _); [done|]. by case_bool_decide.
  - unfold ismaster. by destruct (reply_of _ _) as [[code hosts]|].
Qed.

Lemma rs0_removed_seed_unreported :
  @removed_seed_unreported (collaborators rs0) members_space.
Proof.
  intros m d repl def w Hmade Hres.
  apply sim_made_for in Hmade as (credentials & Hh). cbn in Hh, Hres |- *. rewrite Hh.
  unfold ismaster in Hres. destruct d as [[name number] pinged ms]. cbn in *.
  case_bool_decide as Hpeer.
  - injection Hpeer as <- <-. clear Hres. cbn. unfold members_space.
    set_unfold. intros Hin. destruct_or!; discriminate.
  - exfalso. repeat case_bool_decide; cbn in Hres; discriminate.
Qed.

Lemma one_connection_ok dep h pinged : @registry_ok (collaborators dep) (one_connection dep h pinged).
Proof.
  split.
  - apply (bool_decide_unpack _). done.
  - intros item Hitem. apply list_elem_of_singleton in Hitem as ->.
    by exists (connected h pinged).
Qed.

Lemma rs0_reports_within :
  @reports_within (collaborators rs0) members_space [anonymous "a" 1].
Proof.
  intros m d repl def w seed found_host Hseed Hhost.
  apply list_elem_of_singleton in Hseed as ->.
  destruct (sim_ismaster_out rs0 m d repl def w) as [[_ Hnil]|[e He]].
  { cbn in Hhost, Hnil. rewrite Hnil in Hhost. by apply elem_of_nil in Hhost. }
  cbn in Hhost, He. revert Hhost.
  generalize dependent (found_hosts (ismaster rs0 m d repl def w).1.1).
  generalize (res (ismaster rs0 m d repl def w).1.1).
  intros code hosts He Hhost.
  repeat (apply elem_of_cons in He as [He|He]); [..|by apply elem_of_nil in He];
    injection He as _ _ ->;
    (repeat (apply elem_of_cons in Hhost as [->|Hhost]); [..|by apply elem_of_nil in Hhost]);
    (eexists; split; [reflexivity|]); vm_compute; set_solver.
Qed.

(** The connection of [one_connection dep h pinged] is what a connect to
    [h:1] and a ping at the time [pinged] leave, if [h:1] listens. *)
Lemma one_connection_made dep h pinged :
  (h, 1) ∈ listening dep ->
  5 <= pinged ->
  @registry_made (collaborators dep) (one_connection dep h pinged).
Proof.
  intros Hlistening Hpinged item c Hitem Hc.
  apply list_elem_of_singleton in Hitem as ->. cbn in Hc.
  rewrite lookup_insert_eq in Hc. injection Hc as <-.
  eapply (@made_after_ping (collaborators dep) (manager_of []) _ pinged (inr tt) _ pinged).
  2:{ eapply (@made_by_create (collaborators dep) (manager_of []) (anonymous h 1) pinged).
      cbn. unfold create. cbn. by rewrite bool_decide_eq_true_2. }
  cbn. unfold ping. cbn.
  destruct (Z.ltb_spec pinged (0 + 5)); [lia|]. by rewrite bool_decide_eq_true_2.
Qed.

(** Discovery through the alias [a:1] of [rs0], which answers 3 and is
    deregistered: the loop terminates, with the three members appended
    and registered, and every definition of the list visited. *)
Lemma discovery_loop_probes_and_terminates_witness :
  exists fuel0 s' evs,
    (forall fuel, (fuel0 <= fuel)%nat ->
       @mongo_discover_topology (collaborators rs0) fuel
         (seeds [anonymous "a" 1] MONGO_CON_TYPE_REPLSET) (one_connection rs0 "a" 100) =
         Return (seeds [anonymous "a" 1; anonymous "b" 1; anonymous "c" 1; anonymous "d" 1]
                   MONGO_CON_TYPE_REPLSET) s' evs) /\
    item_hash <$> connections (manager s') = ["b:1;X"; "c:1;X"; "d:1;X"] /\
    probed evs = ["a:1;X"; "b:1;X"; "c:1;X"; "d:1;X"].
Proof.
  destruct (proj2 (proj2 (@discovery_loop_probes_and_terminates (collaborators rs0)))
              members_space (seeds [anonymous "a" 1] MONGO_CON_TYPE_REPLSET)
              (one_connection rs0 "a" 100))
    as (fuel0 & servers' & s' & evs & Hall & _).
  - apply one_connection_ok.
  - apply one_connection_made; [|lia]. set_solver.
  - apply rs0_reports_within.
  - apply rs0_removed_seed_unreported.
  - computed (@mongo_discover_topology (collaborators rs0) 10
                (seeds [anonymous "a" 1] MONGO_CON_TYPE_REPLSET) (one_connection rs0 "a" 100)).
    pose proof (Hall (Nat.max fuel0 10) ltac:(lia)) as Hbig.
    unfold mongo_discover_topology in Hbig, Hrun.
    rewrite (@discover_loop_fuel (collaborators rs0) 10 (Nat.max fuel0 10) _ _ _ _ _ _ _
               ltac:(lia) Hrun) in Hbig.
    injection Hbig as <- <- <-.
    exists fuel0. eexists _, _. split; [exact Hall|]. split; reflexivity.
Defined.

Example discovery_of_members :
  match @mongo_discover_topology (collaborators rs) 10
          (seeds [anonymous "b" 1] MONGO_CON_TYPE_REPLSET) (one_connection rs "b" 100) with
  | Return servers' _ evs => (host <$> server servers', probed evs)
  | _ => ([], [])
  end = (["b"; "c"; "d"], ["b:1;X"; "c:1;X"; "d:1;X"]).
Proof. vm_compute. reflexivity. Qed.

(** * The further properties at work *)

(** ** The registry *)

Lemma register_then_find_witness :
  exists s',
    @mongo_manager_connection_register (collaborators rs) 1%positive (two_connections rs) =
      Return tt s' [] /\
    item_hash <$> connections (manager s') = ["b:1;X"; "c:1;X"; "b:1;X"] /\
    exists evs,
      @mongo_manager_connection_find_by_hash (collaborators rs) "b:1;X" s' =
        Return (Some 1%positive) s' evs.
Proof.
  destruct (@register_then_find (collaborators rs) 1%positive (connected "b" 0) "b:1;X"
              (two_connections rs) eq_refl eq_refl)
    as (s' & Hrun & Hl & _ & _ & Hfind & _).
  exists s'. split; [exact Hrun|]. split; [by rewrite Hl|exact Hfind].
Defined.

Lemma deregister_unlinks_by_hash_witness :
  exists s',
    @mongo_manager_connection_deregister (collaborators rs) 2%positive (two_connections rs) =
      Return 1 s'
        [EvDestroy 2%positive;
         EvLog MLOG_CON MLOG_INFO "freeing connection %s" [LogStr (Some "c:1;X")]] /\
    connections (manager s') = [registered "b" 1%positive] ++ [] /\
    heap s' = delete 2%positive (heap (two_connections rs)).
Proof.
  apply (@deregister_unlinks_by_hash (collaborators rs) 2%positive (connected "c" 0) "c:1;X"
           [registered "b" 1%positive] (registered "c" 2%positive) [] (two_connections rs)).
  - reflexivity.
  - reflexivity.
  - reflexivity.
  - by apply find_item_None.
  - reflexivity.
Defined.

Lemma register_then_deregister_witness :
  exists s' evs,
    (@mongo_manager_connection_register (collaborators rs) 1%positive ;;
     @mongo_manager_connection_deregister (collaborators rs) 1%positive) (detached rs) =
      Return 1 s' evs /\
    connections (manager s') = [] /\
    heap s' = delete 1%positive (heap (detached rs)) /\
    destroyed evs = [1%positive].
Proof.
  apply (@register_then_deregister (collaborators rs) 1%positive (connected "b" 0) "b:1;X"
           (detached rs)).
  - reflexivity.
  - reflexivity.
  - by apply find_item_None.
Defined.

(** ** Single-connection acquire *)

Lemma single_dont_connect_is_lookup_witness :
  exists evs,
    @mongo_get_connection_single (collaborators down) (anonymous "b" 1) 4 (stale down) =
      Return (Some 1%positive, None) (stale down) evs /\
    steps evs = [].
Proof.
  apply (@single_dont_connect_is_lookup (collaborators down) (anonymous "b" 1) 4 (stale down)).
  reflexivity.
Defined.

(** The registered connection to [b:1] is stale and nothing listens: the
    ping fails and the connection is removed. *)
Lemma single_pings_registered_witness :
  exists s' evs,
    @mongo_get_connection_single (collaborators down) (anonymous "b" 1) 0 (stale down) =
      Return (None, Some "Ping failed") s' evs /\
    connections (manager s') = [] /\
    heap s' = delete 1%positive (heap (stale down)) /\
    steps evs = [(StepPing, false); (StepDestroy, true)].
Proof.
  destruct (@single_pings_registered (collaborators down) (anonymous "b" 1) 0 (stale down)
              (registered "b" 1%positive) (one_connection_ok down "b" 0) eq_refl eq_refl)
    as (c & r & s' & evs & Hc & Hrun & _ & Hcases).
  assert (Some c = Some (connected "b" 0)) as [= ->] by (rewrite <- Hc; reflexivity).
  change (@mongo_connection_ping (collaborators down) (manager (stale down))
            (payload (connected "b" 0)) (wire (stale down)))
    with (@inl string unit "Ping failed", payload (connected "b" 0), 100) in Hcases.
  destruct Hcases as (-> & (before & after & Hl & _ & Hl') & Hheap & Hsteps).
  exists s', evs. split; [exact Hrun|]. split; [|by split].
  destruct before as [|x before].
  - by injection Hl as <-.
  - apply (f_equal length) in Hl. cbn in Hl. rewrite length_app in Hl. cbn in Hl. lia.
Defined.

Lemma acquire_then_lookup_witness :
  exists s' evs',
    @mongo_get_connection_single (collaborators rs) (anonymous "b" 1) 4 s' =
      Return (Some 1%positive, None) s' evs' /\
    steps evs' = [].
Proof.
  computed (@mongo_get_connection_single (collaborators rs) (anonymous "b" 1) 0
              (fresh_state rs 100)).
  eexists.
  exact (@acquire_then_lookup (collaborators rs) (anonymous "b" 1) 0 4 (fresh_state rs 100)
           _ _ _ _ Hrun eq_refl).
Defined.

(** ** Topology discovery *)

Lemma discovery_skips_unregistered_witness :
  @mongo_discover_topology (collaborators down) 2
    (seeds [anonymous "a" 1] MONGO_CON_TYPE_REPLSET) (fresh_state down 100) =
    Return (seeds [anonymous "a" 1] MONGO_CON_TYPE_REPLSET) (fresh_state down 100)
      [EvLog MLOG_CON MLOG_FINE "discover_topology: checking ismaster for %s"
         [LogStr (Some "a:1;X")];
       EvLog MLOG_CON MLOG_WARN "discover_topology: couldn't create a connection for %s"
         [LogStr (Some "a:1;X")]].
Proof.
  apply (@discovery_skips_unregistered (collaborators down) 2%nat
           (seeds [anonymous "a" 1] MONGO_CON_TYPE_REPLSET) (fresh_state down 100)).
  - intros def _. reflexivity.
  - cbn. lia.
Defined.

(** Nothing answers in [down]: the probe of the registered connection
    answers 0 and the connection is removed. *)
Lemma discovery_iteration_without_expansion_witness :
  exists s' evs,
    @discover_iteration (collaborators down) 0 (seeds [anonymous "a" 1] MONGO_CON_TYPE_REPLSET)
      None (one_connection down "a" 100) =
      Return (seeds [anonymous "a" 1] MONGO_CON_TYPE_REPLSET, None) s' evs /\
    created evs = [] /\
    heap s' = delete 1%positive (heap (one_connection down "a" 100)) /\
    destroyed evs = [1%positive].
Proof.
  destruct (@discovery_iteration_without_expansion (collaborators down) 0
              (seeds [anonymous "a" 1] MONGO_CON_TYPE_REPLSET) None (anonymous "a" 1)
              (registered "a" 1%positive) (connected "a" 100) (one_connection down "a" 100)
              {| res := 0; out_repl_set_name := None; found_hosts := [];
                 out_error_message := Some "no reply" |}
              (payload (connected "a" 100)) 100
              eq_refl eq_refl eq_refl eq_refl eq_refl ltac:(discriminate) ltac:(discriminate))
    as (s' & evs & Hrun & Hcreated & _ & Hheap & Hdestroyed).
  by exists s', evs.
Defined.

(** A reported port beyond the range of an [int]: [atoi] gives its low
    32 bits. *)
Example port_beyond_int :
  tmp_def_of (anonymous "a" 1) "b:4294967297" = Some (anonymous "b" 1).
Proof. reflexivity. Qed.

Lemma found_host_without_colon_faults_witness :
  @discover_iteration (collaborators malformed) 0
    (seeds [anonymous "a" 1] MONGO_CON_TYPE_REPLSET) None (one_connection malformed "a" 100) =
    Crash "strchr found no colon in found_hosts[j]".
Proof.
  apply (@found_host_without_colon_faults (collaborators malformed) 0
           (seeds [anonymous "a" 1] MONGO_CON_TYPE_REPLSET) None (anonymous "a" 1)
           (registered "a" 1%positive) (connected "a" 100) (one_connection malformed "a" 100)
           {| res := 1; out_repl_set_name := None; found_hosts := ["b"];
              out_error_message := None |}
           (payload (connected "a" 100)) 100 "b" []).
  - reflexivity.
  - reflexivity.
  - reflexivity.
  - reflexivity.
  - reflexivity.
  - reflexivity.
  - apply (bool_decide_unpack _). vm_compute. exact I.
Defined.

Lemma discovery_appends_with_seed_credentials_witness :
  exists servers' s' evs,
    @mongo_discover_topology (collaborators rs) 10
      (seeds [anonymous "b" 1] MONGO_CON_TYPE_REPLSET) (one_connection rs "b" 100) =
      Return servers' s' evs /\
    host <$> server servers' = ["b"; "c"; "d"] /\
    forall def, def ∈ server servers' ->
      exists seed, seed ∈ [anonymous "b" 1] /\ same_credentials def seed.
Proof.
  computed (@mongo_discover_topology (collaborators rs) 10
              (seeds [anonymous "b" 1] MONGO_CON_TYPE_REPLSET) (one_connection rs "b" 100)).
  eexists _, _, _. split; [exact Hrun|]. split; [reflexivity|].
  exact (proj2 (@discovery_appends_with_seed_credentials (collaborators rs) 10%nat
                  (seeds [anonymous "b" 1] MONGO_CON_TYPE_REPLSET) (one_connection rs "b" 100)
                  _ _ _ Hrun)).
Defined.

(** ** The strategies *)

Lemma lookup_only_without_connection_witness :
  @mongo_get_read_write_connection (collaborators rs) 0 (seeds [] MONGO_CON_TYPE_REPLSET) 4
    (fresh_state rs 100) =
    Return (seeds [] MONGO_CON_TYPE_REPLSET, None, None) (fresh_state rs 100)
      [EvLog MLOG_CON MLOG_INFO
         "mongo_get_read_write_connection: finding a REPLSET connection (%s)"
         [LogStr (Some "read")]].
Proof.
  apply (@lookup_only_without_connection (collaborators rs) 0%nat
           (seeds [] MONGO_CON_TYPE_REPLSET) 4 (fresh_state rs 100)).
  - reflexivity.
  - intros def _. reflexivity.
  - intros n. discriminate.
Defined.

Lemma multiple_never_probes_witness :
  exists servers' con err s' evs,
    @mongo_get_read_write_connection (collaborators rs0) 10
      (seeds [anonymous "a" 1] MONGO_CON_TYPE_STANDALONE) 0 (fresh_state rs0 100) =
      Return (servers', con, err) s' evs /\
    servers' = seeds [anonymous "a" 1] MONGO_CON_TYPE_STANDALONE /\
    ismaster_calls evs = [].
Proof.
  computed (@mongo_get_read_write_connection (collaborators rs0) 10
              (seeds [anonymous "a" 1] MONGO_CON_TYPE_STANDALONE) 0 (fresh_state rs0 100)).
  eexists _, _, _, _, _. split; [exact Hrun|].
  exact (@multiple_never_probes (collaborators rs0) 10%nat
           (seeds [anonymous "a" 1] MONGO_CON_TYPE_STANDALONE) 0 (fresh_state rs0 100)
           _ _ _ _ _ (or_introl eq_refl) Hrun).
Defined.

(** A lookup for the standalone server [b:1], whose connection is
    registered and stale: it is handed back without a ping. *)
Lemma multiple_dont_connect_is_lookup_witness :
  exists servers' err s' evs,
    @mongo_get_read_write_connection (collaborators rs) 10
      (seeds [anonymous "b" 1] MONGO_CON_TYPE_STANDALONE) 4 (stale rs) =
      Return (servers', Some 1%positive, err) s' evs /\
    steps evs = [] /\ manager s' = manager (stale rs) /\ heap s' = heap (stale rs) /\
    (err = None \/ err = Some "No candidate servers found").
Proof.
  computed (@mongo_get_read_write_connection (collaborators rs) 10
              (seeds [anonymous "b" 1] MONGO_CON_TYPE_STANDALONE) 4 (stale rs)).
  eexists _, _, _, _. split; [exact Hrun|].
  exact (@multiple_dont_connect_is_lookup (collaborators rs) 10%nat
           (seeds [anonymous "b" 1] MONGO_CON_TYPE_STANDALONE) 4 (stale rs)
           _ _ _ _ _ (or_introl eq_refl) eq_refl Hrun).
Defined.

(** A write on the replica set [rs0]: the candidates are filtered with
    type [MONGO_RP_PRIMARY], and sorted, narrowed and picked with the
    caller's [nearest]. *)
Lemma selection_uses_caller_preference_witness :
  exists servers' con s' evs,
    @mongo_get_read_write_connection (collaborators rs0) 10
      (seeds [anonymous "a" 1] MONGO_CON_TYPE_REPLSET) 2 (fresh_state rs0 100) =
      Return (servers', Some con, None) s' evs /\
    (type <$> (candidate_calls evs).*1.*1) = [MONGO_RP_PRIMARY] /\
    selection_calls evs =
      [(CallSort, nearest); (CallSelectNearest, nearest); (CallPick, nearest)].
Proof.
  computed (@mongo_get_read_write_connection (collaborators rs0) 10
              (seeds [anonymous "a" 1] MONGO_CON_TYPE_REPLSET) 2 (fresh_state rs0 100)).
  eexists _, _, _, _. split; [exact Hrun|]. split; [reflexivity|].
  destruct (@selection_uses_caller_preference (collaborators rs0) 10%nat
              (seeds [anonymous "a" 1] MONGO_CON_TYPE_REPLSET) 2 (fresh_state rs0 100)
              _ _ _ _ _ Hrun) as [[_ [=]]|[Hcalls _]].
  exact Hcalls.
Defined.

Lemma fresh_state_ok dep now : @registry_ok (collaborators dep) (fresh_state dep now).
Proof.
  split; [apply NoDup_nil_2|]. intros item Hitem. by apply elem_of_nil in Hitem.
Qed.

(** In the simulation the reported hosts are those of the table. *)
Lemma sim_hosts_have_colon dep :
  Forall (fun entry => Forall (fun h => is_Some (split_colon h)) entry.2.2)
    (ismaster_reply dep) ->
  @reported_hosts_have_colon (collaborators dep).
Proof.
  intros Htable m d repl def w found_host Hhost.
  destruct (sim_ismaster_out dep m d repl def w) as [[_ Hnil]|[e He]].
  { cbn in Hhost, Hnil. rewrite Hnil in Hhost. by apply elem_of_nil in Hhost. }
  rewrite Forall_forall in Htable. specialize (Htable _ He). cbn in Htable.
  rewrite Forall_forall in Htable. by apply Htable.
Qed.

Lemma acquisition_keeps_registry_witness :
  match @mongo_get_read_write_connection (collaborators rs0) 10
          (seeds [anonymous "a" 1] MONGO_CON_TYPE_REPLSET) 0 (fresh_state rs0 100) with
  | Return _ s' _ =>
      registry_ok s' /\
      (unique_hashes (fresh_state rs0 100) -> unique_hashes s') /\
      (tidy (fresh_state rs0 100) -> tidy s')
  | Crash _ => False
  | Timeout => con_type (seeds [anonymous "a" 1] MONGO_CON_TYPE_REPLSET) = MONGO_CON_TYPE_REPLSET
  end.
Proof.
  apply (@acquisition_keeps_registry (collaborators rs0) 10%nat
           (seeds [anonymous "a" 1] MONGO_CON_TYPE_REPLSET) 0 (fresh_state rs0 100)).
  - apply fresh_state_ok.
  - discriminate.
  - apply sim_hosts_have_colon. repeat constructor; by eexists.
Defined.

(** Two acquisitions in [rs0], then the teardown. *)
Lemma session_ends_clean_witness :
  match (@acquisitions (collaborators rs0)
           [(10%nat, seeds [anonymous "a" 1] MONGO_CON_TYPE_REPLSET, 0);
            (10%nat, seeds [anonymous "c" 1] MONGO_CON_TYPE_STANDALONE, 2)] ;;
         @mongo_deinit (collaborators rs0)) (@initial (collaborators rs0) 100) with
  | Return _ s' _ => connections (manager s') = [] /\ heap s' = ∅
  | Crash _ => False
  | Timeout => True
  end.
Proof.
  apply (@session_ends_clean (collaborators rs0)
           [(10%nat, seeds [anonymous "a" 1] MONGO_CON_TYPE_REPLSET, 0);
            (10%nat, seeds [anonymous "c" 1] MONGO_CON_TYPE_STANDALONE, 2)] 100).
  - apply sim_hosts_have_colon. repeat constructor; by eexists.
  - repeat constructor; discriminate.
Defined.

(** The session above runs to its end and destroys the four connections
    it has created. *)
Example session_in_rs0 :
  match (@acquisitions (collaborators rs0)
           [(10%nat, seeds [anonymous "a" 1] MONGO_CON_TYPE_REPLSET, 0);
            (10%nat, seeds [anonymous "c" 1] MONGO_CON_TYPE_STANDALONE, 2)] ;;
         @mongo_deinit (collaborators rs0)) (@initial (collaborators rs0) 100) with
  | Return _ _ evs => (length (created evs), length (destroyed evs))
  | _ => (0%nat, 0%nat)
  end = (4%nat, 4%nat).
Proof. vm_compute. reflexivity. Qed.

End Scenarios.
